(** * MM_base: the OpenMM run-control base class of mm_base

    A shallow embedding of [MM_class_base.py].  The class drives the OpenMM
    engine; the engine's objects (topology, force field, system, forces,
    integrator, simulation, context) are modelled by the few fields the class
    reads or writes, and the Python object [self] by its attribute
    dictionary.  Python exceptions and [sys.exit] are outcomes of a small
    state-and-exception monad. *)

From Stdlib Require Import ZArith List String Bool Lia.
From Stdlib Require Import Floats.SpecFloat.
From stdpp Require Import base option list gmap strings.

Set Warnings "-register-all".

Open Scope string_scope.
Open Scope list_scope.
Open Scope Z_scope.

(* ===================================================================== *)
(** ** Python values and the builtins the class uses *)
(* ===================================================================== *)

(** Python floats are IEEE binary64 numbers. *)
Definition prec : Z := 53.
Definition emax : Z := 1024.

Definition float_of_Z (z : Z) : spec_float :=
  binary_normalize prec emax z 0 false.

(** The double nearest to the decimal literal [n/d] (one correctly rounded
    division of two exactly representable integers). *)
Definition float_lit (n d : Z) : spec_float :=
  SFdiv prec emax (float_of_Z n) (float_of_Z d).
Arguments float_lit : simpl never.

(** The exceptions the class meets: Python's own, the engine's
    [OpenMMException], and [SystemExit] for [sys.exit()]. *)
Inductive exn :=
| IndexError
| KeyError (key : string)
| TypeError
| ValueError
| OverflowError
| AttributeError (name : string)
| OpenMMException
| SystemExit.

Inductive pyvalue :=
| PyNone
| PyBool (b : bool)
| PyInt (z : Z)
| PyFloat (f : spec_float)
| PyStr (s : string)
| PyList (l : list pyvalue).

(** Results of pure builtins: a value or a raised exception. *)
Definition result (A : Type) : Type := exn + A.

(** [bool(v)] / the truth value tested by [if v:]. *)
Definition py_truthy (v : pyvalue) : bool :=
  match v with
  | PyNone => false
  | PyBool b => b
  | PyInt z => negb (Z.eqb z 0)
  | PyFloat (S754_zero _) => false
  | PyFloat _ => true
  | PyStr s => negb (String.eqb s "")
  | PyList l => match l with [] => false | _ => true end
  end.

(** Truncation of a float toward zero, as [int(f)] does. *)
Definition float_trunc (f : spec_float) : result Z :=
  match f with
  | S754_zero _ => inr 0
  | S754_infinity _ => inl OverflowError
  | S754_nan => inl ValueError
  | S754_finite s m e =>
      let a := match e with
               | Zneg p => Z.pos m / 2 ^ Z.pos p
               | _ => Z.pos m * 2 ^ e
               end in
      inr (if s then - a else a)
  end.

Section Builtins.
(** The parsers behind [int(str)] and [float(str)] belong to the Python
    runtime; they are parameters of the model. *)
Variable parse_int : string -> option Z.
Variable parse_float : string -> option spec_float.

(** [int(v)] *)
Definition py_int (v : pyvalue) : result Z :=
  match v with
  | PyBool b => inr (Z.b2z b)
  | PyInt z => inr z
  | PyFloat f => float_trunc f
  | PyStr s => match parse_int s with Some z => inr z | None => inl ValueError end
  | PyNone | PyList _ => inl TypeError
  end.

(** [float(v)] *)
Definition py_float (v : pyvalue) : result spec_float :=
  match v with
  | PyBool b => inr (float_of_Z (Z.b2z b))
  | PyInt z =>
      match float_of_Z z with
      | S754_infinity _ => inl OverflowError
      | f => inr f
      end
  | PyFloat f => inr f
  | PyStr s => match parse_float s with Some f => inr f | None => inl ValueError end
  | PyNone | PyList _ => inl TypeError
  end.
End Builtins.

(** [v == s] for a string literal [s]: only an equal string compares equal. *)
Definition py_eq_str (v : pyvalue) (s : string) : bool :=
  match v with
  | PyStr t => String.eqb t s
  | _ => false
  end.

(** Is [p] a prefix of [s], and does [p] occur in [s] ([p in s] on strings). *)
Fixpoint is_prefix (p s : string) : bool :=
  match p, s with
  | EmptyString, _ => true
  | String a p', String b s' => Ascii.eqb a b && is_prefix p' s'
  | String _ _, EmptyString => false
  end.

Fixpoint is_substring (p s : string) : bool :=
  is_prefix p s ||
  match s with
  | EmptyString => false
  | String _ s' => is_substring p s'
  end.

(** [x in c] for a string [x]: list membership by [==], substring test on a
    string, [TypeError] on a value that is not iterable. *)
Definition py_str_in (x : string) (c : pyvalue) : result bool :=
  match c with
  | PyList l => inr (existsb (fun v => py_eq_str v x) l)
  | PyStr s => inr (is_substring x s)
  | PyNone | PyBool _ | PyInt _ | PyFloat _ => inl TypeError
  end.

(* ===================================================================== *)
(** ** Engine objects, as far as the class touches them *)
(* ===================================================================== *)

Inductive Unit := kelvin | per_picosecond | picoseconds | nanometer | atmosphere.

Inductive number := NInt (z : Z) | NFloat (f : spec_float).

(** [value*unit] and [value/unit] build a quantity that keeps the value. *)
Record Quantity := mkQuantity { qvalue : number; qunit : Unit }.

Definition Vec3 : Type := spec_float * spec_float * spec_float.
Definition Positions : Type := list Vec3.

Record Atom := { atom_name : string; atom_index : nat }.
Record Residue := { res_name : string; _atoms : list Atom }.
Record Topology := { residues : list Residue }.

Record TemplateAtom := { ta_name : string; ta_type : string }.
Record Template := { atoms : list TemplateAtom }.
Record ForceField := { _templates : gmap string Template }.

Inductive ForceType :=
| NonbondedForce | CustomNonbondedForce | DrudeForce | CustomBondForce
| HarmonicBondForce | HarmonicAngleForce | PeriodicTorsionForce
| RBTorsionForce | MonteCarloBarostat
| OtherForce (cls : string).

#[global] Instance ForceType_eq_dec : EqDecision ForceType.
Proof. solve_decision. Defined.

(** Values of the engine's nonbonded-method enumeration. *)
Definition NoCutoff : Z := 0.
Definition CutoffNonPeriodic : Z := 1.
Definition CutoffPeriodic : Z := 2.
Definition Ewald : Z := 3.
Definition PME : Z := 4.

(** [usePeriodic] is the setting that [setUsesPeriodicBoundaryConditions]
    stores.  For the four bonded force types it is what
    [usesPeriodicBoundaryConditions()] answers; a NonbondedForce answers from
    its nonbonded method instead. *)
Record Force := mkForce {
  ftype : ForceType;
  forceGroup : nat;
  nonbondedMethod : Z;
  usePeriodic : bool;
  barostat_args : option (Quantity * Quantity * Z)
}.

(** [f.setForceGroup(g)]: the engine has the force groups 0 to 31 and
    raises its own exception for any other number. *)
Definition max_force_group : nat := 31.

Definition setForceGroup (g : nat) (f : Force) : result Force :=
  if bool_decide (g <= max_force_group)%nat
  then inr (mkForce (ftype f) g (nonbondedMethod f) (usePeriodic f)
                    (barostat_args f))
  else inl OpenMMException.
Definition setNonbondedMethod (m : Z) (f : Force) : Force :=
  mkForce (ftype f) (forceGroup f) m (usePeriodic f) (barostat_args f).
Definition setUsesPeriodicBoundaryConditions (b : bool) (f : Force) : Force :=
  mkForce (ftype f) (forceGroup f) (nonbondedMethod f) b (barostat_args f).

(** [MonteCarloBarostat(pressure, temperature, frequency)] *)
Definition new_MonteCarloBarostat (p t : Quantity) (freq : Z) : Force :=
  mkForce MonteCarloBarostat 0%nat 0 false (Some (p, t, freq)).

(** A system is its list of forces; a force object handed out by
    [getForce(i)] is the reference [i] into that list. *)
Record System := mkSystem { forces : list Force }.

Inductive Integrator :=
| LangevinIntegrator (temperature friction timestep : Quantity)
| DrudeLangevinIntegrator
    (temperature friction temperature_drude friction_drude timestep : Quantity)
    (maxDrudeDistance : spec_float).

Inductive Reporter :=
| DCDReporter (file reportInterval append : pyvalue)
| CheckpointReporter (file reportInterval : pyvalue).

(** The context keeps the positions it was given; [reinitialize] drops
    them (back to no positions).  [reinitialized] counts the calls. *)
Record Context := mkContext {
  ctx_positions : Positions;
  reinitialized : nat
}.

Record Simulation := mkSimulation {
  sim_topology : Topology;
  sim_integrator : Integrator;
  sim_platform : string;
  sim_properties : option (list (string * string));
  reporters : list Reporter;
  context : Context
}.

Definition set_reporters (rs : list Reporter) (s : Simulation) : Simulation :=
  mkSimulation (sim_topology s) (sim_integrator s) (sim_platform s)
               (sim_properties s) rs (context s).
Definition set_context (c : Context) (s : Simulation) : Simulation :=
  mkSimulation (sim_topology s) (sim_integrator s) (sim_platform s)
               (sim_properties s) (reporters s) c.

(** What an attribute of [self] can hold. *)
Inductive attr :=
| VPy (v : pyvalue)
| VQuantity (q : Quantity)
| VPDB (top : Topology) (pos : Positions)
| VModeller (top : Topology) (pos : Positions)
| VForceField (ff : ForceField)
| VSystem
| VForce (i : nat)
| VForceList (l : list nat)
| VIntegrator (it : Integrator)
| VPlatform (name : string)
| VProperties (props : list (string * string))
| VSimulation (sim : Simulation).

(** Calls that leave the class: console output, the engine's global bond
    table, and the functions of the sibling modules [rigid] and
    [MM_exclusions_base]. *)
Inductive event :=
| Print (msg : string)
| PrintFmt (fmt : string) (arg : attr)
| LoadBondDefinitions (file : string)
| CreateRigidBodies (bodies : list (list nat))
| SAPT_FF_exclusions
| Exclusions_water (cnf : attr) (water_name : pyvalue).

(** The engine and the sibling modules, as the class calls them.  Their
    failures that depend on the environment (a missing file, an unavailable
    platform) are outside the model: every call returns.  The engine's check
    of a force group depends on the number the class passes and is part of
    [setForceGroup]. *)
Record Engine := {
  parse_int : string -> option Z;
  parse_float : string -> option spec_float;
  PDBFile : string -> Topology * Positions;
  load_ForceField : list string -> ForceField;
  addExtraParticles : ForceField -> Topology * Positions -> Topology * Positions;
  createSystem : ForceField -> Topology -> attr -> System;
  createRigidBodies : System -> Positions -> list (list nat) -> System;
  generate_SAPT_FF_exclusions : System -> Simulation -> System * Simulation;
  generate_exclusions_water :
    attr -> pyvalue -> System -> Simulation -> System * Simulation
}.

(* ===================================================================== *)
(** ** The state and the monad *)
(* ===================================================================== *)

(** [self] is its attribute dictionary; the system object is shared by
    [self.system], the force references and the simulation, so it lives in
    the store. *)
Record World := mkWorld {
  self : gmap string attr;
  system : System;
  out : list event
}.

Definition empty_world : World := mkWorld ∅ (mkSystem []) [].

Inductive outcome (A : Type) :=
| Ok (a : A) (w : World)
| Raise (e : exn) (w : World).
Arguments Ok {A} a w.
Arguments Raise {A} e w.

Definition M (A : Type) : Type := World -> outcome A.

#[global] Instance M_ret : MRet M := fun A a w => Ok a w.
#[global] Instance M_bind : MBind M := fun A B f m w =>
  match m w with
  | Ok a w' => f a w'
  | Raise e w' => Raise e w'
  end.

Definition raise {A} (e : exn) : M A := fun w => Raise e w.

Definition lift {A} (r : result A) : M A :=
  match r with
  | inl e => raise e
  | inr a => mret a
  end.

(** [self.name] *)
Definition getattr (name : string) : M attr := fun w =>
  match self w !! name with
  | Some a => Ok a w
  | None => Raise (AttributeError name) w
  end.

(** [self.name = a] *)
Definition setattr (name : string) (a : attr) : M unit := fun w =>
  Ok tt (mkWorld (<[name := a]> (self w)) (system w) (out w)).

Definition emit (ev : event) : M unit := fun w =>
  Ok tt (mkWorld (self w) (system w) (out w ++ [ev])).

Definition print (msg : string) : M unit := emit (Print msg).

Definition get_system : M System := fun w => Ok (system w) w.
Definition put_system (s : System) : M unit := fun w =>
  Ok tt (mkWorld (self w) s (out w)).

(** [sys.exit()] *)
Definition sys_exit {A} : M A := raise SystemExit.

Fixpoint for_each {A} (l : list A) (body : A -> M unit) : M unit :=
  match l with
  | [] => mret tt
  | x :: rest => body x;; for_each rest body
  end.

(** Truth value of an attribute ([if self.x:]).  Engine objects are
    plain objects (always true); a quantity is as true as its value. *)
Definition attr_truthy (a : attr) : bool :=
  match a with
  | VPy v => py_truthy v
  | VQuantity q =>
      match qvalue q with
      | NInt z => py_truthy (PyInt z)
      | NFloat f => py_truthy (PyFloat f)
      end
  | VForceList l => match l with [] => false | _ => true end
  | VProperties props => match props with [] => false | _ => true end
  | _ => true
  end.

(** [a[0]]: the first element of a list, [TypeError] on an object that is
    not subscriptable. *)
Definition attr_item0 (a : attr) : result attr :=
  match a with
  | VForceList (i :: _) => inr (VForce i)
  | VForceList [] => inl IndexError
  | VPy (PyList (x :: _)) => inr (VPy x)
  | VPy (PyList []) => inl IndexError
  | VPy (PyStr (String c _)) => inr (VPy (PyStr (String c "")))
  | VPy (PyStr EmptyString) => inl IndexError
  | VProperties _ => inl (KeyError "0")
  | _ => inl TypeError
  end.

Definition attr_eq_str (a : attr) (s : string) : bool :=
  match a with
  | VPy v => py_eq_str v s
  | _ => false
  end.

Definition as_quantity (a : attr) : M Quantity :=
  match a with
  | VQuantity q => mret q
  | _ => raise TypeError
  end.

(** [self.system], dereferenced. *)
Definition self_system : M System :=
  a ← getattr "system";
  match a with
  | VSystem => get_system
  | _ => raise TypeError
  end.

Definition self_modeller : M (Topology * Positions) :=
  a ← getattr "modeller";
  match a with
  | VModeller top pos => mret (top, pos)
  | _ => raise TypeError
  end.

Definition self_forcefield : M ForceField :=
  a ← getattr "forcefield";
  match a with
  | VForceField ff => mret ff
  | _ => raise TypeError
  end.

(** [[f for f in [sys.getForce(i) for i in range(sys.getNumForces())]
      if type(f) == t]], as references. *)
Definition forces_of_type (t : ForceType) (sys : System) : list nat :=
  filter (fun i => ftype <$> forces sys !! i = Some t)
         (seq 0 (length (forces sys))).

(** Methods of a force object, called through a reference. *)
Definition call_setNonbondedMethod (f : attr) (m : Z) : M unit :=
  match f with
  | VForce i =>
      sys ← get_system;
      put_system (mkSystem (alter (setNonbondedMethod m) i (forces sys)))
  | _ => raise (AttributeError "setNonbondedMethod")
  end.

Definition call_getNonbondedMethod (f : attr) : M Z :=
  match f with
  | VForce i =>
      sys ← get_system;
      match forces sys !! i with
      | Some fo => mret (nonbondedMethod fo)
      | None => raise IndexError
      end
  | _ => raise (AttributeError "getNonbondedMethod")
  end.

(* ===================================================================== *)
(** ** [MM_base.__init__] *)
(* ===================================================================== *)

Section MM_base.
Variable E : Engine.

(** Lines 27-36: default run parameters. *)
Definition init_defaults : M unit :=
  setattr "temperature" (VQuantity (mkQuantity (NInt 300) kelvin));;
  setattr "temperature_drude" (VQuantity (mkQuantity (NInt 1) kelvin));;
  setattr "friction" (VQuantity (mkQuantity (NInt 1) per_picosecond));;
  setattr "friction_drude" (VQuantity (mkQuantity (NInt 1) per_picosecond));;
  setattr "timestep" (VQuantity (mkQuantity (NFloat (float_lit 1 1000)) picoseconds));;
  setattr "small_threshold" (VPy (PyFloat (float_lit 1 1000000)));;
  setattr "cutoff" (VQuantity (mkQuantity (NFloat (float_lit 14 10)) nanometer));;
  setattr "nonbonded_method" (VPy (PyStr "PME"));;
  setattr "npt_barostat" (VPy (PyBool false));;
  setattr "rigid_body" (VPy PyNone).

(** [if key in kwargs: self.key = conv(kwargs[key])] *)
Definition kw_override (kwargs : gmap string pyvalue) (key : string)
           (conv : pyvalue -> result attr) : M unit :=
  match kwargs !! key with
  | Some v => a ← lift (conv v); setattr key a
  | None => mret tt
  end.

(** [int(v)*unit] (and [int(v)/picosecond]) *)
Definition conv_int (u : Unit) (v : pyvalue) : result attr :=
  match py_int (parse_int E) v with
  | inl e => inl e
  | inr z => inr (VQuantity (mkQuantity (NInt z) u))
  end.

(** [float(v)*unit] *)
Definition conv_float (u : Unit) (v : pyvalue) : result attr :=
  match py_float (parse_float E) v with
  | inl e => inl e
  | inr f => inr (VQuantity (mkQuantity (NFloat f) u))
  end.

(** [float(v)] *)
Definition conv_plain_float (v : pyvalue) : result attr :=
  match py_float (parse_float E) v with
  | inl e => inl e
  | inr f => inr (VPy (PyFloat f))
  end.

(** [self.key = kwargs[key]] when the key is present *)
Definition conv_copy (v : pyvalue) : result attr := inr (VPy v).

(** Lines 55-57: the barostat switch and its pressure. *)
Definition kw_barostat (kwargs : gmap string pyvalue) : M unit :=
  match kwargs !! "npt_barostat" with
  | Some v =>
      setattr "npt_barostat" (VPy (PyBool (py_truthy v)));;
      match kwargs !! "pressure" with
      | Some p => a ← lift (conv_float atmosphere p); setattr "pressure" a
      | None => raise (KeyError "pressure")
      end
  | None => mret tt
  end.

(** Lines 39-59: keyword input overrides the defaults. *)
Definition init_kwargs (kwargs : gmap string pyvalue) : M unit :=
  kw_override kwargs "temperature" (conv_int kelvin);;
  kw_override kwargs "temperature_drude" (conv_int kelvin);;
  kw_override kwargs "friction" (conv_int per_picosecond);;
  kw_override kwargs "friction_drude" (conv_int per_picosecond);;
  kw_override kwargs "timestep" (conv_float picoseconds);;
  kw_override kwargs "small_threshold" conv_plain_float;;
  kw_override kwargs "cutoff" (conv_float nanometer);;
  kw_override kwargs "nonbonded_method" conv_copy;;
  kw_barostat kwargs;;
  kw_override kwargs "rigid_body" conv_copy.

(** Lines 64-78: bond definitions, PDB file, modeller, force field, extra
    particles, system. *)
Definition init_load (pdb_list residue_xml_list ff_xml_list : list string)
  : M unit :=
  for_each residue_xml_list (fun residue_file =>
    emit (LoadBondDefinitions residue_file));;
  pdb0 ← match pdb_list with
         | f :: _ => mret f
         | [] => raise IndexError
         end;
  let '(top, pos) := PDBFile E pdb0 in
  setattr "pdb" (VPDB top pos);;
  pdb ← getattr "pdb";
  (match pdb with
   | VPDB top pos => setattr "modeller" (VModeller top pos)
   | _ => raise TypeError
   end);;
  setattr "forcefield" (VForceField (load_ForceField E ff_xml_list));;
  ff ← self_forcefield;
  m ← self_modeller;
  let '(top', pos') := addExtraParticles E ff m in
  setattr "modeller" (VModeller top' pos');;
  ff ← self_forcefield;
  m ← self_modeller;
  cutoff ← getattr "cutoff";
  put_system (createSystem E ff (fst m) cutoff);;
  setattr "system" VSystem.

(** Lines 80-93: pick out the forces by type. *)
Definition init_forces : M unit :=
  sys ← self_system;
  nb ← lift (attr_item0 (VForceList (forces_of_type NonbondedForce sys)));
  setattr "nbondedForce" nb;;
  sys ← self_system;
  setattr "customNonbondedForce"
          (VForceList (forces_of_type CustomNonbondedForce sys));;
  c ← getattr "customNonbondedForce";
  (if attr_truthy c
   then c0 ← lift (attr_item0 c); setattr "customNonbondedForce" c0
   else mret tt);;
  sys ← self_system;
  let drudeF := VForceList (forces_of_type DrudeForce sys) in
  if attr_truthy drudeF
  then
    setattr "polarization" (VPy (PyBool true));;
    d0 ← lift (attr_item0 drudeF);
    setattr "drudeForce" d0;;
    sys ← self_system;
    cb ← lift (attr_item0 (VForceList (forces_of_type CustomBondForce sys)));
    setattr "custombond" cb
  else
    setattr "polarization" (VPy (PyBool false)).

(** Lines 96-104: long-range interaction method. *)
Definition init_nonbonded_method : M unit :=
  m ← getattr "nonbonded_method";
  if attr_eq_str m "NoCutoff" then
    print "setting NonbondedForce method to NoCutoff";;
    nb ← getattr "nbondedForce";
    call_setNonbondedMethod nb NoCutoff
  else
    m ← getattr "nonbonded_method";
    if attr_eq_str m "PME" then
      print "setting NonbondedForce method to PME";;
      nb ← getattr "nbondedForce";
      call_setNonbondedMethod nb PME
    else
      print "No such method for nbondedForce (long range interaction method not set correctly in MM_base)";;
      sys_exit.

(** Lines 106-108.  The callee [self.customNonbondedForce[0]] is evaluated
    before the argument of the call. *)
Definition init_custom_method : M unit :=
  c ← getattr "customNonbondedForce";
  if attr_truthy c then
    print "setting CustomNonbondedForce method to CutoffPeriodic";;
    c ← getattr "customNonbondedForce";
    f ← lift (attr_item0 c);
    nb ← getattr "nbondedForce";
    m ← call_getNonbondedMethod nb;
    call_setNonbondedMethod f (Z.min m CutoffPeriodic)
  else mret tt.

(** Lines 110-114: Monte Carlo barostat. *)
Definition init_barostat : M unit :=
  b ← getattr "npt_barostat";
  if attr_truthy b then
    let barofreq := 100 in
    p ← getattr "pressure";
    p ← as_quantity p;
    t ← getattr "temperature";
    t ← as_quantity t;
    let barostat := new_MonteCarloBarostat p t barofreq in
    sys ← self_system;
    put_system (mkSystem (forces sys ++ [barostat]));;
    x ← getattr "NPT_barostat_pressure";
    emit (PrintFmt "Simulation set to run using NPT ensemble with external pressure of %s atm." x)
  else mret tt.

Definition self_quantity (name : string) : M Quantity :=
  a ← getattr name; as_quantity a.

(** [self.integrator.setMaxDrudeDistance(d)] *)
Definition integrator_setMaxDrudeDistance (d : spec_float) : M unit :=
  it ← getattr "integrator";
  match it with
  | VIntegrator (DrudeLangevinIntegrator t f td fd dt _) =>
      setattr "integrator" (VIntegrator (DrudeLangevinIntegrator t f td fd dt d))
  | _ => raise (AttributeError "setMaxDrudeDistance")
  end.

(** Lines 116-123: the integrator. *)
Definition init_integrator : M unit :=
  pol ← getattr "polarization";
  if attr_truthy pol then
    t ← self_quantity "temperature";
    f ← self_quantity "friction";
    td ← self_quantity "temperature_drude";
    fd ← self_quantity "friction_drude";
    dt ← self_quantity "timestep";
    setattr "integrator"
            (VIntegrator (DrudeLangevinIntegrator t f td fd dt (S754_zero false)));;
    integrator_setMaxDrudeDistance (float_lit 2 100)
  else
    t ← self_quantity "temperature";
    f ← self_quantity "friction";
    dt ← self_quantity "timestep";
    setattr "integrator" (VIntegrator (LangevinIntegrator t f dt)).

(** Lines 131-133: the inner loop over the atoms of one template. *)
Fixpoint names_in_template (rigid_body : pyvalue) (tatoms : list TemplateAtom)
         (rigid_body_atom_names : list string) : result (list string) :=
  match tatoms with
  | [] => inr rigid_body_atom_names
  | atom :: rest =>
      match py_str_in (ta_type atom) rigid_body with
      | inl e => inl e
      | inr b =>
          names_in_template rigid_body rest
            (if b then rigid_body_atom_names ++ [ta_name atom]
             else rigid_body_atom_names)
      end
  end.

(** Lines 130-133: the loop over the keys of the template dictionary. *)
Fixpoint names_in_templates (templates : gmap string Template)
         (rigid_body : pyvalue) (keys : list string)
         (rigid_body_atom_names : list string) : result (list string) :=
  match keys with
  | [] => inr rigid_body_atom_names
  | template :: rest =>
      match templates !! template with
      | None => inl (KeyError template)
      | Some t =>
          match names_in_template rigid_body (atoms t) rigid_body_atom_names with
          | inl e => inl e
          | inr names => names_in_templates templates rigid_body rest names
          end
      end
  end.

(** [name in rigid_body_atom_names] *)
Definition name_in (name : string) (names : list string) : bool :=
  existsb (String.eqb name) names.

(** Lines 139-141: the indices of one residue's atoms. *)
Fixpoint body_of (names : list string) (ratoms : list Atom) (body : list nat)
  : list nat :=
  match ratoms with
  | [] => body
  | atom :: rest =>
      body_of names rest
        (if name_in (atom_name atom) names then body ++ [atom_index atom]
         else body)
  end.

(** Lines 137-143: the loop over the residues. *)
Fixpoint bodies_of (names : list string) (ress : list Residue)
         (bodies : list (list nat)) : list (list nat) :=
  match ress with
  | [] => bodies
  | res :: rest =>
      let body := body_of names (_atoms res) [] in
      bodies_of names rest
        (match body with [] => bodies | _ => bodies ++ [body] end)
  end.

(** Lines 126-144: rigid bodies selected by atom type. *)
Definition init_rigid_bodies : M unit :=
  rb ← getattr "rigid_body";
  match rb with
  | VPy PyNone => mret tt
  | VPy rigid_body =>
      ff ← self_forcefield;
      let templates := _templates ff in
      rigid_body_atom_names ←
        lift (names_in_templates templates rigid_body
                (map fst (map_to_list templates)) []);
      m ← self_modeller;
      let bodies := bodies_of rigid_body_atom_names (residues (fst m)) [] in
      sys ← self_system;
      m ← self_modeller;
      emit (CreateRigidBodies bodies);;
      put_system (createRigidBodies E sys (snd m) bodies)
  | _ => raise TypeError
  end.

Definition __init__ (pdb_list residue_xml_list ff_xml_list : list string)
           (kwargs : gmap string pyvalue) : M unit :=
  init_defaults;;
  init_kwargs kwargs;;
  init_load pdb_list residue_xml_list ff_xml_list;;
  init_forces;;
  init_nonbonded_method;;
  init_custom_method;;
  init_barostat;;
  init_integrator;;
  init_rigid_bodies.

(** The constructor up to line 78, 93, 104, 108 and 123. *)
Definition init_through_load
           (pdb_list residue_xml_list ff_xml_list : list string)
           (kwargs : gmap string pyvalue) : M unit :=
  init_defaults;;
  init_kwargs kwargs;;
  init_load pdb_list residue_xml_list ff_xml_list.

Definition init_through_forces
           (pdb_list residue_xml_list ff_xml_list : list string)
           (kwargs : gmap string pyvalue) : M unit :=
  init_through_load pdb_list residue_xml_list ff_xml_list kwargs;;
  init_forces.

Definition init_through_method
           (pdb_list residue_xml_list ff_xml_list : list string)
           (kwargs : gmap string pyvalue) : M unit :=
  init_through_forces pdb_list residue_xml_list ff_xml_list kwargs;;
  init_nonbonded_method.

Definition init_through_custom
           (pdb_list residue_xml_list ff_xml_list : list string)
           (kwargs : gmap string pyvalue) : M unit :=
  init_through_method pdb_list residue_xml_list ff_xml_list kwargs;;
  init_custom_method.

Definition init_through_integrator
           (pdb_list residue_xml_list ff_xml_list : list string)
           (kwargs : gmap string pyvalue) : M unit :=
  init_through_custom pdb_list residue_xml_list ff_xml_list kwargs;;
  init_barostat;;
  init_integrator.

(* =================================================================== *)
(** ** The other methods *)
(* =================================================================== *)

Definition self_simmd : M Simulation :=
  a ← getattr "simmd";
  match a with
  | VSimulation sim => mret sim
  | _ => raise TypeError
  end.

(** An update of the simulation object that [self.simmd] refers to. *)
Definition modify_simmd (f : Simulation -> Simulation) : M unit :=
  sim ← self_simmd;
  setattr "simmd" (VSimulation (f sim)).

(** Lines 149-154. *)
Definition set_trajectory_output
           (filename write_frequency append_trajectory checkpointfile
            write_checkpoint_frequency : pyvalue) : M unit :=
  modify_simmd (set_reporters []);;
  modify_simmd (fun sim =>
    set_reporters
      (reporters sim ++ [DCDReporter filename write_frequency append_trajectory])
      sim);;
  if py_truthy checkpointfile then
    modify_simmd (fun sim =>
      set_reporters
        (reporters sim ++
           [CheckpointReporter checkpointfile write_checkpoint_frequency])
        sim)
  else mret tt.

(** [type(f)] of a force reference. *)
Definition force_type (i : nat) : M ForceType :=
  sys ← self_system;
  match forces sys !! i with
  | Some f => mret (ftype f)
  | None => raise IndexError
  end.

(** A method call on the force [self.system.getForce(i)]; the engine may
    refuse it. *)
Definition modify_force (i : nat) (g : Force -> result Force) : M unit :=
  sys ← self_system;
  match forces sys !! i with
  | Some f =>
      f' ← lift (g f);
      put_system (mkSystem (<[i := f']> (forces sys)))
  | None => raise IndexError
  end.

(** Lines 163-171, the loop body for the force [f = getForce(i)].  The
    closing query [f.usesPeriodicBoundaryConditions()] changes nothing and
    is left out. *)
Definition periodic_body (flag : pyvalue) (i : nat) : M unit :=
  modify_force i (setForceGroup i);;
  if py_truthy flag then
    t ← force_type i;
    if bool_decide (t = HarmonicBondForce) || bool_decide (t = HarmonicAngleForce)
       || bool_decide (t = PeriodicTorsionForce) || bool_decide (t = RBTorsionForce)
    then modify_force i (fun f => inr (setUsesPeriodicBoundaryConditions true f))
    else mret tt
  else mret tt.

(** Lines 161-171. *)
Definition set_periodic_residue (flag : pyvalue) : M unit :=
  sys ← self_system;
  for_each (seq 0 (length (forces sys))) (periodic_body flag).

(** [Simulation(self.modeller.topology, self.system, self.integrator,
    self.platform[, self.properties])] *)
Definition new_Simulation (with_properties : bool) : M Simulation :=
  m ← self_modeller;
  _ ← self_system;
  it ← getattr "integrator";
  it ← match it with
       | VIntegrator i => mret i
       | _ => raise TypeError
       end;
  pf ← getattr "platform";
  pf ← match pf with
       | VPlatform name => mret name
       | _ => raise TypeError
       end;
  props ← (if with_properties then
             pr ← getattr "properties";
             match pr with
             | VProperties l => mret (Some l)
             | _ => raise TypeError
             end
           else mret None);
  mret (mkSimulation (fst m) it pf props [] (mkContext [] 0)).

(** Lines 177-196. *)
Definition set_platform (platformname : pyvalue) : M unit :=
  (if py_eq_str platformname "Reference" then
     setattr "platform" (VPlatform "Reference");;
     sim ← new_Simulation false;
     setattr "simmd" (VSimulation sim)
   else if py_eq_str platformname "CPU" then
     setattr "platform" (VPlatform "CPU");;
     sim ← new_Simulation false;
     setattr "simmd" (VSimulation sim)
   else if py_eq_str platformname "OpenCL" then
     setattr "platform" (VPlatform "OpenCL");;
     sim ← new_Simulation false;
     setattr "simmd" (VSimulation sim)
   else if py_eq_str platformname "CUDA" then
     setattr "platform" (VPlatform "CUDA");;
     setattr "properties" (VProperties [("Precision", "mixed")]);;
     sim ← new_Simulation true;
     setattr "simmd" (VSimulation sim)
   else
     print " Could not recognize platform selection ... ";;
     sys_exit);;
  m ← self_modeller;
  modify_simmd (fun sim =>
    set_context (mkContext (snd m) (reinitialized (context sim))) sim).

(** Lines 203-223. *)
Definition generate_exclusions
           (water_name flag_hybrid_water_model flag_SAPT_FF_exclusions : pyvalue)
  : M unit :=
  (if py_truthy flag_SAPT_FF_exclusions then
     emit SAPT_FF_exclusions;;
     sys ← get_system;
     sim ← self_simmd;
     let '(sys', sim') := generate_SAPT_FF_exclusions E sys sim in
     put_system sys';;
     setattr "simmd" (VSimulation sim')
   else mret tt);;
  (if py_truthy flag_hybrid_water_model then
     sim ← self_simmd;
     cnf ← getattr "customNonbondedForce";
     emit (Exclusions_water cnf water_name);;
     sys ← get_system;
     let '(sys', sim') := generate_exclusions_water E cnf water_name sys sim in
     put_system sys';;
     setattr "simmd" (VSimulation sim')
   else mret tt);;
  (if py_truthy flag_SAPT_FF_exclusions && py_truthy flag_hybrid_water_model then
     print "redundant setting of flag_SAPT_FF_exclusions and flag_hybrid_water_model";;
     sys_exit
   else mret tt);;
  sim ← self_simmd;
  let positions := ctx_positions (context sim) in
  modify_simmd (fun sim =>
    set_context (mkContext [] (S (reinitialized (context sim)))) sim);;
  modify_simmd (fun sim =>
    set_context (mkContext positions (reinitialized (context sim))) sim).
End MM_base.

(** [MM_base(pdb_list, residue_xml_list, ff_xml_list, **kwargs)]: the
    constructor run on a fresh object. *)
Definition MM_base (E : Engine) (pdb_list residue_xml_list ff_xml_list : list string)
           (kwargs : gmap string pyvalue) : outcome unit :=
  __init__ E pdb_list residue_xml_list ff_xml_list kwargs empty_world.

(* ===================================================================== *)
(** ** A small concrete engine, for examples *)
(* ===================================================================== *)

Definition plain_force (t : ForceType) : Force := mkForce t 0%nat 0 false None.

Definition water_topology : Topology :=
  {| residues :=
       [ {| res_name := "HOH";
            _atoms := [ {| atom_name := "O"; atom_index := 0%nat |};
                        {| atom_name := "H1"; atom_index := 1%nat |};
                        {| atom_name := "H2"; atom_index := 2%nat |} ] |};
         {| res_name := "NA";
            _atoms := [ {| atom_name := "Na"; atom_index := 3%nat |} ] |};
         {| res_name := "HOH";
            _atoms := [ {| atom_name := "O"; atom_index := 4%nat |};
                        {| atom_name := "H1"; atom_index := 5%nat |};
                        {| atom_name := "H2"; atom_index := 6%nat |} ] |} ] |}.

Definition water_forcefield : ForceField :=
  {| _templates :=
       {[ "HOH" := {| atoms := [ {| ta_name := "O"; ta_type := "tip3p-O" |};
                                 {| ta_name := "H1"; ta_type := "tip3p-H" |};
                                 {| ta_name := "H2"; ta_type := "tip3p-H" |} ] |};
          "NA" := {| atoms := [ {| ta_name := "Na"; ta_type := "Na+" |} ] |} ]} |}.

Definition zero3 : Vec3 := (S754_zero false, S754_zero false, S754_zero false).
Definition water_positions : Positions := repeat zero3 7.

(** An engine that loads the water box above and builds a system with the
    given forces; the sibling modules leave system and simulation alone. *)
Definition demo_engine (fs : list Force) : Engine :=
  {| parse_int := fun _ => None;
     parse_float := fun _ => None;
     PDBFile := fun _ => (water_topology, water_positions);
     load_ForceField := fun _ => water_forcefield;
     addExtraParticles := fun _ m => m;
     createSystem := fun _ _ _ => mkSystem fs;
     createRigidBodies := fun sys _ _ => sys;
     generate_SAPT_FF_exclusions := fun sys sim => (sys, sim);
     generate_exclusions_water := fun _ _ sys sim => (sys, sim) |}.

Definition plain_forces : list Force :=
  [plain_force HarmonicBondForce; plain_force HarmonicAngleForce;
   plain_force NonbondedForce].

Definition drude_forces : list Force :=
  [plain_force NonbondedForce; plain_force DrudeForce;
   plain_force CustomBondForce].

Definition custom_forces : list Force :=
  [plain_force NonbondedForce; plain_force CustomNonbondedForce].

Definition f298_15 : spec_float := Eval vm_compute in float_lit 29815 100.

(* ===================================================================== *)
(** ** Vocabulary of the statements *)
(* ===================================================================== *)

Definition world_of {A} (o : outcome A) : World :=
  match o with
  | Ok _ w => w
  | Raise _ w => w
  end.

(** [respects R m]: every run of [m], whether it returns or raises, leaves
    the world related by [R] to the one it started in. *)
Definition respects (R : relation World) {A} (m : M A) : Prop :=
  forall w, R w (world_of (m w)).

(** The world relation of a footprint: attributes outside [S] keep their
    value, the system object is untouched when [fixed], and the events
    added all satisfy [P]. *)
Definition frame (S : list string) (fixed : bool) (P : event -> bool)
  : relation World := fun w w' =>
  (forall key, key ∉ S -> self w' !! key = self w !! key) /\
  (fixed = true -> system w' = system w) /\
  (exists evs, out w' = out w ++ evs /\ forallb P evs = true).

Definition not_rigid_call (ev : event) : bool :=
  match ev with
  | CreateRigidBodies _ => false
  | _ => true
  end.

Definition any_event (ev : event) : bool := true.

Definition default_keys : list string :=
  ["temperature"; "temperature_drude"; "friction"; "friction_drude";
   "timestep"; "small_threshold"; "cutoff"; "nonbonded_method";
   "npt_barostat"; "rigid_body"].

Definition force_keys : list string :=
  ["nbondedForce"; "customNonbondedForce"; "polarization"; "drudeForce";
   "custombond"].

(** The system contains a force of type [t]. *)
Definition has_force (t : ForceType) (sys : System) : Prop :=
  exists f, f ∈ forces sys /\ ftype f = t.

(** The run parameters converted with [int] and with [float], and their
    units. *)
Definition int_parameters : list (string * Unit) :=
  [("temperature", kelvin); ("temperature_drude", kelvin);
   ("friction", per_picosecond); ("friction_drude", per_picosecond)].

Definition float_parameters : list (string * Unit) :=
  [("timestep", picoseconds); ("cutoff", nanometer)].

(** The nonbonded method in force: the keyword value, or the default. *)
Definition configured_method (kwargs : gmap string pyvalue) : pyvalue :=
  default (PyStr "PME") (kwargs !! "nonbonded_method").

(** Some template of the force field gives the name [name] to an atom whose
    type is in [rigid_body]. *)
Definition template_assigns (ff : ForceField) (rigid_body : pyvalue)
           (name : string) : Prop :=
  exists key t atom,
    _templates ff !! key = Some t /\ atom ∈ atoms t /\
    ta_name atom = name /\ py_str_in (ta_type atom) rigid_body = inr true.

(** Every test [atom.type in rigid_body] of line 132 evaluates: none of
    them raises. *)
Definition tests_evaluate (ff : ForceField) (rigid_body : pyvalue) : Prop :=
  forall key t atom,
    _templates ff !! key = Some t -> atom ∈ atoms t ->
    exists b, py_str_in (ta_type atom) rigid_body = inr b.

(** The indices of the atoms of [res] whose name is among [names]. *)
Definition residue_body (names : list string) (res : Residue) : list nat :=
  map atom_index
      (List.filter (fun atom => name_in (atom_name atom) names) (_atoms res)).

(** The non-empty per-residue index lists, in residue order. *)
Definition bodies_spec (names : list string) (top : Topology) : list (list nat) :=
  List.filter (fun body => match body with [] => false | _ => true end)
              (map (residue_body names) (residues top)).

Definition platform_names : list string := ["Reference"; "CPU"; "OpenCL"; "CUDA"].

Definition platform_properties (name : string) : option (list (string * string)) :=
  if String.eqb name "CUDA" then Some [("Precision", "mixed")] else None.

(** System and simulation after the optional calls into
    [MM_exclusions_base]. *)
Definition after_SAPT (E : Engine) (flag : pyvalue) (r : System * Simulation)
  : System * Simulation :=
  if py_truthy flag then generate_SAPT_FF_exclusions E r.1 r.2 else r.

Definition after_water (E : Engine) (flag : pyvalue) (cnf : attr)
           (water_name : pyvalue) (r : System * Simulation)
  : System * Simulation :=
  if py_truthy flag then generate_exclusions_water E cnf water_name r.1 r.2 else r.

Definition exclusion_calls (cnf : attr) (water_name hybrid sapt : pyvalue)
  : list event :=
  (if py_truthy sapt then [SAPT_FF_exclusions] else []) ++
  (if py_truthy hybrid then [Exclusions_water cnf water_name] else []).

Definition is_bonded_type (t : ForceType) : bool :=
  bool_decide (t = HarmonicBondForce) || bool_decide (t = HarmonicAngleForce)
  || bool_decide (t = PeriodicTorsionForce) || bool_decide (t = RBTorsionForce).

(** The force at index [i] after its round of the loop of
    [set_periodic_residue], when the engine accepts the group [i]. *)
Definition periodic_step (flag : pyvalue) (i : nat) (f : Force) : Force :=
  mkForce (ftype f) i (nonbondedMethod f)
          (usePeriodic f || (py_truthy flag && is_bonded_type (ftype f)))
          (barostat_args f).

(** The forces after [set_periodic_residue(flag)], whether the call returns
    or raises: the loop reaches the indices up to [max_force_group]. *)
Definition periodic_forces (flag : pyvalue) (fs : list Force) : list Force :=
  imap (fun i f => if bool_decide (i <= max_force_group)%nat
                   then periodic_step flag i f else f) fs.

(** The phases of a constructor run that returns. *)
Inductive init_run (E : Engine) (pdb_list residue_xml_list ff_xml_list : list string)
          (kwargs : gmap string pyvalue) (w0 w' : World) : Prop :=
| init_phases w1 w2 w3 w4 w5 w6 w7 w8 :
    init_defaults w0 = Ok tt w1 ->
    init_kwargs E kwargs w1 = Ok tt w2 ->
    init_load E pdb_list residue_xml_list ff_xml_list w2 = Ok tt w3 ->
    init_forces w3 = Ok tt w4 ->
    init_nonbonded_method w4 = Ok tt w5 ->
    init_custom_method w5 = Ok tt w6 ->
    init_barostat w6 = Ok tt w7 ->
    init_integrator w7 = Ok tt w8 ->
    init_rigid_bodies E w8 = Ok tt w' ->
    init_run E pdb_list residue_xml_list ff_xml_list kwargs w0 w'.

(** The steps of [init_kwargs] of a run that returns. *)
Inductive kwargs_run (E : Engine) (kwargs : gmap string pyvalue) (w0 w' : World)
  : Prop :=
| kwargs_steps u1 u2 u3 u4 u5 u6 u7 u8 u9 :
    kw_override kwargs "temperature" (conv_int E kelvin) w0 = Ok tt u1 ->
    kw_override kwargs "temperature_drude" (conv_int E kelvin) u1 = Ok tt u2 ->
    kw_override kwargs "friction" (conv_int E per_picosecond) u2 = Ok tt u3 ->
    kw_override kwargs "friction_drude" (conv_int E per_picosecond) u3 = Ok tt u4 ->
    kw_override kwargs "timestep" (conv_float E picoseconds) u4 = Ok tt u5 ->
    kw_override kwargs "small_threshold" (conv_plain_float E) u5 = Ok tt u6 ->
    kw_override kwargs "cutoff" (conv_float E nanometer) u6 = Ok tt u7 ->
    kw_override kwargs "nonbonded_method" conv_copy u7 = Ok tt u8 ->
    kw_barostat E kwargs u8 = Ok tt u9 ->
    kw_override kwargs "rigid_body" conv_copy u9 = Ok tt w' ->
    kwargs_run E kwargs w0 w'.

(** The plain keyword overrides of lines 39-59 and their conversions. *)
Definition overrides (E : Engine) : list (string * (pyvalue -> result attr)) :=
  [("temperature", conv_int E kelvin);
   ("temperature_drude", conv_int E kelvin);
   ("friction", conv_int E per_picosecond);
   ("friction_drude", conv_int E per_picosecond);
   ("timestep", conv_float E picoseconds);
   ("small_threshold", conv_plain_float E);
   ("cutoff", conv_float E nanometer);
   ("nonbonded_method", conv_copy);
   ("rigid_body", conv_copy)].

Definition default_attrs : gmap string attr :=
  self (world_of (init_defaults empty_world)).

Definition later_keys : list string := "integrator" :: force_keys.

(** What holds of [self] from line 78 on: the attributes written by lines
    27-78, which nothing below writes again. *)
Record loaded (E : Engine) (pdb_list ff_xml_list : list string)
       (kwargs : gmap string pyvalue) (w : World) : Prop := {
  loaded_system : self w !! "system" = Some VSystem;
  loaded_no_NPT : self w !! "NPT_barostat_pressure" = None;
  loaded_override : forall key conv,
    (key, conv) ∈ overrides E ->
    match kwargs !! key with
    | Some v => exists a, conv v = inr a /\ self w !! key = Some a
    | None => self w !! key = default_attrs !! key
    end;
  loaded_barostat :
    match kwargs !! "npt_barostat" with
    | Some v =>
        self w !! "npt_barostat" = Some (VPy (PyBool (py_truthy v))) /\
        exists p a, kwargs !! "pressure" = Some p /\
                    conv_float E atmosphere p = inr a /\
                    self w !! "pressure" = Some a
    | None => self w !! "npt_barostat" = Some (VPy (PyBool false))
    end;
  loaded_objects :
    exists pdb0 rest,
      pdb_list = pdb0 :: rest /\
      let ff := load_ForceField E ff_xml_list in
      let m := addExtraParticles E ff (PDBFile E pdb0) in
      self w !! "forcefield" = Some (VForceField ff) /\
      self w !! "modeller" = Some (VModeller m.1 m.2)
}.

(** The run parameters that hold a quantity. *)
Definition quantity_keys : list string :=
  ["temperature"; "temperature_drude"; "friction"; "friction_drude"; "timestep"].

(** What holds of the force attributes from line 93 on, for the system
    [sys] that was created. *)
Record forced (sys : System) (w : World) : Prop := {
  forced_nb : exists nb rest,
    forces_of_type NonbondedForce sys = nb :: rest /\
    self w !! "nbondedForce" = Some (VForce nb);
  forced_custom :
    self w !! "customNonbondedForce"
    = Some (match forces_of_type CustomNonbondedForce sys with
            | [] => VForceList []
            | c :: _ => VForce c
            end);
  forced_polarization :
    self w !! "polarization"
    = Some (VPy (PyBool (match forces_of_type DrudeForce sys with
                         | [] => false
                         | _ => true
                         end)))
}.


(** The run parameters among the overrides. *)
Definition run_parameters (E : Engine) : list (string * (pyvalue -> result attr)) :=
  [("temperature", conv_int E kelvin);
   ("temperature_drude", conv_int E kelvin);
   ("friction", conv_int E per_picosecond);
   ("friction_drude", conv_int E per_picosecond);
   ("timestep", conv_float E picoseconds);
   ("small_threshold", conv_plain_float E);
   ("cutoff", conv_float E nanometer)].


(** *** Vocabulary of the further properties *)

(** The event predicate of a step that calls nothing and prints nothing. *)
Definition no_event (ev : event) : bool := false.

(** Every attribute the constructor can write. *)
Definition init_keys : list string :=
  "pressure" :: default_keys ++ ["pdb"; "modeller"; "forcefield"; "system"]
  ++ force_keys ++ ["integrator"].

(** The barostat switch is absent or false. *)
Definition barostat_off (kwargs : gmap string pyvalue) : Prop :=
  forall v, kwargs !! "npt_barostat" = Some v -> py_truthy v = false.

(** The configured nonbonded method is one of the two the class knows. *)
Definition method_known (kwargs : gmap string pyvalue) : Prop :=
  configured_method kwargs = PyStr "NoCutoff" \/
  configured_method kwargs = PyStr "PME".

(** The lists and strings: values on which [x in v] evaluates for every
    string [x]. *)
Definition iterable (v : pyvalue) : bool :=
  match v with
  | PyList _ | PyStr _ => true
  | _ => false
  end.

(** The [rigid_body] keyword is absent or [None], or every membership
    test that line 132 makes on its value evaluates. *)
Definition rigid_body_usable (ff : ForceField) (kwargs : gmap string pyvalue)
  : Prop :=
  match kwargs !! "rigid_body" with
  | None | Some PyNone => True
  | Some v => tests_evaluate ff v
  end.

(** Every run parameter given by keyword converts, and the barostat switch,
    when given (whatever its value), comes with a pressure that converts. *)
Definition keywords_convert (E : Engine) (kwargs : gmap string pyvalue) : Prop :=
  (forall key conv x,
      (key, conv) ∈ run_parameters E -> kwargs !! key = Some x ->
      exists a, conv x = inr a) /\
  (forall v,
      kwargs !! "npt_barostat" = Some v ->
      exists p a, kwargs !! "pressure" = Some p /\
                  conv_float E atmosphere p = inr a).

(** The default run parameters of lines 27-36. *)
Definition default_table : list (string * attr) :=
  [("temperature", VQuantity (mkQuantity (NInt 300) kelvin));
   ("temperature_drude", VQuantity (mkQuantity (NInt 1) kelvin));
   ("friction", VQuantity (mkQuantity (NInt 1) per_picosecond));
   ("friction_drude", VQuantity (mkQuantity (NInt 1) per_picosecond));
   ("timestep", VQuantity (mkQuantity (NFloat (float_lit 1 1000)) picoseconds));
   ("small_threshold", VPy (PyFloat (float_lit 1 1000000)));
   ("cutoff", VQuantity (mkQuantity (NFloat (float_lit 14 10)) nanometer));
   ("nonbonded_method", VPy (PyStr "PME"));
   ("npt_barostat", VPy (PyBool false));
   ("rigid_body", VPy PyNone)].


(** The keywords that lines 39-59 read. *)
Definition known_keywords : list string := "pressure" :: default_keys.

(** The conversions of lines 40-57, by keyword. *)
Definition keyword_conversions (E : Engine)
  : list (string * (pyvalue -> result attr)) :=
  run_parameters E ++ [("pressure", conv_float E atmosphere)].

(** [self] after [set_platform(name)] on an object whose attributes are [s]. *)
Definition with_platform (name : string) (sim : Simulation)
           (s : gmap string attr) : gmap string attr :=
  <["simmd" := VSimulation sim]>
    (match platform_properties name with
     | Some l => <["properties" := VProperties l]>
     | None => id
     end (<["platform" := VPlatform name]> s)).

(** The attributes every constructed object has. *)
Definition required_keys : list string :=
  default_keys
  ++ ["pdb"; "modeller"; "forcefield"; "system"; "nbondedForce";
      "customNonbondedForce"; "polarization"; "integrator"].


(* ===================================================================== *)
(** ** Concrete runs, for the examples *)
(* ===================================================================== *)

Definition demo_pdb : list string := ["box.pdb"].
Definition demo_residues : list string := ["residues.xml"].
Definition demo_ff : list string := ["forcefield.xml"].

Definition E_plain : Engine := demo_engine plain_forces.
Definition E_drude : Engine := demo_engine drude_forces.
Definition E_custom : Engine := demo_engine custom_forces.

Definition kw_rigid : gmap string pyvalue :=
  {[ "rigid_body" := PyList [PyStr "tip3p-H"] ]}.
Definition kw_rigid_None : gmap string pyvalue :=
  {[ "rigid_body" := PyNone ]}.
Definition kw_rigid_5 : gmap string pyvalue :=
  {[ "rigid_body" := PyInt 5 ]}.
Definition kw_temperature : gmap string pyvalue :=
  {[ "temperature" := PyFloat f298_15 ]}.
Definition kw_barostat_on : gmap string pyvalue :=
  {[ "npt_barostat" := PyBool true; "pressure" := PyInt 1 ]}.
Definition kw_barostat_Ewald : gmap string pyvalue :=
  {[ "npt_barostat" := PyBool true; "pressure" := PyInt 1;
     "nonbonded_method" := PyStr "Ewald" ]}.

(** A constructed object, and the same after [set_platform('CPU')]. *)
Definition constructed_world : World :=
  world_of (MM_base E_plain demo_pdb demo_residues demo_ff ∅).
Definition simulation_world : World :=
  world_of (set_platform (PyStr "CPU") constructed_world).

(** A constructed object whose system has 34 bonded forces. *)
Definition crowded_world : World :=
  mkWorld (self constructed_world)
          (mkSystem (repeat (plain_force HarmonicBondForce) 34)) [].

(** Engines whose created system lacks a force the constructor looks up. *)
Definition E_bonded : Engine := demo_engine [plain_force HarmonicBondForce].
Definition E_drude_bare : Engine :=
  demo_engine [plain_force NonbondedForce; plain_force DrudeForce].

Definition kw_verbose : gmap string pyvalue :=
  {[ "temperature" := PyFloat f298_15; "verbose" := PyBool true ]}.
Definition kw_temperature_None : gmap string pyvalue :=
  {[ "temperature" := PyNone ]}.

(* ===================================================================== *)
(** ** Reasoning about runs *)
(* ===================================================================== *)


Lemma bind_run {A B} (m : M A) (k : A -> M B) w :
  (m ≫= k) w = match m w with
               | Ok a w' => k a w'
               | Raise e w' => Raise e w'
               end.
Proof. reflexivity. Qed.

Lemma bind_Ok_inv {A B} (m : M A) (k : A -> M B) w b w' :
  (m ≫= k) w = Ok b w' -> exists a w1, m w = Ok a w1 /\ k a w1 = Ok b w'.
Proof.
  rewrite bind_run. destruct (m w) as [a w1|e w1]; [eauto | discriminate].
Qed.

Lemma bind_Ok_l {A B} (m : M A) (k : A -> M B) w a w1 :
  m w = Ok a w1 -> (m ≫= k) w = k a w1.
Proof. intros H. rewrite bind_run, H. reflexivity. Qed.

Lemma bind_Raise_l {A B} (m : M A) (k : A -> M B) w e w1 :
  m w = Raise e w1 -> (m ≫= k) w = Raise e w1.
Proof. intros H. rewrite bind_run, H. reflexivity. Qed.

Lemma getattr_Some name a w :
  self w !! name = Some a -> getattr name w = Ok a w.
Proof. intros H. unfold getattr. rewrite H. reflexivity. Qed.

(** *** Footprints *)

#[global] Instance frame_preorder S fixed P : PreOrder (frame S fixed P).
Proof.
  split.
  - intros w. split; [done|]. split; [done|]. exists []. by rewrite app_nil_r.
  - intros w1 w2 w3 (Ha & Hs & evs & Ho & Hp) (Ha' & Hs' & evs' & Ho' & Hp').
    split; [|split].
    + intros key Hk. by rewrite Ha', Ha.
    + intros Hf. by rewrite Hs', Hs.
    + exists (evs ++ evs'). rewrite Ho', Ho, app_assoc. split; [done|].
      rewrite forallb_app, Hp, Hp'. done.
Qed.

Section Respects.
Context (R : relation World) `{!PreOrder R}.

Lemma respects_ret {A} (a : A) : respects R (mret a).
Proof. intros w. simpl. reflexivity. Qed.

Lemma respects_raise {A} e : respects R (raise (A:=A) e).
Proof. intros w. simpl. reflexivity. Qed.

Lemma respects_lift {A} (r : result A) : respects R (lift r).
Proof. destruct r; [apply respects_raise | apply respects_ret]. Qed.

Lemma respects_getattr name : respects R (getattr name).
Proof. intros w. unfold getattr. destruct (self w !! name); simpl; reflexivity. Qed.

Lemma respects_get_system : respects R get_system.
Proof. intros w. simpl. reflexivity. Qed.

Lemma respects_bind {A B} (m : M A) (k : A -> M B) :
  respects R m -> (forall a, respects R (k a)) -> respects R (m ≫= k).
Proof.
  intros Hm Hk w. rewrite bind_run. specialize (Hm w).
  destruct (m w) as [a w1|e w1]; simpl in *; [|done].
  etransitivity; [exact Hm | apply Hk].
Qed.

Lemma respects_for_each {A} (l : list A) (body : A -> M unit) :
  (forall x, respects R (body x)) -> respects R (for_each l body).
Proof.
  intros Hb. induction l as [|x l IH]; simpl.
  - apply respects_ret.
  - apply respects_bind; [apply Hb | intros _; apply IH].
Qed.
End Respects.

Lemma frame_setattr S fixed P name a :
  name ∈ S -> respects (frame S fixed P) (setattr name a).
Proof.
  intros Hin w. simpl. split; [|split].
  - intros key Hk. apply lookup_insert_ne. intros ->. done.
  - done.
  - exists []. by rewrite app_nil_r.
Qed.

Lemma frame_emit S fixed P ev :
  P ev = true -> respects (frame S fixed P) (emit ev).
Proof.
  intros HP w. simpl. split; [done|]. split; [done|].
  exists [ev]. simpl. by rewrite HP.
Qed.

Lemma frame_put_system S P sys :
  respects (frame S false P) (put_system sys).
Proof.
  intros w. simpl. split; [done|]. split; [done|].
  exists []. by rewrite app_nil_r.
Qed.

Ltac solve_elem :=
  first [ apply list_elem_of_In; simpl; tauto
        | rewrite list_elem_of_In; simpl; intuition discriminate ].

(** Discharges [respects (frame S fixed P) m] for straight-line code. *)
Ltac frame_step :=
  first
    [ apply respects_bind; [apply _| |intros ?]
    | apply respects_ret; apply _
    | apply respects_raise; apply _
    | apply respects_lift; apply _
    | apply respects_getattr; apply _
    | apply respects_get_system; apply _
    | apply respects_for_each; [apply _|intros ?]
    | apply frame_put_system
    | apply frame_emit; reflexivity
    | apply frame_setattr; first [assumption | solve_elem]
    | match goal with
      | |- respects _ (match ?x with _ => _ end) => destruct x
      end ].

Ltac frame_unfold :=
  unfold print, sys_exit, self_system, self_modeller, self_forcefield,
    as_quantity, call_setNonbondedMethod, call_getNonbondedMethod.

Ltac solve_frame := frame_unfold; repeat frame_step.

Section InitFrames.
Variable E : Engine.

Lemma init_defaults_frame :
  respects (frame default_keys true not_rigid_call) init_defaults.
Proof. unfold init_defaults, default_keys. solve_frame. Qed.

Lemma kw_override_frame S P kwargs key conv :
  key ∈ S -> respects (frame S true P) (kw_override kwargs key conv).
Proof. intros H. unfold kw_override. solve_frame. Qed.

Lemma init_kwargs_frame kwargs :
  respects (frame ("pressure" :: default_keys) true not_rigid_call)
           (init_kwargs E kwargs).
Proof.
  unfold init_kwargs, kw_barostat, default_keys.
  repeat first [apply kw_override_frame; solve_elem | frame_step].
Qed.

Lemma init_load_frame pdb_list residue_xml_list ff_xml_list :
  respects (frame ["pdb"; "modeller"; "forcefield"; "system"] false not_rigid_call)
           (init_load E pdb_list residue_xml_list ff_xml_list).
Proof. unfold init_load. solve_frame. Qed.

Lemma init_forces_frame :
  respects (frame force_keys true not_rigid_call) init_forces.
Proof. unfold init_forces, force_keys. solve_frame. Qed.

Lemma init_nonbonded_method_frame :
  respects (frame [] false not_rigid_call) init_nonbonded_method.
Proof. unfold init_nonbonded_method. solve_frame. Qed.

Lemma init_custom_method_frame :
  respects (frame [] false not_rigid_call) init_custom_method.
Proof. unfold init_custom_method. solve_frame. Qed.

Lemma init_barostat_frame :
  respects (frame [] false not_rigid_call) init_barostat.
Proof. unfold init_barostat. solve_frame. Qed.

Lemma init_integrator_frame :
  respects (frame ["integrator"] true not_rigid_call) init_integrator.
Proof.
  unfold init_integrator, integrator_setMaxDrudeDistance, self_quantity.
  solve_frame.
Qed.

Lemma init_rigid_bodies_frame :
  respects (frame [] false any_event) (init_rigid_bodies E).
Proof. unfold init_rigid_bodies. solve_frame. Qed.
End InitFrames.

(** *** Running code on a symbolic world *)

Ltac munfold :=
  unfold new_Simulation, modify_simmd, modify_force, force_type, self_quantity,
    call_setNonbondedMethod, call_getNonbondedMethod;
  unfold self_simmd, self_system, self_modeller, self_forcefield,
    as_quantity, print, sys_exit;
  unfold get_system, put_system, emit, raise, lift,
    mbind, M_bind, mret, M_ret, getattr, setattr.

Ltac msimpl :=
  repeat (simpl; rewrite ?lookup_insert_eq; rewrite ?lookup_insert_ne by done).

Ltac mstep :=
  match goal with
  | H : self ?w !! ?k = _ |- context [self ?w !! ?k] => rewrite H
  end.

Ltac mrun := munfold; msimpl; repeat (mstep; msimpl).

(** [int] truncates toward zero, on either side of it. *)
Example py_int_truncates parse :
  py_int parse (PyFloat (float_lit 5 2)) = inr 2 /\
  py_int parse (PyFloat (float_lit (-5) 2)) = inr (-2) /\
  py_int parse (PyFloat f298_15) = inr 298.
Proof. repeat split; vm_compute; reflexivity. Qed.

(** [float] of an integer is the nearest double: 2^53 + 1 is not kept. *)
Example py_float_rounds parse :
  py_float parse (PyInt (2 ^ 53 + 1)) = inr (float_of_Z (2 ^ 53)) /\
  py_float parse (PyInt 3) = inr (S754_finite false 6755399441055744 (-51)).
Proof. split; vm_compute; reflexivity. Qed.

Lemma py_eq_str_true v s : py_eq_str v s = true <-> v = PyStr s.
Proof.
  destruct v; simpl; try (split; [discriminate|congruence]).
  rewrite String.eqb_eq. split; congruence.
Qed.

Lemma py_eq_str_false v s : py_eq_str v s = false <-> v <> PyStr s.
Proof.
  rewrite <- py_eq_str_true. destruct (py_eq_str v s); split; congruence.
Qed.

(** C6: after [set_trajectory_output] the reporter list of the simulation
    is one DCDReporter built from (filename, write_frequency,
    append_trajectory), followed by one CheckpointReporter built from
    (checkpointfile, write_checkpoint_frequency) exactly when checkpointfile
    is truthy; the reporters held before are gone, and the rest of the
    simulation is as it was. *)
Theorem set_trajectory_output_reporters
        filename write_frequency append_trajectory checkpointfile
        write_checkpoint_frequency w sim :
  self w !! "simmd" = Some (VSimulation sim) ->
  set_trajectory_output filename write_frequency append_trajectory
                        checkpointfile write_checkpoint_frequency w
  = Ok tt (mkWorld
             (<["simmd" :=
                  VSimulation
                    (mkSimulation
                       (sim_topology sim) (sim_integrator sim) (sim_platform sim)
                       (sim_properties sim)
                       (DCDReporter filename write_frequency append_trajectory ::
                        (if py_truthy checkpointfile
                         then [CheckpointReporter checkpointfile
                                                  write_checkpoint_frequency]
                         else []))
                       (context sim))]> (self w))
             (system w) (out w)).
Proof.
  intros H. unfold set_trajectory_output. mrun.
  destruct (py_truthy checkpointfile); msimpl; rewrite !insert_insert_eq; reflexivity.
Qed.

(** C3: [set_platform] ends the process with [SystemExit] for every
    platform name other than 'Reference', 'CPU', 'OpenCL' and 'CUDA'; for
    each of these it takes the platform of that name, builds the simulation
    from the modeller topology, the system, the integrator and the platform,
    and sets the context positions from the modeller positions. *)
Theorem set_platform_dispatch platformname :
  (forall w,
      (forall name, name ∈ platform_names -> platformname <> PyStr name) ->
      set_platform platformname w
      = Raise SystemExit
          (mkWorld (self w) (system w)
                   (out w ++ [Print " Could not recognize platform selection ... "])))
  /\
  (forall w top pos it name,
      self w !! "modeller" = Some (VModeller top pos) ->
      self w !! "system" = Some VSystem ->
      self w !! "integrator" = Some (VIntegrator it) ->
      name ∈ platform_names -> platformname = PyStr name ->
      exists w',
        set_platform platformname w = Ok tt w' /\
        self w' !! "platform" = Some (VPlatform name) /\
        self w' !! "simmd"
        = Some (VSimulation
                  (mkSimulation top it name (platform_properties name) []
                                (mkContext pos 0))) /\
        system w' = system w /\ out w' = out w).
Proof.
  split.
  - intros w Hne. unfold set_platform.
    assert (forall name, name ∈ platform_names -> py_eq_str platformname name = false) as Hf.
    { intros name Hin. apply py_eq_str_false. by apply Hne. }
    rewrite bind_run.
    rewrite !Hf by (unfold platform_names; solve_elem).
    reflexivity.
  - intros w top pos it name Hm Hs Hi Hin ->. unfold platform_names in Hin.
    repeat (apply elem_of_cons in Hin as [->|Hin]); [| | | |by apply elem_of_nil in Hin];
      unfold set_platform; mrun; eexists; (split; [reflexivity|]); msimpl; done.
Qed.

(** C7: [generate_exclusions] ends the process with [SystemExit] when both
    flags are true (after both calls were made); otherwise it calls the
    SAPT-FF exclusions exactly when flag_SAPT_FF_exclusions is true and the
    water interaction groups exactly when flag_hybrid_water_model is true,
    then reinitializes the context (once) and gives it back the positions
    it held; the rest of the simulation is as the calls left it. *)
Theorem generate_exclusions_flags E water_name hybrid sapt w sim cnf :
  self w !! "simmd" = Some (VSimulation sim) ->
  self w !! "customNonbondedForce" = Some cnf ->
  let r := after_water E hybrid cnf water_name
             (after_SAPT E sapt (system w, sim)) in
  let calls := exclusion_calls cnf water_name hybrid sapt in
  (py_truthy sapt = true -> py_truthy hybrid = true ->
   exists w',
     generate_exclusions E water_name hybrid sapt w = Raise SystemExit w' /\
     out w'
     = out w ++ calls ++
       [Print "redundant setting of flag_SAPT_FF_exclusions and flag_hybrid_water_model"] /\
     self w' !! "simmd" = Some (VSimulation r.2))
  /\
  (py_truthy sapt && py_truthy hybrid = false ->
   exists w',
     generate_exclusions E water_name hybrid sapt w = Ok tt w' /\
     out w' = out w ++ calls /\
     system w' = r.1 /\
     self w' !! "simmd"
     = Some (VSimulation
               (mkSimulation
                  (sim_topology r.2) (sim_integrator r.2) (sim_platform r.2)
                  (sim_properties r.2) (reporters r.2)
                  (mkContext (ctx_positions (context r.2))
                             (S (reinitialized (context r.2))))))).
Proof.
  intros Hs Hc r calls. subst r calls.
  unfold after_water, after_SAPT, exclusion_calls.
  split.
  - intros Hsa Hhy. unfold generate_exclusions. rewrite Hsa, Hhy. mrun.
    destruct (generate_SAPT_FF_exclusions E (system w) sim) as [sys1 sim1] eqn:E1.
    mrun.
    destruct (generate_exclusions_water E cnf water_name sys1 sim1) as [sys2 sim2] eqn:E2.
    mrun. eexists. split; [reflexivity|]. msimpl. rewrite <- !app_assoc. done.
  - intros Hb. unfold generate_exclusions.
    destruct (py_truthy sapt) eqn:Hsa, (py_truthy hybrid) eqn:Hhy;
      try discriminate; mrun.
    + destruct (generate_SAPT_FF_exclusions E (system w) sim) as [sys1 sim1] eqn:E1.
      mrun. eexists. split; [reflexivity|]. msimpl. rewrite ?app_nil_r. done.
    + destruct (generate_exclusions_water E cnf water_name (system w) sim) as [sys2 sim2] eqn:E2.
      mrun. eexists. split; [reflexivity|]. msimpl. done.
    + eexists. split; [reflexivity|]. msimpl. rewrite ?app_nil_r. done.
Qed.


Lemma periodic_body_run flag i s fs o f :
  s !! "system" = Some VSystem ->
  fs !! i = Some f ->
  periodic_body flag i (mkWorld s (mkSystem fs) o)
  = if bool_decide (i <= max_force_group)%nat
    then Ok tt (mkWorld s (mkSystem (<[i := periodic_step flag i f]> fs)) o)
    else Raise OpenMMException (mkWorld s (mkSystem fs) o).
Proof.
  intros Hs Hf. apply lookup_lt_Some in Hf as Hlt.
  unfold periodic_body, periodic_step, is_bonded_type, setForceGroup.
  munfold. simpl. rewrite Hs. simpl. rewrite Hf. simpl.
  case_bool_decide; simpl; [|done].
  destruct (py_truthy flag); simpl; [|by rewrite orb_false_r].
  rewrite Hs. simpl. rewrite list_lookup_insert_eq by done. simpl.
  match goal with |- context [if ?b then _ else _] => destruct b end; simpl.
  - rewrite Hs. simpl. rewrite list_lookup_insert_eq by done. simpl.
    rewrite list_insert_insert_eq, orb_true_r. done.
  - by rewrite orb_false_r.
Qed.

(** The loop from index [k] on: it stops with the engine's exception at the
    first index above [max_force_group]. *)
Lemma periodic_loop flag s o n : forall k fs,
  s !! "system" = Some VSystem ->
  (k + n = length fs)%nat -> (k <= S max_force_group)%nat ->
  exists fs',
    for_each (seq k n) (periodic_body flag) (mkWorld s (mkSystem fs) o)
    = (if bool_decide (length fs <= S max_force_group)%nat
       then Ok tt (mkWorld s (mkSystem fs') o)
       else Raise OpenMMException (mkWorld s (mkSystem fs') o)) /\
    length fs' = length fs /\
    forall i, fs' !! i
              = (if bool_decide (k <= i <= max_force_group)%nat
                 then periodic_step flag i else id) <$> fs !! i.
Proof.
  induction n as [|n IH]; intros k fs Hs Hlen Hk; simpl.
  - exists fs. split; [by rewrite bool_decide_true by lia|]. split; [done|].
    intros i. case_bool_decide.
    + rewrite lookup_ge_None_2 by lia. done.
    + by rewrite option_fmap_id.
  - destruct (lookup_lt_is_Some_2 fs k) as [f Hf]; [lia|].
    rewrite bind_run, (periodic_body_run _ _ _ _ _ _ Hs Hf).
    destruct (decide (k <= max_force_group)%nat) as [Hle|Hgt].
    + rewrite bool_decide_true by done.
      destruct (IH (S k) (<[k := periodic_step flag k f]> fs) Hs)
        as (fs' & Hrun & Hl & Hlook); [rewrite length_insert; lia|lia|].
      rewrite length_insert in Hrun, Hl.
      exists fs'. split; [exact Hrun|]. split; [exact Hl|].
      intros i. rewrite Hlook, list_lookup_insert.
      destruct (decide (k = i)) as [<-|Hne].
      * rewrite (decide_True (P := k = k ∧ _)) by lia.
        rewrite bool_decide_false by lia. rewrite bool_decide_true by lia.
        rewrite Hf. done.
      * rewrite (decide_False (P := k = i ∧ _)) by (intros [? _]; done).
        destruct (decide (S k <= i <= max_force_group)%nat).
        -- rewrite !bool_decide_true by lia. done.
        -- rewrite !bool_decide_false by lia. done.
    + rewrite bool_decide_false by done.
      exists fs. split; [by rewrite bool_decide_false by lia|]. split; [done|].
      intros i. rewrite bool_decide_false by lia. by rewrite option_fmap_id.
Qed.

(** The outcome of [set_periodic_residue]: it returns when the system has
    at most 32 forces and raises the engine's exception otherwise, in both
    cases with the forces up to index 31 done. *)
Lemma set_periodic_residue_run flag w :
  self w !! "system" = Some VSystem ->
  set_periodic_residue flag w
  = let w' := mkWorld (self w)
                      (mkSystem (periodic_forces flag (forces (system w))))
                      (out w) in
    if bool_decide (length (forces (system w)) <= S max_force_group)%nat
    then Ok tt w' else Raise OpenMMException w'.
Proof.
  intros Hs. destruct w as [s [fs] o]. simpl in *.
  destruct (periodic_loop flag s o (length fs) 0%nat fs Hs eq_refl)
    as (fs' & Hrun & Hlen & Hlook); [lia|].
  unfold set_periodic_residue. rewrite bind_run. unfold self_system at 1.
  rewrite bind_run, (getattr_Some "system" VSystem (mkWorld s (mkSystem fs) o) Hs).
  simpl. rewrite Hrun.
  assert (fs' = periodic_forces flag fs) as ->; [|done].
  apply list_eq. intros i. unfold periodic_forces.
  rewrite Hlook, list_lookup_imap.
  destruct (fs !! i) as [f|]; simpl; [|by case_bool_decide].
  destruct (decide (i <= max_force_group)%nat).
  - rewrite !bool_decide_true by lia. done.
  - rewrite !bool_decide_false by lia. done.
Qed.

Lemma lookup_periodic_forces flag fs i :
  periodic_forces flag fs !! i
  = (fun f => if bool_decide (i <= max_force_group)%nat
              then periodic_step flag i f else f) <$> fs !! i.
Proof. unfold periodic_forces. by rewrite list_lookup_imap. Qed.

Lemma length_periodic_forces flag fs :
  length (periodic_forces flag fs) = length fs.
Proof. unfold periodic_forces. by rewrite length_imap. Qed.

(** C10: after [set_periodic_residue(flag)] has returned, the i-th force of
    the system has force group i, whatever the flag; and when the flag is
    true every HarmonicBondForce, HarmonicAngleForce, PeriodicTorsionForce
    and RBTorsionForce has periodic boundary conditions set.  The forces keep
    their number, order and types.  The call returns exactly when the system
    has at most 32 forces: with more of them the engine refuses the force
    group 32, the call raises its exception, and the forces from index 32 on
    are left as they were. *)
Theorem set_periodic_residue_groups flag w :
  self w !! "system" = Some VSystem ->
  ((exists w', set_periodic_residue flag w = Ok tt w')
   <-> (length (forces (system w)) <= 32)%nat) /\
  (forall w',
      set_periodic_residue flag w = Ok tt w' ->
      self w' = self w /\ out w' = out w /\
      length (forces (system w')) = length (forces (system w)) /\
      forall i f,
        forces (system w) !! i = Some f ->
        exists f',
          forces (system w') !! i = Some f' /\
          ftype f' = ftype f /\
          forceGroup f' = i /\
          (py_truthy flag = true ->
           ftype f ∈ [HarmonicBondForce; HarmonicAngleForce;
                      PeriodicTorsionForce; RBTorsionForce] ->
           usePeriodic f' = true)) /\
  ((32 < length (forces (system w)))%nat ->
   exists w',
     set_periodic_residue flag w = Raise OpenMMException w' /\
     self w' = self w /\ out w' = out w /\
     forall i, (32 <= i)%nat ->
               forces (system w') !! i = forces (system w) !! i).
Proof.
  intros Hs. pose proof (set_periodic_residue_run flag w Hs) as Hrun.
  simpl in Hrun. unfold max_force_group in Hrun.
  split; [|split].
  - split.
    + intros [w' Hok]. rewrite Hok in Hrun.
      case_bool_decide; [done|discriminate Hrun].
    + intros Hle. rewrite bool_decide_true in Hrun by done. eauto.
  - intros w' Hok. rewrite Hok in Hrun.
    case_bool_decide as Hle; [|discriminate Hrun]. injection Hrun as ->. simpl.
    split; [done|]. split; [done|].
    split; [by rewrite length_periodic_forces|].
    intros i f Hf. apply lookup_lt_Some in Hf as Hlt.
    rewrite lookup_periodic_forces, Hf. simpl.
    rewrite bool_decide_true by (unfold max_force_group; lia).
    eexists. split; [reflexivity|]. simpl. split; [done|]. split; [done|].
    intros -> Hin. rewrite !elem_of_cons, elem_of_nil in Hin.
    unfold is_bonded_type.
    destruct Hin as [->|[->|[->|[->|[]]]]]; simpl; by rewrite orb_true_r.
  - intros Hgt. rewrite bool_decide_false in Hrun by lia.
    eexists. split; [exact Hrun|]. simpl. split; [done|]. split; [done|].
    intros i Hi. rewrite lookup_periodic_forces.
    rewrite bool_decide_false by (unfold max_force_group; lia).
    by rewrite option_fmap_id.
Qed.

(** *** The constructor, phase by phase *)

Lemma respects_Ok R {A} (m : M A) w a w' :
  respects R m -> m w = Ok a w' -> R w w'.
Proof. intros Hm Hrun. specialize (Hm w). by rewrite Hrun in Hm. Qed.

Lemma frame_out S fixed P w w' :
  frame S fixed P w w' ->
  exists evs, out w' = out w ++ evs /\ forallb P evs = true.
Proof. by intros (_ & _ & Ho). Qed.

Section Init.
Variable E : Engine.
Variables pdb_list residue_xml_list ff_xml_list : list string.
Variable kwargs : gmap string pyvalue.

Lemma init_Ok_inv w0 w' :
  __init__ E pdb_list residue_xml_list ff_xml_list kwargs w0 = Ok tt w' ->
  init_run E pdb_list residue_xml_list ff_xml_list kwargs w0 w'.
Proof.
  unfold __init__. intros H.
  do 8 (apply bind_Ok_inv in H as ([] & ? & ? & H)).
  econstructor; eassumption.
Qed.

Lemma init_split_load w :
  __init__ E pdb_list residue_xml_list ff_xml_list kwargs w
  = (init_through_load E pdb_list residue_xml_list ff_xml_list kwargs;;
     init_forces;; init_nonbonded_method;; init_custom_method;;
     init_barostat;; init_integrator;; init_rigid_bodies E) w.
Proof.
  unfold __init__, init_through_load. rewrite !bind_run.
  destruct (init_defaults w) as [[] v1|]; [|done].
  cbn beta. rewrite !bind_run.
  destruct (init_kwargs E kwargs v1) as [[] v2|]; [|done].
  reflexivity.
Qed.

Lemma init_split_forces w :
  __init__ E pdb_list residue_xml_list ff_xml_list kwargs w
  = (init_through_forces E pdb_list residue_xml_list ff_xml_list kwargs;;
     init_nonbonded_method;; init_custom_method;;
     init_barostat;; init_integrator;; init_rigid_bodies E) w.
Proof.
  rewrite init_split_load. unfold init_through_forces. rewrite !bind_run.
  destruct (init_through_load E pdb_list residue_xml_list ff_xml_list kwargs w)
    as [[] v1|]; [|done].
  reflexivity.
Qed.

Lemma init_split_method w :
  __init__ E pdb_list residue_xml_list ff_xml_list kwargs w
  = (init_through_method E pdb_list residue_xml_list ff_xml_list kwargs;;
     init_custom_method;;
     init_barostat;; init_integrator;; init_rigid_bodies E) w.
Proof.
  rewrite init_split_forces. unfold init_through_method. rewrite !bind_run.
  destruct (init_through_forces E pdb_list residue_xml_list ff_xml_list kwargs w)
    as [[] v1|]; [|done].
  reflexivity.
Qed.

Lemma init_split_custom w :
  __init__ E pdb_list residue_xml_list ff_xml_list kwargs w
  = (init_through_custom E pdb_list residue_xml_list ff_xml_list kwargs;;
     init_barostat;; init_integrator;; init_rigid_bodies E) w.
Proof.
  rewrite init_split_method. unfold init_through_custom. rewrite !bind_run.
  destruct (init_through_method E pdb_list residue_xml_list ff_xml_list kwargs w)
    as [[] v1|]; [|done].
  reflexivity.
Qed.
End Init.

(** *** Keyword overrides *)

Lemma kw_override_Ok kwargs key conv w w' :
  kw_override kwargs key conv w = Ok tt w' ->
  (kwargs !! key = None /\ w' = w) \/
  (exists v a, kwargs !! key = Some v /\ conv v = inr a /\
               w' = mkWorld (<[key := a]> (self w)) (system w) (out w)).
Proof.
  unfold kw_override. destruct (kwargs !! key) as [v|].
  - rewrite bind_run. destruct (conv v) as [e|a] eqn:Hc; simpl; [discriminate|].
    intros [= <-]. right. eauto.
  - intros [= <-]. by left.
Qed.

Lemma kw_override_other kwargs key conv w w' k :
  kw_override kwargs key conv w = Ok tt w' -> k <> key ->
  self w' !! k = self w !! k.
Proof.
  intros H Hk. apply kw_override_Ok in H as [[_ ->]|(v & a & _ & _ & ->)]; [done|].
  simpl. by rewrite lookup_insert_ne.
Qed.

Lemma kw_override_same kwargs key conv w w' :
  kw_override kwargs key conv w = Ok tt w' ->
  match kwargs !! key with
  | Some v => exists a, conv v = inr a /\ self w' !! key = Some a
  | None => self w' !! key = self w !! key
  end.
Proof.
  intros H. apply kw_override_Ok in H as [[-> ->]|(v & a & -> & Hc & ->)]; [done|].
  exists a. simpl. by rewrite lookup_insert_eq.
Qed.

Lemma kw_barostat_Ok E kwargs w w' :
  kw_barostat E kwargs w = Ok tt w' ->
  (kwargs !! "npt_barostat" = None /\ w' = w) \/
  (exists v p a,
      kwargs !! "npt_barostat" = Some v /\ kwargs !! "pressure" = Some p /\
      conv_float E atmosphere p = inr a /\
      w' = mkWorld (<["pressure" := a]>
                      (<["npt_barostat" := VPy (PyBool (py_truthy v))]> (self w)))
                   (system w) (out w)).
Proof.
  unfold kw_barostat. destruct (kwargs !! "npt_barostat") as [v|].
  - rewrite bind_run. simpl. destruct (kwargs !! "pressure") as [p|]; [|discriminate].
    rewrite bind_run.
    destruct (conv_float E atmosphere p) as [e|a] eqn:Hc; simpl; [discriminate|].
    intros [= <-]. right. eauto 10.
  - intros [= <-]. by left.
Qed.

Lemma kw_barostat_other E kwargs w w' k :
  kw_barostat E kwargs w = Ok tt w' -> k <> "npt_barostat" -> k <> "pressure" ->
  self w' !! k = self w !! k.
Proof.
  intros H H1 H2.
  apply kw_barostat_Ok in H as [[_ ->]|(v & p & a & _ & _ & _ & ->)]; [done|].
  simpl. by rewrite !lookup_insert_ne.
Qed.

Lemma init_kwargs_Ok_inv E kwargs w w' :
  init_kwargs E kwargs w = Ok tt w' -> kwargs_run E kwargs w w'.
Proof.
  unfold init_kwargs. intros H.
  do 9 (apply bind_Ok_inv in H as ([] & ? & ? & H)).
  econstructor; eassumption.
Qed.

(** Rewrites an attribute lookup back through steps that do not write it. *)
Ltac kw_back :=
  repeat match goal with
    | H : kw_override _ ?key _ ?u = Ok tt ?u' |- context [self ?u' !! ?k] =>
        rewrite (kw_override_other _ _ _ _ _ k H) by discriminate
    | H : kw_barostat _ _ ?u = Ok tt ?u' |- context [self ?u' !! ?k] =>
        rewrite (kw_barostat_other _ _ _ _ k H) by discriminate
    end.

Lemma kw_override_framed kwargs key conv u0 u w w' :
  kw_override kwargs key conv u0 = Ok tt u ->
  self w' !! key = self u !! key ->
  self u0 !! key = self w !! key ->
  match kwargs !! key with
  | Some v => exists a, conv v = inr a /\ self w' !! key = Some a
  | None => self w' !! key = self w !! key
  end.
Proof.
  intros H Hafter Hbefore. apply kw_override_same in H.
  destruct (kwargs !! key); rewrite Hafter; [done|]. by rewrite H.
Qed.

Lemma init_kwargs_override E kwargs w w' key conv :
  (key, conv) ∈ overrides E ->
  init_kwargs E kwargs w = Ok tt w' ->
  match kwargs !! key with
  | Some v => exists a, conv v = inr a /\ self w' !! key = Some a
  | None => self w' !! key = self w !! key
  end.
Proof.
  intros Hin H. apply init_kwargs_Ok_inv in H as [u1 u2 u3 u4 u5 u6 u7 u8 u9
    H1 H2 H3 H4 H5 H6 H7 H8 H9 H10].
  unfold overrides in Hin. rewrite !elem_of_cons, elem_of_nil in Hin.
  destruct Hin as [Heq|[Heq|[Heq|[Heq|[Heq|[Heq|[Heq|[Heq|[Heq|[]]]]]]]]]];
    injection Heq as -> ->.
  - apply (kw_override_framed _ _ _ _ _ _ _ H1); kw_back; done.
  - apply (kw_override_framed _ _ _ _ _ _ _ H2); kw_back; done.
  - apply (kw_override_framed _ _ _ _ _ _ _ H3); kw_back; done.
  - apply (kw_override_framed _ _ _ _ _ _ _ H4); kw_back; done.
  - apply (kw_override_framed _ _ _ _ _ _ _ H5); kw_back; done.
  - apply (kw_override_framed _ _ _ _ _ _ _ H6); kw_back; done.
  - apply (kw_override_framed _ _ _ _ _ _ _ H7); kw_back; done.
  - apply (kw_override_framed _ _ _ _ _ _ _ H8); kw_back; done.
  - apply (kw_override_framed _ _ _ _ _ _ _ H10); kw_back; done.
Qed.

Lemma init_kwargs_barostat E kwargs w w' :
  init_kwargs E kwargs w = Ok tt w' ->
  match kwargs !! "npt_barostat" with
  | Some v =>
      self w' !! "npt_barostat" = Some (VPy (PyBool (py_truthy v))) /\
      exists p a, kwargs !! "pressure" = Some p /\
                  conv_float E atmosphere p = inr a /\
                  self w' !! "pressure" = Some a
  | None =>
      self w' !! "npt_barostat" = self w !! "npt_barostat" /\
      self w' !! "pressure" = self w !! "pressure"
  end.
Proof.
  intros H. apply init_kwargs_Ok_inv in H as [u1 u2 u3 u4 u5 u6 u7 u8 u9
    H1 H2 H3 H4 H5 H6 H7 H8 H9 H10].
  rewrite (kw_override_other _ _ _ _ _ "npt_barostat" H10) by discriminate.
  rewrite (kw_override_other _ _ _ _ _ "pressure" H10) by discriminate.
  apply kw_barostat_Ok in H9 as [[-> ->]|(v & p & a & -> & Hp & Hc & ->)].
  - kw_back. done.
  - simpl. rewrite lookup_insert_ne by discriminate.
    rewrite !lookup_insert_eq. eauto 10.
Qed.

(** *** Loading *)

Lemma for_each_emit {A} (l : list A) (ev : A -> event) w :
  for_each l (fun x => emit (ev x)) w
  = Ok tt (mkWorld (self w) (system w) (out w ++ map ev l)).
Proof.
  revert w. induction l as [|x l IH]; intros w; simpl.
  - rewrite app_nil_r. by destruct w.
  - rewrite bind_run. simpl. rewrite IH. simpl. by rewrite <- app_assoc.
Qed.

Lemma init_load_Ok E pdb_list residue_xml_list ff_xml_list w w' :
  init_load E pdb_list residue_xml_list ff_xml_list w = Ok tt w' ->
  exists pdb0 rest cutoff,
    pdb_list = pdb0 :: rest /\
    self w !! "cutoff" = Some cutoff /\
    let ff := load_ForceField E ff_xml_list in
    let m := addExtraParticles E ff (PDBFile E pdb0) in
    self w' !! "forcefield" = Some (VForceField ff) /\
    self w' !! "modeller" = Some (VModeller m.1 m.2) /\
    self w' !! "system" = Some VSystem /\
    system w' = createSystem E ff m.1 cutoff /\
    out w' = out w ++ map LoadBondDefinitions residue_xml_list.
Proof.
  unfold init_load. rewrite bind_run, for_each_emit.
  destruct pdb_list as [|pdb0 rest]; [munfold; simpl; discriminate|].
  munfold. simpl.
  destruct (PDBFile E pdb0) as [top pos] eqn:Hpdb.
  msimpl.
  destruct (addExtraParticles E (load_ForceField E ff_xml_list) (top, pos))
    as [top' pos'] eqn:Hadd.
  msimpl.
  destruct (self w !! "cutoff") as [cutoff|] eqn:Hcut; [|discriminate].
  intros [= <-]. exists pdb0, rest, cutoff. rewrite Hpdb, Hadd. msimpl. done.
Qed.

(** *** Forces by type *)

Lemma elem_of_forces_of_type t sys i :
  i ∈ forces_of_type t sys <-> ftype <$> forces sys !! i = Some t.
Proof.
  unfold forces_of_type. rewrite list_elem_of_filter, elem_of_seq.
  split; [by intros [? _]|]. intros H. split; [done|].
  destruct (forces sys !! i) eqn:Hl; [|discriminate].
  apply lookup_lt_Some in Hl. lia.
Qed.

Lemma forces_of_type_nil t sys :
  forces_of_type t sys = [] <-> ~ has_force t sys.
Proof.
  split.
  - intros Hnil (f & Hin & Ht). apply list_elem_of_lookup in Hin as [i Hi].
    assert (i ∈ forces_of_type t sys) as Hel.
    { apply elem_of_forces_of_type. rewrite Hi. simpl. by rewrite Ht. }
    rewrite Hnil in Hel. by apply elem_of_nil in Hel.
  - intros Hno. destruct (forces_of_type t sys) as [|i l] eqn:Hf; [done|].
    exfalso. apply Hno.
    assert (i ∈ forces_of_type t sys) as Hel by (rewrite Hf; left).
    apply elem_of_forces_of_type in Hel.
    destruct (forces sys !! i) as [f|] eqn:Hi; [|discriminate].
    exists f. split; [by eapply list_elem_of_lookup_2|]. simpl in Hel. congruence.
Qed.

Lemma init_forces_Ok w w' :
  self w !! "system" = Some VSystem ->
  init_forces w = Ok tt w' ->
  system w' = system w /\ out w' = out w /\
  (exists nb rest,
      forces_of_type NonbondedForce (system w) = nb :: rest /\
      self w' !! "nbondedForce" = Some (VForce nb)) /\
  self w' !! "customNonbondedForce"
  = Some (match forces_of_type CustomNonbondedForce (system w) with
          | [] => VForceList []
          | c :: _ => VForce c
          end) /\
  self w' !! "polarization"
  = Some (VPy (PyBool (match forces_of_type DrudeForce (system w) with
                       | [] => false
                       | _ => true
                       end))).
Proof.
  intros Hs. unfold init_forces. mrun.
  destruct (forces_of_type NonbondedForce (system w)) as [|nb rest]; [discriminate|].
  mrun.
  destruct (forces_of_type CustomNonbondedForce (system w)) as [|c cs];
    mrun;
    (destruct (forces_of_type DrudeForce (system w)) as [|d ds]; mrun;
     [|destruct (forces_of_type CustomBondForce (system w)) as [|b bs];
       [discriminate|]; mrun]);
    intros [= <-]; msimpl; eauto 10.
Qed.

(** *** The state once the system is built *)

Lemma overrides_not_later E key conv :
  (key, conv) ∈ overrides E -> key ∉ later_keys.
Proof.
  unfold overrides, later_keys, force_keys. intros Hin.
  rewrite !elem_of_cons, elem_of_nil in Hin.
  destruct Hin as [Heq|[Heq|[Heq|[Heq|[Heq|[Heq|[Heq|[Heq|[Heq|[]]]]]]]]]];
    injection Heq as -> _; rewrite !not_elem_of_cons;
    repeat split; try discriminate; apply not_elem_of_nil.
Qed.

Lemma loaded_keeps E pdb_list ff_xml_list kwargs w w' :
  (forall key, key ∉ later_keys -> self w' !! key = self w !! key) ->
  loaded E pdb_list ff_xml_list kwargs w ->
  loaded E pdb_list ff_xml_list kwargs w'.
Proof.
  intros Hk [H1 H2 H3 H4 H5].
  assert (forall key, key ∈ ["system"; "NPT_barostat_pressure"; "npt_barostat";
                             "pressure"; "forcefield"; "modeller"] ->
                      self w' !! key = self w !! key) as Hk'.
  { intros key Hin. apply Hk. unfold later_keys, force_keys.
    rewrite !elem_of_cons, elem_of_nil in Hin.
    destruct Hin as [->|[->|[->|[->|[->|[->|[]]]]]]];
      rewrite !not_elem_of_cons; repeat split; try discriminate;
      apply not_elem_of_nil. }
  split.
  - rewrite Hk' by solve_elem. done.
  - rewrite Hk' by solve_elem. done.
  - intros key conv Hin. rewrite (Hk key) by (by eapply overrides_not_later).
    by apply H3.
  - rewrite !Hk' by solve_elem. done.
  - rewrite !Hk' by solve_elem. done.
Qed.

Lemma frame_later S fixed P w w' :
  frame S fixed P w w' ->
  (forall key, key ∈ S -> key ∈ later_keys) ->
  forall key, key ∉ later_keys -> self w' !! key = self w !! key.
Proof. intros (Ha & _) Hsub key Hk. apply Ha. intros Hin. by apply Hk, Hsub. Qed.

Lemma through_load_inv E pdb_list residue_xml_list ff_xml_list kwargs w0 w3 :
  init_through_load E pdb_list residue_xml_list ff_xml_list kwargs w0 = Ok tt w3 ->
  exists w1 w2,
    init_defaults w0 = Ok tt w1 /\
    init_kwargs E kwargs w1 = Ok tt w2 /\
    init_load E pdb_list residue_xml_list ff_xml_list w2 = Ok tt w3.
Proof.
  unfold init_through_load. intros H.
  do 2 (apply bind_Ok_inv in H as ([] & ? & ? & H)). eauto.
Qed.

Lemma through_load_loaded E pdb_list residue_xml_list ff_xml_list kwargs w3 :
  init_through_load E pdb_list residue_xml_list ff_xml_list kwargs empty_world
  = Ok tt w3 ->
  loaded E pdb_list ff_xml_list kwargs w3.
Proof.
  intros H. apply through_load_inv in H as (w1 & w2 & Hd & Hk & Hl).
  assert (w1 = world_of (init_defaults empty_world)) as Hw1 by (by rewrite Hd).
  pose proof (respects_Ok _ _ _ _ _ (init_load_frame E _ _ _) Hl) as (Hfl & _).
  pose proof (respects_Ok _ _ _ _ _ (init_kwargs_frame E _) Hk) as (Hfk & _).
  apply init_load_Ok in Hl as (pdb0 & rest & cutoff & -> & Hcut & Hff & Hm & Hsys & _).
  split.
  - done.
  - rewrite Hfl by solve_elem. rewrite Hfk by (unfold default_keys; solve_elem).
    rewrite Hw1. reflexivity.
  - intros key conv Hin.
    assert (key ∉ ["pdb"; "modeller"; "forcefield"; "system"]) as Hnot.
    { unfold overrides in Hin. rewrite !elem_of_cons, elem_of_nil in Hin.
      destruct Hin as [Heq|[Heq|[Heq|[Heq|[Heq|[Heq|[Heq|[Heq|[Heq|[]]]]]]]]]];
        injection Heq as -> _; rewrite !not_elem_of_cons;
        repeat split; try discriminate; apply not_elem_of_nil. }
    rewrite (Hfl key Hnot).
    pose proof (init_kwargs_override _ _ _ _ _ _ Hin Hk) as Ho.
    destruct (kwargs !! key); [done|]. rewrite Ho, Hw1. reflexivity.
  - rewrite !Hfl by solve_elem.
    pose proof (init_kwargs_barostat _ _ _ _ Hk) as Hb.
    destruct (kwargs !! "npt_barostat"); [done|].
    destruct Hb as [-> _]. rewrite Hw1. reflexivity.
  - exists pdb0, rest. split; [done|]. simpl. done.
Qed.

Lemma loaded_respects E pdb_list ff_xml_list kwargs S fixed P {A} (m : M A) w a w' :
  respects (frame S fixed P) m ->
  (forall key, key ∈ S -> key ∈ later_keys) ->
  m w = Ok a w' ->
  loaded E pdb_list ff_xml_list kwargs w ->
  loaded E pdb_list ff_xml_list kwargs w'.
Proof.
  intros Hm Hsub Hrun. apply loaded_keeps.
  eapply frame_later; [|exact Hsub]. eapply respects_Ok; [exact Hm|exact Hrun].
Qed.

Ltac solve_sub :=
  let key := fresh "key" in
  let Hin := fresh "Hin" in
  intros key Hin; unfold later_keys, force_keys in *;
  rewrite list_elem_of_In in *; simpl in *; intuition (subst; auto).

Lemma loaded_quantity E pdb_list ff_xml_list kwargs w key :
  loaded E pdb_list ff_xml_list kwargs w ->
  key ∈ quantity_keys ->
  exists q, self w !! key = Some (VQuantity q).
Proof.
  intros Hl Hin.
  assert (exists conv, (key, conv) ∈ overrides E /\
                       (forall v a, conv v = inr a -> exists q, a = VQuantity q) /\
                       exists q, default_attrs !! key = Some (VQuantity q))
    as (conv & Hov & Hconv & q0 & Hdef).
  { unfold quantity_keys in Hin. rewrite !elem_of_cons, elem_of_nil in Hin.
    destruct Hin as [->|[->|[->|[->|[->|[]]]]]];
      [exists (conv_int E kelvin) | exists (conv_int E kelvin)
       | exists (conv_int E per_picosecond) | exists (conv_int E per_picosecond)
       | exists (conv_float E picoseconds)];
      (split; [unfold overrides; solve_elem|]);
      (split; [|eexists; reflexivity]);
      intros v a; unfold conv_int, conv_float;
      match goal with |- context [match ?r with _ => _ end] => destruct r end;
      intros [= <-]; eauto. }
  pose proof (loaded_override _ _ _ _ _ Hl key conv Hov) as Ho.
  destruct (kwargs !! key) as [v|].
  - destruct Ho as (a & Hc & Ha). destruct (Hconv v a Hc) as [q ->]. eauto.
  - rewrite Ho, Hdef. eauto.
Qed.

Lemma loaded_method E pdb_list ff_xml_list kwargs w :
  loaded E pdb_list ff_xml_list kwargs w ->
  self w !! "nonbonded_method" = Some (VPy (configured_method kwargs)).
Proof.
  intros Hl.
  pose proof (loaded_override _ _ _ _ _ Hl "nonbonded_method" conv_copy) as Ho.
  unfold configured_method.
  destruct (kwargs !! "nonbonded_method") as [v|]; simpl.
  - destruct Ho as (a & [= <-] & Ha); [unfold overrides; solve_elem|]. done.
  - rewrite Ho by (unfold overrides; solve_elem). reflexivity.
Qed.

Lemma loaded_rigid_body E pdb_list ff_xml_list kwargs w :
  loaded E pdb_list ff_xml_list kwargs w ->
  self w !! "rigid_body" = Some (VPy (default PyNone (kwargs !! "rigid_body"))).
Proof.
  intros Hl.
  pose proof (loaded_override _ _ _ _ _ Hl "rigid_body" conv_copy) as Ho.
  destruct (kwargs !! "rigid_body") as [v|]; simpl.
  - destruct Ho as (a & [= <-] & Ha); [unfold overrides; solve_elem|]. done.
  - rewrite Ho by (unfold overrides; solve_elem). reflexivity.
Qed.

Lemma forced_respects sys S fixed P {A} (m : M A) w a w' :
  respects (frame S fixed P) m ->
  (forall key, key ∈ S -> key = "integrator") ->
  m w = Ok a w' ->
  forced sys w -> forced sys w'.
Proof.
  intros Hm Hsub Hrun [H1 H2 H3].
  pose proof (respects_Ok _ _ _ _ _ Hm Hrun) as (Hk & _).
  assert (forall key, key <> "integrator" -> self w' !! key = self w !! key) as Hk'.
  { intros key Hne. apply Hk. intros Hin. by apply Hne, Hsub. }
  split; rewrite Hk' by discriminate; done.
Qed.

Lemma through_forces_inv E pdb_list residue_xml_list ff_xml_list kwargs w0 w4 :
  init_through_forces E pdb_list residue_xml_list ff_xml_list kwargs w0 = Ok tt w4 ->
  exists w3,
    init_through_load E pdb_list residue_xml_list ff_xml_list kwargs w0 = Ok tt w3 /\
    init_forces w3 = Ok tt w4.
Proof.
  unfold init_through_forces. intros H.
  apply bind_Ok_inv in H as ([] & ? & ? & H). eauto.
Qed.

Lemma through_method_inv E pdb_list residue_xml_list ff_xml_list kwargs w0 w5 :
  init_through_method E pdb_list residue_xml_list ff_xml_list kwargs w0 = Ok tt w5 ->
  exists w4,
    init_through_forces E pdb_list residue_xml_list ff_xml_list kwargs w0 = Ok tt w4 /\
    init_nonbonded_method w4 = Ok tt w5.
Proof.
  unfold init_through_method. intros H.
  apply bind_Ok_inv in H as ([] & ? & ? & H). eauto.
Qed.

Lemma through_custom_inv E pdb_list residue_xml_list ff_xml_list kwargs w0 w6 :
  init_through_custom E pdb_list residue_xml_list ff_xml_list kwargs w0 = Ok tt w6 ->
  exists w5,
    init_through_method E pdb_list residue_xml_list ff_xml_list kwargs w0 = Ok tt w5 /\
    init_custom_method w5 = Ok tt w6.
Proof.
  unfold init_through_custom. intros H.
  apply bind_Ok_inv in H as ([] & ? & ? & H). eauto.
Qed.

(** The state after line 93 of a run from a fresh object. *)
Lemma through_forces_state E pdb_list residue_xml_list ff_xml_list kwargs w4 :
  init_through_forces E pdb_list residue_xml_list ff_xml_list kwargs empty_world
  = Ok tt w4 ->
  exists w3,
    init_through_load E pdb_list residue_xml_list ff_xml_list kwargs empty_world
    = Ok tt w3 /\
    system w4 = system w3 /\ out w4 = out w3 /\
    loaded E pdb_list ff_xml_list kwargs w4 /\
    forced (system w3) w4.
Proof.
  intros H. apply through_forces_inv in H as (w3 & Hl & Hf).
  exists w3. split; [done|].
  pose proof (through_load_loaded _ _ _ _ _ _ Hl) as Hld.
  pose proof (init_forces_Ok _ _ (loaded_system _ _ _ _ _ Hld) Hf)
    as (Hs & Ho & Hnb & Hc & Hp).
  split; [done|]. split; [done|]. split.
  - eapply (loaded_respects _ _ _ _ _ _ _ _ _ _ _ init_forces_frame); [|done..].
    solve_sub.
  - by split.
Qed.


Lemma forces_of_type_head t sys i rest :
  forces_of_type t sys = i :: rest ->
  exists f, forces sys !! i = Some f /\ ftype f = t.
Proof.
  intros Hf.
  assert (i ∈ forces_of_type t sys) as Hel by (rewrite Hf; left).
  apply elem_of_forces_of_type in Hel.
  destruct (forces sys !! i) as [f|]; [|discriminate].
  exists f. split; [done|]. simpl in Hel. congruence.
Qed.


(** *** Lines 106-108 *)

Lemma init_custom_method_object w c :
  self w !! "customNonbondedForce" = Some (VForce c) ->
  init_custom_method w
  = Raise TypeError
      (mkWorld (self w) (system w)
               (out w ++ [Print "setting CustomNonbondedForce method to CutoffPeriodic"])).
Proof. intros H. unfold init_custom_method. mrun. reflexivity. Qed.

Lemma init_custom_method_none w :
  self w !! "customNonbondedForce" = Some (VForceList []) ->
  init_custom_method w = Ok tt w.
Proof. intros H. unfold init_custom_method. mrun. reflexivity. Qed.

(** C9: when the created system contains a CustomNonbondedForce, the
    constructor never completes; once the nonbonded method is set (line 104
    passed), [self.customNonbondedForce] holds the force object itself, not
    a list, and evaluating [self.customNonbondedForce[0]] on line 108 raises
    [TypeError]. *)
Theorem custom_nonbonded_force_raises
        E pdb_list residue_xml_list ff_xml_list kwargs w3 :
  init_through_load E pdb_list residue_xml_list ff_xml_list kwargs empty_world
  = Ok tt w3 ->
  has_force CustomNonbondedForce (system w3) ->
  (exists e w', MM_base E pdb_list residue_xml_list ff_xml_list kwargs = Raise e w') /\
  (forall w5,
      init_through_method E pdb_list residue_xml_list ff_xml_list kwargs empty_world
      = Ok tt w5 ->
      exists c f,
        self w5 !! "customNonbondedForce" = Some (VForce c) /\
        forces (system w3) !! c = Some f /\ ftype f = CustomNonbondedForce /\
        MM_base E pdb_list residue_xml_list ff_xml_list kwargs
        = Raise TypeError
            (mkWorld (self w5) (system w5)
               (out w5 ++
                [Print "setting CustomNonbondedForce method to CutoffPeriodic"]))).
Proof.
  intros H3 Hhas.
  assert (forall w5,
      init_through_method E pdb_list residue_xml_list ff_xml_list kwargs empty_world
      = Ok tt w5 ->
      exists c f,
        self w5 !! "customNonbondedForce" = Some (VForce c) /\
        forces (system w3) !! c = Some f /\ ftype f = CustomNonbondedForce /\
        MM_base E pdb_list residue_xml_list ff_xml_list kwargs
        = Raise TypeError
            (mkWorld (self w5) (system w5)
               (out w5 ++
                [Print "setting CustomNonbondedForce method to CutoffPeriodic"])))
    as Hreach.
  { intros w5 H5. apply through_method_inv in H5 as H5'.
    destruct H5' as (w4 & H4 & Hm).
    destruct (through_forces_state _ _ _ _ _ _ H4) as (w3' & H3' & _ & _ & _ & Hfd).
    rewrite H3 in H3'. injection H3' as <-.
    pose proof (forced_respects _ _ _ _ _ _ _ _ init_nonbonded_method_frame
                  ltac:(intros ? Hin; by apply elem_of_nil in Hin) Hm Hfd) as Hfd5.
    pose proof (forced_custom _ _ Hfd5) as Hc.
    destruct (forces_of_type CustomNonbondedForce (system w3)) as [|c cs] eqn:Hcs.
    { apply forces_of_type_nil in Hcs. done. }
    destruct (forces_of_type_head _ _ _ _ Hcs) as (f & Hf & Ht).
    exists c, f. split; [done|]. split; [done|]. split; [done|].
    unfold MM_base. rewrite init_split_custom. apply bind_Raise_l.
    unfold init_through_custom. rewrite (bind_Ok_l _ _ _ _ _ H5).
    exact (init_custom_method_object _ _ Hc). }
  split; [|exact Hreach].
  destruct (init_through_method E pdb_list residue_xml_list ff_xml_list kwargs
              empty_world) as [[] w5|e w5] eqn:H5.
  - destruct (Hreach w5 eq_refl) as (c & f & _ & _ & _ & Hr). eauto.
  - exists e, w5. unfold MM_base. rewrite init_split_method. by apply bind_Raise_l.
Qed.

Lemma run_parameters_overrides E key conv :
  (key, conv) ∈ run_parameters E -> (key, conv) ∈ overrides E.
Proof.
  unfold run_parameters, overrides. rewrite !elem_of_cons, !elem_of_nil. tauto.
Qed.

(** *** Lines 110-114 *)

Lemma init_barostat_on w b p t :
  self w !! "npt_barostat" = Some b -> attr_truthy b = true ->
  self w !! "pressure" = Some (VQuantity p) ->
  self w !! "temperature" = Some (VQuantity t) ->
  self w !! "system" = Some VSystem ->
  self w !! "NPT_barostat_pressure" = None ->
  init_barostat w
  = Raise (AttributeError "NPT_barostat_pressure")
          (mkWorld (self w)
                   (mkSystem (forces (system w) ++ [new_MonteCarloBarostat p t 100]))
                   (out w)).
Proof.
  intros Hb Ht Hp Htemp Hs Hn. unfold init_barostat. mrun. rewrite Ht. mrun.
  reflexivity.
Qed.

Lemma init_barostat_off w :
  self w !! "npt_barostat" = Some (VPy (PyBool false)) ->
  init_barostat w = Ok tt w.
Proof. intros Hb. unfold init_barostat. mrun. reflexivity. Qed.

Lemma through_custom_state E pdb_list residue_xml_list ff_xml_list kwargs w6 :
  init_through_custom E pdb_list residue_xml_list ff_xml_list kwargs empty_world
  = Ok tt w6 ->
  exists w3,
    init_through_load E pdb_list residue_xml_list ff_xml_list kwargs empty_world
    = Ok tt w3 /\
    loaded E pdb_list ff_xml_list kwargs w6 /\
    forced (system w3) w6 /\
    exists evs, out w6 = evs /\ forallb not_rigid_call evs = true.
Proof.
  intros H6. apply through_custom_inv in H6 as (w5 & H5 & Hc).
  apply through_method_inv in H5 as (w4 & H4 & Hm).
  destruct (through_forces_state _ _ _ _ _ _ H4) as (w3 & H3 & _ & Ho & Hld & Hfd).
  exists w3. split; [done|].
  assert (forall key : string, key ∈ @nil string -> key ∈ later_keys) as Hsub1
    by (intros ? Hin; by apply elem_of_nil in Hin).
  assert (forall key : string, key ∈ @nil string -> key = "integrator") as Hsub2
    by (intros ? Hin; by apply elem_of_nil in Hin).
  split; [|split].
  - eapply (loaded_respects _ _ _ _ _ _ _ _ _ _ _ init_custom_method_frame Hsub1 Hc).
    eapply (loaded_respects _ _ _ _ _ _ _ _ _ _ _ init_nonbonded_method_frame Hsub1 Hm).
    done.
  - eapply (forced_respects _ _ _ _ _ _ _ _ init_custom_method_frame Hsub2 Hc).
    eapply (forced_respects _ _ _ _ _ _ _ _ init_nonbonded_method_frame Hsub2 Hm).
    done.
  - apply through_load_inv in H3 as (w1 & w2 & Hd & Hk & Hl).
    destruct (frame_out _ _ _ _ _ (respects_Ok _ _ _ _ _ init_defaults_frame Hd))
      as (e1 & He1 & Hp1).
    destruct (frame_out _ _ _ _ _ (respects_Ok _ _ _ _ _ (init_kwargs_frame E _) Hk))
      as (e2 & He2 & Hp2).
    destruct (frame_out _ _ _ _ _ (respects_Ok _ _ _ _ _ (init_load_frame E _ _ _) Hl))
      as (e3 & He3 & Hp3).
    destruct (frame_out _ _ _ _ _ (respects_Ok _ _ _ _ _ init_nonbonded_method_frame Hm))
      as (e5 & He5 & Hp5).
    destruct (frame_out _ _ _ _ _ (respects_Ok _ _ _ _ _ init_custom_method_frame Hc))
      as (e6 & He6 & Hp6).
    eexists. split; [reflexivity|].
    rewrite He6, He5, Ho, He3, He2, He1. simpl.
    rewrite !forallb_app, Hp1, Hp2, Hp3, Hp5, Hp6. done.
Qed.

Lemma conv_float_quantity E u p a :
  conv_float E u p = inr a -> exists q, a = VQuantity q.
Proof.
  unfold conv_float. destruct (py_float (parse_float E) p); intros [= <-]. eauto.
Qed.

(** *** Keyword reading that succeeds or stops at the pressure *)

Lemma kw_override_succeeds kwargs key conv w :
  (forall v, kwargs !! key = Some v -> exists a, conv v = inr a) ->
  exists w', kw_override kwargs key conv w = Ok tt w' /\
             system w' = system w /\ out w' = out w.
Proof.
  intros Hc. unfold kw_override. destruct (kwargs !! key) as [v|].
  - destruct (Hc v eq_refl) as [a Ha]. rewrite bind_run, Ha. simpl. eauto.
  - eauto.
Qed.

Lemma kw_barostat_missing E kwargs w v :
  kwargs !! "npt_barostat" = Some v -> kwargs !! "pressure" = None ->
  kw_barostat E kwargs w
  = Raise (KeyError "pressure")
          (mkWorld (<["npt_barostat" := VPy (PyBool (py_truthy v))]> (self w))
                   (system w) (out w)).
Proof. intros Hv Hp. unfold kw_barostat. rewrite Hv, Hp. reflexivity. Qed.

Lemma init_kwargs_missing_pressure E kwargs w v :
  kwargs !! "npt_barostat" = Some v -> kwargs !! "pressure" = None ->
  (forall key conv, (key, conv) ∈ run_parameters E ->
                    forall x, kwargs !! key = Some x -> exists a, conv x = inr a) ->
  exists w', init_kwargs E kwargs w = Raise (KeyError "pressure") w' /\
             system w' = system w /\ out w' = out w.
Proof.
  intros Hv Hp Hconv. unfold init_kwargs.
  assert (forall key conv, (key, conv) ∈ overrides E ->
            key <> "rigid_body" ->
            forall x, kwargs !! key = Some x -> exists a, conv x = inr a) as Hc.
  { intros key conv Hin Hne. unfold overrides in Hin.
    rewrite !elem_of_cons, elem_of_nil in Hin.
    destruct Hin as [Heq|[Heq|[Heq|[Heq|[Heq|[Heq|[Heq|[Heq|[Heq|[]]]]]]]]]];
      injection Heq as -> ->; try done;
      try (apply Hconv; unfold run_parameters; solve_elem).
    intros x _. by eexists. }
  destruct (kw_override_succeeds kwargs "temperature" (conv_int E kelvin) w)
    as (u1 & H1 & Hs1 & Ho1); [apply Hc; [unfold overrides; solve_elem|done]|].
  destruct (kw_override_succeeds kwargs "temperature_drude" (conv_int E kelvin) u1)
    as (u2 & H2 & Hs2 & Ho2); [apply Hc; [unfold overrides; solve_elem|done]|].
  destruct (kw_override_succeeds kwargs "friction" (conv_int E per_picosecond) u2)
    as (u3 & H3 & Hs3 & Ho3); [apply Hc; [unfold overrides; solve_elem|done]|].
  destruct (kw_override_succeeds kwargs "friction_drude" (conv_int E per_picosecond) u3)
    as (u4 & H4 & Hs4 & Ho4); [apply Hc; [unfold overrides; solve_elem|done]|].
  destruct (kw_override_succeeds kwargs "timestep" (conv_float E picoseconds) u4)
    as (u5 & H5 & Hs5 & Ho5); [apply Hc; [unfold overrides; solve_elem|done]|].
  destruct (kw_override_succeeds kwargs "small_threshold" (conv_plain_float E) u5)
    as (u6 & H6 & Hs6 & Ho6); [apply Hc; [unfold overrides; solve_elem|done]|].
  destruct (kw_override_succeeds kwargs "cutoff" (conv_float E nanometer) u6)
    as (u7 & H7 & Hs7 & Ho7); [apply Hc; [unfold overrides; solve_elem|done]|].
  destruct (kw_override_succeeds kwargs "nonbonded_method" conv_copy u7)
    as (u8 & H8 & Hs8 & Ho8); [apply Hc; [unfold overrides; solve_elem|done]|].
  eexists.
  rewrite (bind_Ok_l _ _ _ _ _ H1), (bind_Ok_l _ _ _ _ _ H2),
    (bind_Ok_l _ _ _ _ _ H3), (bind_Ok_l _ _ _ _ _ H4), (bind_Ok_l _ _ _ _ _ H5),
    (bind_Ok_l _ _ _ _ _ H6), (bind_Ok_l _ _ _ _ _ H7), (bind_Ok_l _ _ _ _ _ H8).
  rewrite (bind_Raise_l _ _ _ _ _ (kw_barostat_missing E kwargs u8 v Hv Hp)).
  split; [reflexivity|]. simpl. split; congruence.
Qed.

(** C8, as amended: with a truthy [npt_barostat] keyword the constructor
    never completes.  Missing a ['pressure'] key it raises [KeyError] while
    reading the keywords, before any engine call, provided the run
    parameters before it convert; and whenever it reaches the barostat
    branch it adds the barostat and raises [AttributeError] on the unset
    attribute [NPT_barostat_pressure]. *)
Theorem barostat_never_constructed
        E pdb_list residue_xml_list ff_xml_list kwargs v :
  kwargs !! "npt_barostat" = Some v -> py_truthy v = true ->
  (exists e w', MM_base E pdb_list residue_xml_list ff_xml_list kwargs = Raise e w') /\
  (kwargs !! "pressure" = None ->
   (forall key conv, (key, conv) ∈ run_parameters E ->
                     forall x, kwargs !! key = Some x -> exists a, conv x = inr a) ->
   exists w',
     MM_base E pdb_list residue_xml_list ff_xml_list kwargs
     = Raise (KeyError "pressure") w' /\
     system w' = system empty_world /\ out w' = []) /\
  (forall w6,
      init_through_custom E pdb_list residue_xml_list ff_xml_list kwargs empty_world
      = Ok tt w6 ->
      exists p t,
        self w6 !! "pressure" = Some (VQuantity p) /\
        self w6 !! "temperature" = Some (VQuantity t) /\
        MM_base E pdb_list residue_xml_list ff_xml_list kwargs
        = Raise (AttributeError "NPT_barostat_pressure")
            (mkWorld (self w6)
               (mkSystem (forces (system w6) ++ [new_MonteCarloBarostat p t 100]))
               (out w6))).
Proof.
  intros Hv Htrue.
  assert (forall w6,
      init_through_custom E pdb_list residue_xml_list ff_xml_list kwargs empty_world
      = Ok tt w6 ->
      exists p t,
        self w6 !! "pressure" = Some (VQuantity p) /\
        self w6 !! "temperature" = Some (VQuantity t) /\
        MM_base E pdb_list residue_xml_list ff_xml_list kwargs
        = Raise (AttributeError "NPT_barostat_pressure")
            (mkWorld (self w6)
               (mkSystem (forces (system w6) ++ [new_MonteCarloBarostat p t 100]))
               (out w6))) as Hreach.
  { intros w6 H6.
    destruct (through_custom_state _ _ _ _ _ _ H6) as (w3 & _ & Hld & _ & _).
    pose proof (loaded_barostat _ _ _ _ _ Hld) as Hb. rewrite Hv, Htrue in Hb.
    destruct Hb as (Hnpt & p0 & a & _ & Hconv & Hpa).
    destruct (conv_float_quantity _ _ _ _ Hconv) as [p ->].
    destruct (loaded_quantity _ _ _ _ _ "temperature" Hld) as [t Ht];
      [unfold quantity_keys; solve_elem|].
    exists p, t. split; [done|]. split; [done|].
    unfold MM_base. rewrite init_split_custom, (bind_Ok_l _ _ _ _ _ H6).
    apply bind_Raise_l.
    exact (init_barostat_on w6 _ p t Hnpt eq_refl Hpa Ht
             (loaded_system _ _ _ _ _ Hld) (loaded_no_NPT _ _ _ _ _ Hld)). }
  split; [|split; [|exact Hreach]].
  - destruct (init_through_custom E pdb_list residue_xml_list ff_xml_list kwargs
                empty_world) as [[] w6|e w6] eqn:H6.
    + destruct (Hreach w6 eq_refl) as (p & t & _ & _ & Hr). eauto.
    + exists e, w6. unfold MM_base. rewrite init_split_custom. by apply bind_Raise_l.
  - intros Hp Hconv.
    destruct (init_kwargs_missing_pressure E kwargs
                (world_of (init_defaults empty_world)) v Hv Hp Hconv)
      as (w' & Hk & Hs & Ho).
    exists w'. split; [|split; [exact Hs|exact Ho]].
    unfold MM_base, __init__.
    rewrite (bind_Ok_l _ _ empty_world tt (world_of (init_defaults empty_world)))
      by reflexivity.
    by apply bind_Raise_l.
Qed.

(** *** A constructor run that returns *)

Lemma through_load_intro E pdb_list residue_xml_list ff_xml_list kwargs w0 w1 w2 w3 :
  init_defaults w0 = Ok tt w1 ->
  init_kwargs E kwargs w1 = Ok tt w2 ->
  init_load E pdb_list residue_xml_list ff_xml_list w2 = Ok tt w3 ->
  init_through_load E pdb_list residue_xml_list ff_xml_list kwargs w0 = Ok tt w3.
Proof.
  intros H1 H2 H3. unfold init_through_load.
  rewrite (bind_Ok_l _ _ _ _ _ H1), (bind_Ok_l _ _ _ _ _ H2). exact H3.
Qed.

Lemma through_custom_intro
      E pdb_list residue_xml_list ff_xml_list kwargs w0 w3 w4 w5 w6 :
  init_through_load E pdb_list residue_xml_list ff_xml_list kwargs w0 = Ok tt w3 ->
  init_forces w3 = Ok tt w4 ->
  init_nonbonded_method w4 = Ok tt w5 ->
  init_custom_method w5 = Ok tt w6 ->
  init_through_custom E pdb_list residue_xml_list ff_xml_list kwargs w0 = Ok tt w6.
Proof.
  intros H3 H4 H5 H6.
  unfold init_through_custom, init_through_method, init_through_forces.
  rewrite bind_run, bind_run, bind_run, H3, H4, H5. exact H6.
Qed.

(** The state of [self] when the constructor has returned. *)
Lemma constructed_state E pdb_list residue_xml_list ff_xml_list kwargs w' :
  MM_base E pdb_list residue_xml_list ff_xml_list kwargs = Ok tt w' ->
  exists w3 w7 w8,
    init_through_load E pdb_list residue_xml_list ff_xml_list kwargs empty_world
    = Ok tt w3 /\
    init_integrator w7 = Ok tt w8 /\
    init_rigid_bodies E w8 = Ok tt w' /\
    loaded E pdb_list ff_xml_list kwargs w7 /\ forced (system w3) w7 /\
    loaded E pdb_list ff_xml_list kwargs w8 /\ forced (system w3) w8 /\
    loaded E pdb_list ff_xml_list kwargs w' /\ forced (system w3) w' /\
    forallb not_rigid_call (out w8) = true.
Proof.
  intros H. unfold MM_base in H.
  apply init_Ok_inv in H as [w1 w2 w3 w4 w5 w6 w7 w8 H1 H2 H3 H4 H5 H6 H7 H8 H9].
  pose proof (through_load_intro _ _ _ _ _ _ _ _ _ H1 H2 H3) as Hl.
  pose proof (through_custom_intro _ _ _ _ _ _ _ _ _ _ Hl H4 H5 H6) as Hc.
  destruct (through_custom_state _ _ _ _ _ _ Hc) as (w3' & Hl' & Hld & Hfd & evs & Ho & Hp).
  rewrite Hl in Hl'. injection Hl' as <-.
  assert (forall key : string, key ∈ @nil string -> key ∈ later_keys) as Hsub1
    by (intros ? Hin; by apply elem_of_nil in Hin).
  assert (forall key : string, key ∈ @nil string -> key = "integrator") as Hsub2
    by (intros ? Hin; by apply elem_of_nil in Hin).
  assert (forall key : string, key ∈ ["integrator"] -> key ∈ later_keys) as Hsub3
    by (intros ? Hin; apply list_elem_of_singleton in Hin as ->; left).
  assert (forall key : string, key ∈ ["integrator"] -> key = "integrator") as Hsub4
    by (intros ? Hin; by apply list_elem_of_singleton in Hin).
  pose proof (loaded_respects _ _ _ _ _ _ _ _ _ _ _ init_barostat_frame Hsub1 H7 Hld)
    as Hld7.
  pose proof (forced_respects _ _ _ _ _ _ _ _ init_barostat_frame Hsub2 H7 Hfd)
    as Hfd7.
  pose proof (loaded_respects _ _ _ _ _ _ _ _ _ _ _ init_integrator_frame Hsub3 H8 Hld7)
    as Hld8.
  pose proof (forced_respects _ _ _ _ _ _ _ _ init_integrator_frame Hsub4 H8 Hfd7)
    as Hfd8.
  pose proof (loaded_respects _ _ _ _ _ _ _ _ _ _ _ (init_rigid_bodies_frame E) Hsub1 H9 Hld8)
    as Hld9.
  pose proof (forced_respects _ _ _ _ _ _ _ _ (init_rigid_bodies_frame E) Hsub2 H9 Hfd8)
    as Hfd9.
  exists w3, w7, w8.
  split; [exact Hl|]. split; [exact H8|]. split; [exact H9|].
  split; [exact Hld7|]. split; [exact Hfd7|].
  split; [exact Hld8|]. split; [exact Hfd8|].
  split; [exact Hld9|]. split; [exact Hfd9|].
  destruct (frame_out _ _ _ _ _ (respects_Ok _ _ _ _ _ init_barostat_frame H7))
    as (e7 & He7 & Hp7).
  destruct (frame_out _ _ _ _ _ (respects_Ok _ _ _ _ _ init_integrator_frame H8))
    as (e8 & He8 & Hp8).
  rewrite He8, He7, Ho, !forallb_app, Hp, Hp7, Hp8. done.
Qed.

(** *** Lines 116-123 *)

Lemma init_integrator_run w b t f td fd dt :
  self w !! "polarization" = Some (VPy (PyBool b)) ->
  self w !! "temperature" = Some (VQuantity t) ->
  self w !! "friction" = Some (VQuantity f) ->
  self w !! "temperature_drude" = Some (VQuantity td) ->
  self w !! "friction_drude" = Some (VQuantity fd) ->
  self w !! "timestep" = Some (VQuantity dt) ->
  init_integrator w
  = Ok tt (mkWorld
             (<["integrator" :=
                  VIntegrator
                    (if b then DrudeLangevinIntegrator t f td fd dt (float_lit 2 100)
                     else LangevinIntegrator t f dt)]> (self w))
             (system w) (out w)).
Proof.
  intros Hp Ht Hf Htd Hfd Hdt.
  unfold init_integrator, integrator_setMaxDrudeDistance. mrun.
  destruct b; mrun; rewrite ?insert_insert_eq; reflexivity.
Qed.

(** Polarization and integrator on the constructor runs that return:
    [self.polarization] is [True] exactly when the created system contains a
    DrudeForce.  Then the integrator is a DrudeLangevinIntegrator built from
    (temperature, friction, temperature_drude, friction_drude, timestep) with
    maximum Drude distance 0.02; otherwise it is a LangevinIntegrator built
    from (temperature, friction, timestep).  A Drude system without a
    CustomBondForce is not among these runs. *)
Theorem polarization_selects_integrator
        E pdb_list residue_xml_list ff_xml_list kwargs w3 w' :
  init_through_load E pdb_list residue_xml_list ff_xml_list kwargs empty_world
  = Ok tt w3 ->
  MM_base E pdb_list residue_xml_list ff_xml_list kwargs = Ok tt w' ->
  exists t f td fd dt,
    self w' !! "temperature" = Some (VQuantity t) /\
    self w' !! "friction" = Some (VQuantity f) /\
    self w' !! "temperature_drude" = Some (VQuantity td) /\
    self w' !! "friction_drude" = Some (VQuantity fd) /\
    self w' !! "timestep" = Some (VQuantity dt) /\
    ((has_force DrudeForce (system w3) /\
      self w' !! "polarization" = Some (VPy (PyBool true)) /\
      self w' !! "integrator"
      = Some (VIntegrator
                (DrudeLangevinIntegrator t f td fd dt (float_lit 2 100))))
     \/
     (~ has_force DrudeForce (system w3) /\
      self w' !! "polarization" = Some (VPy (PyBool false)) /\
      self w' !! "integrator" = Some (VIntegrator (LangevinIntegrator t f dt)))).
Proof.
  intros H3 H.
  destruct (constructed_state _ _ _ _ _ _ H)
    as (w3' & w7 & w8 & H3' & H8 & H9 & Hld7 & Hfd7 & _ & _ & Hld & Hfd & _).
  rewrite H3 in H3'. injection H3' as <-.
  destruct (loaded_quantity _ _ _ _ _ "temperature" Hld7) as [t Ht];
    [unfold quantity_keys; solve_elem|].
  destruct (loaded_quantity _ _ _ _ _ "friction" Hld7) as [f Hf];
    [unfold quantity_keys; solve_elem|].
  destruct (loaded_quantity _ _ _ _ _ "temperature_drude" Hld7) as [td Htd];
    [unfold quantity_keys; solve_elem|].
  destruct (loaded_quantity _ _ _ _ _ "friction_drude" Hld7) as [fd Hfd'];
    [unfold quantity_keys; solve_elem|].
  destruct (loaded_quantity _ _ _ _ _ "timestep" Hld7) as [dt Hdt];
    [unfold quantity_keys; solve_elem|].
  pose proof (forced_polarization _ _ Hfd7) as Hp7.
  rewrite (init_integrator_run _ _ _ _ _ _ _ Hp7 Ht Hf Htd Hfd' Hdt) in H8.
  injection H8 as <-.
  pose proof (respects_Ok _ _ _ _ _ (init_rigid_bodies_frame E) H9) as (Hk & _).
  exists t, f, td, fd, dt.
  rewrite !Hk by apply not_elem_of_nil. simpl.
  rewrite lookup_insert_eq, !lookup_insert_ne by discriminate.
  repeat (split; [done|]).
  destruct (forces_of_type DrudeForce (system w3)) as [|d ds] eqn:Hd.
  - right. split; [by apply forces_of_type_nil|]. done.
  - left. split; [|done].
    destruct (forces_of_type_head _ _ _ _ Hd) as (fo & Hfo & Hty).
    exists fo. split; [by eapply list_elem_of_lookup_2|done].
Qed.

Lemma conv_int_inv E u v a :
  conv_int E u v = inr a ->
  exists z, py_int (parse_int E) v = inr z /\ a = VQuantity (mkQuantity (NInt z) u).
Proof.
  unfold conv_int. destruct (py_int (parse_int E) v); intros [= <-]. eauto.
Qed.

Lemma conv_float_inv E u v a :
  conv_float E u v = inr a ->
  exists f, py_float (parse_float E) v = inr f /\
            a = VQuantity (mkQuantity (NFloat f) u).
Proof.
  unfold conv_float. destruct (py_float (parse_float E) v); intros [= <-]. eauto.
Qed.

Lemma conv_plain_float_inv E v a :
  conv_plain_float E v = inr a ->
  exists f, py_float (parse_float E) v = inr f /\ a = VPy (PyFloat f).
Proof.
  unfold conv_plain_float. destruct (py_float (parse_float E) v); intros [= <-]. eauto.
Qed.

(** C4, as amended: after construction a run parameter given by keyword
    holds the converted keyword value with its unit: [int(v)] for
    temperature, temperature_drude, friction and friction_drude (the value
    itself for an integer, truncated toward zero for a float), and
    [float(v)] for timestep, cutoff and small_threshold (the value itself
    for a float). *)
Theorem run_parameters_converted
        E pdb_list residue_xml_list ff_xml_list kwargs w' :
  MM_base E pdb_list residue_xml_list ff_xml_list kwargs = Ok tt w' ->
  (forall key u v,
      (key, u) ∈ int_parameters -> kwargs !! key = Some v ->
      exists z, py_int (parse_int E) v = inr z /\
                self w' !! key = Some (VQuantity (mkQuantity (NInt z) u))) /\
  (forall key u v,
      (key, u) ∈ float_parameters -> kwargs !! key = Some v ->
      exists f, py_float (parse_float E) v = inr f /\
                self w' !! key = Some (VQuantity (mkQuantity (NFloat f) u))) /\
  (forall v,
      kwargs !! "small_threshold" = Some v ->
      exists f, py_float (parse_float E) v = inr f /\
                self w' !! "small_threshold" = Some (VPy (PyFloat f))) /\
  (forall z, py_int (parse_int E) (PyInt z) = inr z) /\
  (forall f, py_float (parse_float E) (PyFloat f) = inr f).
Proof.
  intros H.
  destruct (constructed_state _ _ _ _ _ _ H)
    as (w3 & w7 & w8 & _ & _ & _ & _ & _ & _ & _ & Hld & _ & _).
  assert (forall key conv v,
             (key, conv) ∈ overrides E -> kwargs !! key = Some v ->
             exists a, conv v = inr a /\ self w' !! key = Some a) as Hov.
  { intros key conv v Hin Hv.
    pose proof (loaded_override _ _ _ _ _ Hld key conv Hin) as Ho.
    by rewrite Hv in Ho. }
  split; [|split; [|split; [|split; [done|done]]]].
  - intros key u v Hin Hv.
    destruct (Hov key (conv_int E u) v) as (a & Hc & Ha); [|done|].
    { unfold int_parameters in Hin. rewrite !elem_of_cons, elem_of_nil in Hin.
      destruct Hin as [Heq|[Heq|[Heq|[Heq|[]]]]]; injection Heq as -> ->;
        unfold overrides; solve_elem. }
    apply conv_int_inv in Hc as (z & Hz & ->). eauto.
  - intros key u v Hin Hv.
    destruct (Hov key (conv_float E u) v) as (a & Hc & Ha); [|done|].
    { unfold float_parameters in Hin. rewrite !elem_of_cons, elem_of_nil in Hin.
      destruct Hin as [Heq|[Heq|[]]]; injection Heq as -> ->;
        unfold overrides; solve_elem. }
    apply conv_float_inv in Hc as (f & Hf & ->). eauto.
  - intros v Hv.
    destruct (Hov "small_threshold" (conv_plain_float E) v) as (a & Hc & Ha);
      [unfold overrides; solve_elem|done|].
    apply conv_plain_float_inv in Hc as (f & Hf & ->). eauto.
Qed.

(** *** Lines 126-144: the loops against their closed forms *)

Lemma names_in_template_elem rigid_body tatoms : forall acc r,
  names_in_template rigid_body tatoms acc = inr r ->
  forall n, n ∈ r <->
            n ∈ acc \/
            exists atom, atom ∈ tatoms /\ ta_name atom = n /\
                         py_str_in (ta_type atom) rigid_body = inr true.
Proof.
  induction tatoms as [|atom rest IH]; intros acc r Hr n; simpl in Hr.
  - injection Hr as <-. split; [by left|]. intros [H|(a & Ha & _)]; [done|].
    by apply elem_of_nil in Ha.
  - destruct (py_str_in (ta_type atom) rigid_body) as [e|b] eqn:Hin; [discriminate|].
    rewrite (IH _ _ Hr n). destruct b.
    + rewrite elem_of_app, list_elem_of_singleton. split.
      * intros [[H| ->]|(a & Ha & Hn & Hp)].
        -- by left.
        -- right. exists atom. split; [left|done].
        -- right. exists a. split; [by right|done].
      * intros [H|(a & Ha & Hn & Hp)]; [by left; left|].
        apply elem_of_cons in Ha as [->|Ha].
        -- left. by right.
        -- right. eauto.
    + split.
      * intros [H|(a & Ha & Hn & Hp)]; [by left|].
        right. exists a. split; [by right|done].
      * intros [H|(a & Ha & Hn & Hp)]; [by left|].
        apply elem_of_cons in Ha as [->|Ha]; [congruence|]. right. eauto.
Qed.

Lemma names_in_templates_elem templates rigid_body keys : forall acc r,
  names_in_templates templates rigid_body keys acc = inr r ->
  forall n, n ∈ r <->
            n ∈ acc \/
            exists key t atom,
              key ∈ keys /\ templates !! key = Some t /\ atom ∈ atoms t /\
              ta_name atom = n /\ py_str_in (ta_type atom) rigid_body = inr true.
Proof.
  induction keys as [|key rest IH]; intros acc r Hr n; simpl in Hr.
  - injection Hr as <-. split; [by left|]. intros [H|(k & t & a & Hk & _)]; [done|].
    by apply elem_of_nil in Hk.
  - destruct (templates !! key) as [t|] eqn:Ht; [|discriminate].
    destruct (names_in_template rigid_body (atoms t) acc) as [e|names] eqn:Hn;
      [discriminate|].
    rewrite (IH _ _ Hr n), (names_in_template_elem _ _ _ _ Hn n). split.
    + intros [[H|(a & Ha & Hna & Hp)]|(k & t' & a & Hk & Hrest)].
      * by left.
      * right. exists key, t, a. split; [left|done].
      * right. exists k, t', a. split; [by right|done].
    + intros [H|(k & t' & a & Hk & Ht' & Hrest)]; [by left; left|].
      apply elem_of_cons in Hk as [->|Hk].
      * left. right. rewrite Ht in Ht'. injection Ht' as <-. eauto.
      * right. eauto 10.
Qed.

Lemma elem_of_template_keys (templates : gmap string Template) key :
  key ∈ map fst (map_to_list templates) <-> is_Some (templates !! key).
Proof.
  rewrite list_elem_of_In, in_map_iff. split.
  - intros ([k t] & <- & Hin). apply list_elem_of_In, elem_of_map_to_list in Hin.
    simpl. eauto.
  - intros [t Ht]. exists (key, t). split; [done|].
    by apply list_elem_of_In, elem_of_map_to_list.
Qed.

Lemma collected_names ff rigid_body names :
  names_in_templates (_templates ff) rigid_body
                     (map fst (map_to_list (_templates ff))) [] = inr names ->
  forall n, n ∈ names <-> template_assigns ff rigid_body n.
Proof.
  intros H n. rewrite (names_in_templates_elem _ _ _ _ _ H n).
  unfold template_assigns. split.
  - intros [Hnil|(k & t & a & _ & Hrest)]; [by apply elem_of_nil in Hnil|]. eauto.
  - intros (k & t & a & Ht & Hrest). right. exists k, t, a.
    split; [|done]. apply elem_of_template_keys. eauto.
Qed.

Lemma body_of_filter names ratoms : forall body,
  body_of names ratoms body
  = body ++ map atom_index
                (List.filter (fun atom => name_in (atom_name atom) names) ratoms).
Proof.
  induction ratoms as [|atom rest IH]; intros body; simpl.
  - by rewrite app_nil_r.
  - rewrite IH. destruct (name_in (atom_name atom) names); simpl; [|done].
    by rewrite <- app_assoc.
Qed.

Lemma bodies_of_filter names ress : forall bodies,
  bodies_of names ress bodies
  = bodies ++
    List.filter (fun body => match body with [] => false | _ => true end)
                (map (residue_body names) ress).
Proof.
  induction ress as [|res rest IH]; intros bodies; simpl.
  - by rewrite app_nil_r.
  - rewrite IH, body_of_filter. simpl. fold (residue_body names res).
    destruct (residue_body names res) as [|i body]; simpl; [done|].
    by rewrite <- app_assoc.
Qed.

Lemma bodies_of_spec names top :
  bodies_of names (residues top) [] = bodies_spec names top.
Proof. by rewrite bodies_of_filter. Qed.

(** The groups depend on the collected names only through membership. *)
Lemma bodies_spec_ext names names' top :
  (forall n, n ∈ names <-> n ∈ names') ->
  bodies_spec names top = bodies_spec names' top.
Proof.
  intros Hext. unfold bodies_spec. f_equal. apply map_ext. intros res.
  unfold residue_body. f_equal. apply filter_ext. intros atom.
  unfold name_in. apply eq_true_iff_eq. rewrite !existsb_exists.
  split; intros (x & Hin & Heq); exists x; (split; [|done]);
    apply list_elem_of_In; apply list_elem_of_In in Hin; by apply Hext.
Qed.


Lemma init_rigid_bodies_skip E w :
  self w !! "rigid_body" = Some (VPy PyNone) ->
  init_rigid_bodies E w = Ok tt w.
Proof. intros H. unfold init_rigid_bodies. mrun. reflexivity. Qed.

(** The membership tests of line 132 and the outcome of the loops. *)
Lemma py_str_in_error x c e : py_str_in x c = inl e -> e = TypeError.
Proof. destruct c; simpl; congruence. Qed.

Lemma names_in_template_outcome rigid_body tatoms : forall acc,
  match names_in_template rigid_body tatoms acc with
  | inr _ => forall atom, atom ∈ tatoms ->
                          exists b, py_str_in (ta_type atom) rigid_body = inr b
  | inl e => exists atom, atom ∈ tatoms /\
                          py_str_in (ta_type atom) rigid_body = inl e
  end.
Proof.
  induction tatoms as [|atom rest IH]; intros acc; simpl.
  - intros atom Hin. by apply elem_of_nil in Hin.
  - destruct (py_str_in (ta_type atom) rigid_body) as [e|b] eqn:Hin.
    + exists atom. split; [left|done].
    + specialize (IH (if b then acc ++ [ta_name atom] else acc)).
      destruct (names_in_template rigid_body rest
                  (if b then acc ++ [ta_name atom] else acc)) as [e|r].
      * destruct IH as (a & Ha & He). exists a. split; [by right|done].
      * intros a Ha. apply elem_of_cons in Ha as [->|Ha]; [eauto|by apply IH].
Qed.

Lemma names_in_templates_outcome templates rigid_body keys : forall acc,
  (forall key, key ∈ keys -> is_Some (templates !! key)) ->
  match names_in_templates templates rigid_body keys acc with
  | inr _ =>
      forall key t atom,
        key ∈ keys -> templates !! key = Some t -> atom ∈ atoms t ->
        exists b, py_str_in (ta_type atom) rigid_body = inr b
  | inl e =>
      exists key t atom,
        key ∈ keys /\ templates !! key = Some t /\ atom ∈ atoms t /\
        py_str_in (ta_type atom) rigid_body = inl e
  end.
Proof.
  induction keys as [|key rest IH]; intros acc Hkeys; simpl.
  - intros key t atom Hin. by apply elem_of_nil in Hin.
  - destruct (Hkeys key) as [t Ht]; [left|]. rewrite Ht.
    pose proof (names_in_template_outcome rigid_body (atoms t) acc) as Hone.
    destruct (names_in_template rigid_body (atoms t) acc) as [e|names].
    + destruct Hone as (a & Ha & He). exists key, t, a. split; [left|done].
    + assert (forall k, k ∈ rest -> is_Some (templates !! k)) as Hrest
        by (intros k Hk; apply Hkeys; by right).
      specialize (IH names Hrest).
      destruct (names_in_templates templates rigid_body rest names) as [e|r].
      * destruct IH as (k & t' & a & Hk & Hrest').
        exists k, t', a. split; [by right|done].
      * intros k t' a Hk Ht' Ha. apply elem_of_cons in Hk as [->|Hk].
        -- rewrite Ht in Ht'. injection Ht' as <-. by apply Hone.
        -- by eapply IH.
Qed.

Lemma collected_outcome ff rigid_body :
  match names_in_templates (_templates ff) rigid_body
                           (map fst (map_to_list (_templates ff))) [] with
  | inr _ => tests_evaluate ff rigid_body
  | inl e => e = TypeError /\ ~ tests_evaluate ff rigid_body
  end.
Proof.
  assert (forall key, key ∈ map fst (map_to_list (_templates ff)) ->
                      is_Some (_templates ff !! key)) as Hkeys
    by (intros key Hin; by apply elem_of_template_keys).
  pose proof (names_in_templates_outcome (_templates ff) rigid_body
                (map fst (map_to_list (_templates ff))) [] Hkeys) as Hout.
  destruct (names_in_templates (_templates ff) rigid_body
              (map fst (map_to_list (_templates ff))) []) as [e|names].
  - destruct Hout as (key & t & atom & _ & Ht & Ha & He).
    split; [by eapply py_str_in_error|].
    intros Hev. destruct (Hev key t atom Ht Ha) as [b Hb]. congruence.
  - intros key t atom Ht Ha. apply (Hout key t atom); [|done..].
    apply elem_of_template_keys. eauto.
Qed.

Lemma tests_evaluate_iterable ff rigid_body :
  iterable rigid_body = true -> tests_evaluate ff rigid_body.
Proof.
  intros Hit key t atom _ _. destruct rigid_body; try discriminate; simpl; eauto.
Qed.

(** Lines 126-144 on an object that has its attributes. *)
Lemma init_rigid_bodies_outcome E w rigid_body ff top pos :
  self w !! "rigid_body" = Some (VPy rigid_body) -> rigid_body <> PyNone ->
  self w !! "forcefield" = Some (VForceField ff) ->
  self w !! "modeller" = Some (VModeller top pos) ->
  self w !! "system" = Some VSystem ->
  init_rigid_bodies E w
  = match names_in_templates (_templates ff) rigid_body
                             (map fst (map_to_list (_templates ff))) [] with
    | inr names =>
        let bodies := bodies_of names (residues top) [] in
        Ok tt (mkWorld (self w) (createRigidBodies E (system w) pos bodies)
                       (out w ++ [CreateRigidBodies bodies]))
    | inl e => Raise e w
    end.
Proof.
  intros Hrb Hne Hff Hm Hs. unfold init_rigid_bodies.
  destruct rigid_body; [done|..]; mrun;
    match goal with
    | |- context [names_in_templates ?t ?r ?k ?a] =>
        destruct (names_in_templates t r k a) as [e|names]
    end; mrun; reflexivity.
Qed.

(** The constructor up to line 123. *)
Lemma through_integrator_inv E pdb_list residue_xml_list ff_xml_list kwargs w0 w8 :
  init_through_integrator E pdb_list residue_xml_list ff_xml_list kwargs w0
  = Ok tt w8 ->
  exists w6 w7,
    init_through_custom E pdb_list residue_xml_list ff_xml_list kwargs w0
    = Ok tt w6 /\
    init_barostat w6 = Ok tt w7 /\ init_integrator w7 = Ok tt w8.
Proof.
  unfold init_through_integrator. intros H.
  apply bind_Ok_inv in H as ([] & w6 & H6 & H).
  apply bind_Ok_inv in H as ([] & w7 & H7 & H8). eauto.
Qed.

Lemma through_integrator_state E pdb_list residue_xml_list ff_xml_list kwargs w8 :
  init_through_integrator E pdb_list residue_xml_list ff_xml_list kwargs empty_world
  = Ok tt w8 ->
  loaded E pdb_list ff_xml_list kwargs w8 /\
  forallb not_rigid_call (out w8) = true.
Proof.
  intros H. apply through_integrator_inv in H as (w6 & w7 & H6 & H7 & H8).
  destruct (through_custom_state _ _ _ _ _ _ H6)
    as (w3 & _ & Hld & _ & evs & Ho & Hp).
  assert (forall key : string, key ∈ @nil string -> key ∈ later_keys) as Hsub1
    by (intros ? Hin; by apply elem_of_nil in Hin).
  assert (forall key : string, key ∈ ["integrator"] -> key ∈ later_keys) as Hsub3
    by (intros ? Hin; apply list_elem_of_singleton in Hin as ->; left).
  split.
  - eapply (loaded_respects _ _ _ _ _ _ _ _ _ _ _ init_integrator_frame Hsub3 H8).
    eapply (loaded_respects _ _ _ _ _ _ _ _ _ _ _ init_barostat_frame Hsub1 H7).
    exact Hld.
  - destruct (frame_out _ _ _ _ _ (respects_Ok _ _ _ _ _ init_barostat_frame H7))
      as (e7 & He7 & Hp7).
    destruct (frame_out _ _ _ _ _ (respects_Ok _ _ _ _ _ init_integrator_frame H8))
      as (e8 & He8 & Hp8).
    rewrite He8, He7, Ho, !forallb_app, Hp, Hp7, Hp8. done.
Qed.

Lemma init_after_integrator E pdb_list residue_xml_list ff_xml_list kwargs w8 :
  init_through_integrator E pdb_list residue_xml_list ff_xml_list kwargs empty_world
  = Ok tt w8 ->
  MM_base E pdb_list residue_xml_list ff_xml_list kwargs = init_rigid_bodies E w8.
Proof.
  intros H. apply through_integrator_inv in H as (w6 & w7 & H6 & H7 & H8).
  unfold MM_base. rewrite init_split_custom.
  rewrite (bind_Ok_l _ _ _ _ _ H6), (bind_Ok_l _ _ _ _ _ H7),
    (bind_Ok_l _ _ _ _ _ H8). reflexivity.
Qed.

(** C1, as amended: the [rigid_body] keyword is given with a value other
    than [None] and the constructor has reached line 126, having called
    [createRigidBodies] nowhere before.  When every test
    [atom.type in rigid_body] of line 132 evaluates, the constructor returns,
    and its one call out after line 123 is [createRigidBodies] on the system,
    the modeller positions and the non-empty per-residue lists, in residue
    order, of the indices of the atoms whose name some force-field template
    gives to an atom whose type is in [rigid_body].  When one of the tests
    raises, the constructor raises [TypeError] there and makes no call at
    all. *)
Theorem rigid_bodies_by_atom_type
        E pdb_list residue_xml_list ff_xml_list kwargs rigid_body w8 :
  kwargs !! "rigid_body" = Some rigid_body -> rigid_body <> PyNone ->
  init_through_integrator E pdb_list residue_xml_list ff_xml_list kwargs empty_world
  = Ok tt w8 ->
  exists ff top pos,
    self w8 !! "forcefield" = Some (VForceField ff) /\
    self w8 !! "modeller" = Some (VModeller top pos) /\
    forallb not_rigid_call (out w8) = true /\
    (tests_evaluate ff rigid_body ->
     exists names,
       (forall n, n ∈ names <-> template_assigns ff rigid_body n) /\
       MM_base E pdb_list residue_xml_list ff_xml_list kwargs
       = Ok tt (mkWorld (self w8)
                  (createRigidBodies E (system w8) pos (bodies_spec names top))
                  (out w8 ++ [CreateRigidBodies (bodies_spec names top)]))) /\
    (~ tests_evaluate ff rigid_body ->
     MM_base E pdb_list residue_xml_list ff_xml_list kwargs = Raise TypeError w8).
Proof.
  intros Hkw Hne H8.
  destruct (through_integrator_state _ _ _ _ _ _ H8) as (Hld8 & Hpre).
  rewrite (init_after_integrator _ _ _ _ _ _ H8).
  pose proof (loaded_rigid_body _ _ _ _ _ Hld8) as Hrb. rewrite Hkw in Hrb.
  simpl in Hrb.
  destruct (loaded_objects _ _ _ _ _ Hld8) as (pdb0 & rest & _ & Hff & Hm).
  eexists _, _, _. split; [exact Hff|]. split; [exact Hm|]. split; [exact Hpre|].
  rewrite (init_rigid_bodies_outcome _ _ _ _ _ _ Hrb Hne Hff Hm
             (loaded_system _ _ _ _ _ Hld8)).
  pose proof (collected_outcome (load_ForceField E ff_xml_list) rigid_body) as Hout.
  pose proof (collected_names (load_ForceField E ff_xml_list) rigid_body) as Hnames.
  destruct (names_in_templates (_templates (load_ForceField E ff_xml_list)) rigid_body
              (map fst (map_to_list (_templates (load_ForceField E ff_xml_list)))) [])
    as [e|names].
  - destruct Hout as [-> Hnot]. split; [intros Hev; contradiction|done].
  - split; [|intros Hnot; contradiction].
    intros _. exists names. split; [by apply Hnames|].
    simpl. by rewrite bodies_of_spec.
Qed.

(* ===================================================================== *)
(** ** The theorems at concrete inputs *)
(* ===================================================================== *)

Lemma rigid_bodies_by_atom_type_witness :
  kw_rigid !! "rigid_body" = Some (PyList [PyStr "tip3p-H"]) /\
  PyList [PyStr "tip3p-H"] <> PyNone /\
  tests_evaluate water_forcefield (PyList [PyStr "tip3p-H"]) /\
  exists w8 names,
    init_through_integrator E_plain demo_pdb demo_residues demo_ff kw_rigid
                            empty_world = Ok tt w8 /\
    forallb not_rigid_call (out w8) = true /\
    (forall n, n ∈ names
               <-> template_assigns water_forcefield (PyList [PyStr "tip3p-H"]) n) /\
    MM_base E_plain demo_pdb demo_residues demo_ff kw_rigid
    = Ok tt (mkWorld (self w8)
               (createRigidBodies E_plain (system w8) water_positions
                                  (bodies_spec names water_topology))
               (out w8 ++ [CreateRigidBodies (bodies_spec names water_topology)])).
Proof.
  assert (tests_evaluate water_forcefield (PyList [PyStr "tip3p-H"])) as Hev
    by (by apply tests_evaluate_iterable).
  split; [reflexivity|]. split; [discriminate|]. split; [exact Hev|].
  destruct (rigid_bodies_by_atom_type E_plain demo_pdb demo_residues demo_ff kw_rigid
              (PyList [PyStr "tip3p-H"])
              (world_of (init_through_integrator E_plain demo_pdb demo_residues
                           demo_ff kw_rigid empty_world)))
    as (ff & top & pos & Hff & Hm & Hpre & Hcall & _);
    [reflexivity | discriminate | vm_compute; reflexivity |].
  vm_compute in Hff. injection Hff as <-.
  vm_compute in Hm. injection Hm as <- <-.
  destruct (Hcall Hev) as (names & Hnames & Hrun).
  eexists _, names. split; [vm_compute; reflexivity|].
  split; [exact Hpre|]. split; [exact Hnames|]. exact Hrun.
Defined.

(** The run of the witness above, evaluated: the hydrogens of the two
    waters form the bodies, the sodium ion forms none. *)
Example rigid_bodies_water_box :
  out (world_of (MM_base E_plain demo_pdb demo_residues demo_ff kw_rigid))
  = [LoadBondDefinitions "residues.xml";
     Print "setting NonbondedForce method to PME";
     CreateRigidBodies [[1; 2]; [5; 6]]%nat].
Proof. vm_compute. reflexivity. Qed.

(** C1, counterexample: the keyword is supplied and [createRigidBodies]
    is never called.  With the value 5 the test of line 132 raises
    [TypeError] on the first template atom; with the value [None] the guard
    of line 126 skips the block and the constructor returns. *)
Lemma rigid_body_counterexample :
  (kw_rigid_5 !! "rigid_body" = Some (PyInt 5) /\
   exists w',
     MM_base E_plain demo_pdb demo_residues demo_ff kw_rigid_5 = Raise TypeError w' /\
     forall bodies, CreateRigidBodies bodies ∉ out w') /\
  (kw_rigid_None !! "rigid_body" = Some PyNone /\
   exists w',
     MM_base E_plain demo_pdb demo_residues demo_ff kw_rigid_None = Ok tt w' /\
     forall bodies, CreateRigidBodies bodies ∉ out w').
Proof.
  split; (split; [reflexivity|]).
  - exists (world_of (MM_base E_plain demo_pdb demo_residues demo_ff kw_rigid_5)).
    split; [vm_compute; reflexivity|].
    intros bodies Hin.
    assert (out (world_of (MM_base E_plain demo_pdb demo_residues demo_ff kw_rigid_5))
            = [LoadBondDefinitions "residues.xml";
               Print "setting NonbondedForce method to PME"]) as Hout
      by (vm_compute; reflexivity).
    rewrite Hout in Hin.
    rewrite !elem_of_cons, elem_of_nil in Hin.
    destruct Hin as [Heq|[Heq|[]]]; discriminate Heq.
  - exists (world_of (MM_base E_plain demo_pdb demo_residues demo_ff kw_rigid_None)).
    split; [vm_compute; reflexivity|].
    intros bodies Hin.
    assert (out (world_of (MM_base E_plain demo_pdb demo_residues demo_ff kw_rigid_None))
            = [LoadBondDefinitions "residues.xml";
               Print "setting NonbondedForce method to PME"]) as Hout
      by (vm_compute; reflexivity).
    rewrite Hout in Hin.
    rewrite !elem_of_cons, elem_of_nil in Hin.
    destruct Hin as [Heq|[Heq|[]]]; discriminate Heq.
Qed.


Lemma set_platform_dispatch_witness :
  self constructed_world !! "modeller"
  = Some (VModeller water_topology water_positions) /\
  exists w',
    set_platform (PyStr "CUDA") constructed_world = Ok tt w' /\
    self w' !! "platform" = Some (VPlatform "CUDA") /\
    exists it,
      self w' !! "simmd"
      = Some (VSimulation
                (mkSimulation water_topology it "CUDA"
                              (Some [("Precision", "mixed")]) []
                              (mkContext water_positions 0))).
Proof.
  split; [vm_compute; reflexivity|].
  destruct (proj2 (set_platform_dispatch (PyStr "CUDA")) constructed_world
              water_topology water_positions
              (LangevinIntegrator
                 (mkQuantity (NInt 300) kelvin)
                 (mkQuantity (NInt 1) per_picosecond)
                 (mkQuantity (NFloat (float_lit 1 1000)) picoseconds))
              "CUDA")
    as (w' & Hrun & Hpf & Hsim & _);
    [vm_compute; reflexivity | vm_compute; reflexivity | vm_compute; reflexivity
     | unfold platform_names; solve_elem | reflexivity |].
  exists w'. split; [exact Hrun|]. split; [exact Hpf|].
  eexists. exact Hsim.
Defined.

(** C4, counterexample: [temperature=298.15] is stored as 298 kelvin. *)
Lemma temperature_truncated_counterexample :
  kw_temperature !! "temperature" = Some (PyFloat f298_15) /\
  exists w',
    MM_base E_plain demo_pdb demo_residues demo_ff kw_temperature = Ok tt w' /\
    self w' !! "temperature" = Some (VQuantity (mkQuantity (NInt 298) kelvin)) /\
    SFcompare (float_of_Z 298) f298_15 = Some Lt.
Proof.
  split; [reflexivity|].
  exists (world_of (MM_base E_plain demo_pdb demo_residues demo_ff kw_temperature)).
  split; [vm_compute; reflexivity|].
  split; vm_compute; reflexivity.
Qed.

Lemma run_parameters_converted_witness :
  exists w',
    MM_base E_plain demo_pdb demo_residues demo_ff kw_temperature = Ok tt w' /\
    exists z,
      py_int (parse_int E_plain) (PyFloat f298_15) = inr z /\
      self w' !! "temperature" = Some (VQuantity (mkQuantity (NInt z) kelvin)).
Proof.
  exists (world_of (MM_base E_plain demo_pdb demo_residues demo_ff kw_temperature)).
  split; [vm_compute; reflexivity|].
  apply (proj1 (run_parameters_converted E_plain demo_pdb demo_residues demo_ff
                  kw_temperature _ ltac:(vm_compute; reflexivity))).
  - unfold int_parameters. solve_elem.
  - reflexivity.
Defined.

Lemma polarization_selects_integrator_witness :
  exists w3 w',
    init_through_load E_drude demo_pdb demo_residues demo_ff ∅ empty_world
    = Ok tt w3 /\
    MM_base E_drude demo_pdb demo_residues demo_ff ∅ = Ok tt w' /\
    has_force DrudeForce (system w3) /\
    self w' !! "polarization" = Some (VPy (PyBool true)) /\
    exists t f td fd dt,
      self w' !! "integrator"
      = Some (VIntegrator
                (DrudeLangevinIntegrator t f td fd dt (float_lit 2 100))).
Proof.
  exists (world_of (init_through_load E_drude demo_pdb demo_residues demo_ff ∅
                      empty_world)),
         (world_of (MM_base E_drude demo_pdb demo_residues demo_ff ∅)).
  split; [vm_compute; reflexivity|]. split; [vm_compute; reflexivity|].
  destruct (polarization_selects_integrator E_drude demo_pdb demo_residues demo_ff ∅
              (world_of (init_through_load E_drude demo_pdb demo_residues demo_ff ∅
                           empty_world))
              (world_of (MM_base E_drude demo_pdb demo_residues demo_ff ∅)))
    as (t & f & td & fd & dt & _ & _ & _ & _ & _ & [(Hd & Hp & Hi)|(_ & Hp & _)]);
    [vm_compute; reflexivity | vm_compute; reflexivity | |].
  - split; [exact Hd|]. split; [exact Hp|]. exists t, f, td, fd, dt. exact Hi.
  - vm_compute in Hp. discriminate Hp.
Defined.

(** C5, the failing input: a created system with a DrudeForce and no
    CustomBondForce.  Line 88 sets [self.polarization] to [True], the
    unguarded [[0]] of line 91 raises [IndexError], and no integrator is
    constructed. *)
Theorem drude_without_custom_bond_no_integrator :
  exists w3 w',
    init_through_load E_drude_bare demo_pdb demo_residues demo_ff ∅ empty_world
    = Ok tt w3 /\
    map ftype (forces (system w3)) = [NonbondedForce; DrudeForce] /\
    MM_base E_drude_bare demo_pdb demo_residues demo_ff ∅ = Raise IndexError w' /\
    self w' !! "polarization" = Some (VPy (PyBool true)) /\
    self w' !! "integrator" = None.
Proof.
  eexists _, _. split; [vm_compute; reflexivity|]. split; [vm_compute; reflexivity|].
  split; [vm_compute; reflexivity|]. split; vm_compute; reflexivity.
Qed.

Lemma set_trajectory_output_reporters_witness :
  exists sim w' sim',
    self simulation_world !! "simmd" = Some (VSimulation sim) /\
    set_trajectory_output (PyStr "md.dcd") (PyInt 1000) (PyBool false)
                          (PyStr "md.chk") (PyInt 10000) simulation_world
    = Ok tt w' /\
    self w' !! "simmd" = Some (VSimulation sim') /\
    reporters sim'
    = [DCDReporter (PyStr "md.dcd") (PyInt 1000) (PyBool false);
       CheckpointReporter (PyStr "md.chk") (PyInt 10000)] /\
    context sim' = context sim.
Proof.
  eexists _, _, _. split; [vm_compute; reflexivity|].
  split.
  { apply (set_trajectory_output_reporters (PyStr "md.dcd") (PyInt 1000) (PyBool false)
             (PyStr "md.chk") (PyInt 10000) simulation_world).
    vm_compute. reflexivity. }
  split; [simpl; rewrite lookup_insert_eq; reflexivity|].
  split; reflexivity.
Defined.

Lemma generate_exclusions_flags_witness :
  exists sim cnf,
    self simulation_world !! "simmd" = Some (VSimulation sim) /\
    self simulation_world !! "customNonbondedForce" = Some cnf /\
    (exists w',
        generate_exclusions E_plain (PyStr "HOH") (PyBool true) (PyBool true)
                            simulation_world = Raise SystemExit w') /\
    (exists w' sim',
        generate_exclusions E_plain (PyStr "HOH") (PyBool false) (PyBool true)
                            simulation_world = Ok tt w' /\
        out w' = out simulation_world ++ [SAPT_FF_exclusions] /\
        self w' !! "simmd" = Some (VSimulation sim') /\
        ctx_positions (context sim') = water_positions /\
        reinitialized (context sim') = 1%nat /\
        reinitialized (context sim) = 0%nat).
Proof.
  eexists _, _. split; [vm_compute; reflexivity|]. split; [vm_compute; reflexivity|].
  split.
  - destruct (proj1 (generate_exclusions_flags E_plain (PyStr "HOH") (PyBool true)
                       (PyBool true) simulation_world _ _
                       ltac:(vm_compute; reflexivity) ltac:(vm_compute; reflexivity))
                    eq_refl eq_refl) as (w' & Hrun & _).
    exists w'. exact Hrun.
  - destruct (proj2 (generate_exclusions_flags E_plain (PyStr "HOH") (PyBool false)
                       (PyBool true) simulation_world _ _
                       ltac:(vm_compute; reflexivity) ltac:(vm_compute; reflexivity))
                    eq_refl) as (w' & Hrun & Hout & _ & Hsim).
    eexists w', _. split; [exact Hrun|]. split; [rewrite Hout; reflexivity|].
    split; [exact Hsim|]. split; [vm_compute; reflexivity|].
    split; vm_compute; reflexivity.
Defined.

(** C8, counterexample: barostat on, pressure given, nonbonded method
    'Ewald': the constructor ends with [SystemExit] on line 104 and raises
    no [AttributeError]. *)
Lemma barostat_exit_counterexample :
  kw_barostat_Ewald !! "npt_barostat" = Some (PyBool true) /\
  is_Some (kw_barostat_Ewald !! "pressure") /\
  (exists w',
      MM_base E_plain demo_pdb demo_residues demo_ff kw_barostat_Ewald
      = Raise SystemExit w') /\
  (forall name w',
      MM_base E_plain demo_pdb demo_residues demo_ff kw_barostat_Ewald
      <> Raise (AttributeError name) w').
Proof.
  assert (exists w',
      MM_base E_plain demo_pdb demo_residues demo_ff kw_barostat_Ewald
      = Raise SystemExit w') as [w0 Hexit].
  { exists (world_of (MM_base E_plain demo_pdb demo_residues demo_ff kw_barostat_Ewald)).
    vm_compute. reflexivity. }
  split; [reflexivity|]. split; [by eexists|].
  split; [by exists w0|].
  intros name w'. rewrite Hexit. discriminate.
Qed.

Lemma barostat_never_constructed_witness :
  kw_barostat_on !! "npt_barostat" = Some (PyBool true) /\
  py_truthy (PyBool true) = true /\
  exists w6 p t,
    init_through_custom E_plain demo_pdb demo_residues demo_ff kw_barostat_on
                        empty_world = Ok tt w6 /\
    MM_base E_plain demo_pdb demo_residues demo_ff kw_barostat_on
    = Raise (AttributeError "NPT_barostat_pressure")
        (mkWorld (self w6)
           (mkSystem (forces (system w6) ++ [new_MonteCarloBarostat p t 100]))
           (out w6)).
Proof.
  split; [reflexivity|]. split; [reflexivity|].
  exists (world_of (init_through_custom E_plain demo_pdb demo_residues demo_ff
                      kw_barostat_on empty_world)).
  destruct (proj2 (proj2 (barostat_never_constructed E_plain demo_pdb demo_residues
                            demo_ff kw_barostat_on (PyBool true) eq_refl eq_refl))
                  (world_of (init_through_custom E_plain demo_pdb demo_residues demo_ff
                               kw_barostat_on empty_world)))
    as (p & t & _ & _ & Hrun); [vm_compute; reflexivity|].
  exists p, t. split; [vm_compute; reflexivity|]. exact Hrun.
Defined.

Lemma custom_nonbonded_force_raises_witness :
  exists w3,
    init_through_load E_custom demo_pdb demo_residues demo_ff ∅ empty_world
    = Ok tt w3 /\
    has_force CustomNonbondedForce (system w3) /\
    exists e w', MM_base E_custom demo_pdb demo_residues demo_ff ∅ = Raise e w'.
Proof.
  exists (world_of (init_through_load E_custom demo_pdb demo_residues demo_ff ∅
                      empty_world)).
  assert (has_force CustomNonbondedForce
            (system (world_of (init_through_load E_custom demo_pdb demo_residues
                                 demo_ff ∅ empty_world)))) as Hhas.
  { exists (plain_force CustomNonbondedForce). split; [|reflexivity].
    apply list_elem_of_In. vm_compute. tauto. }
  split; [vm_compute; reflexivity|]. split; [exact Hhas|].
  apply (custom_nonbonded_force_raises E_custom demo_pdb demo_residues demo_ff ∅
           (world_of (init_through_load E_custom demo_pdb demo_residues demo_ff ∅
                        empty_world)));
    [vm_compute; reflexivity | exact Hhas].
Defined.

(** The run of the witness above, evaluated. *)
Example custom_nonbonded_force_TypeError :
  exists w', MM_base E_custom demo_pdb demo_residues demo_ff ∅ = Raise TypeError w'.
Proof. eexists. vm_compute. reflexivity. Qed.

Lemma set_periodic_residue_groups_witness :
  self constructed_world !! "system" = Some VSystem /\
  exists w',
    set_periodic_residue (PyBool true) constructed_world = Ok tt w' /\
    map ftype (forces (system w'))
    = [HarmonicBondForce; HarmonicAngleForce; NonbondedForce] /\
    map forceGroup (forces (system w')) = [0; 1; 2]%nat /\
    map usePeriodic
        (List.filter (fun f => is_bonded_type (ftype f)) (forces (system w')))
    = [true; true].
Proof.
  split; [vm_compute; reflexivity|].
  destruct (set_periodic_residue_groups (PyBool true) constructed_world)
    as ([_ Hret] & _); [vm_compute; reflexivity|].
  destruct Hret as [w' Hrun]; [vm_compute; lia|].
  exists w'. split; [exact Hrun|].
  assert (w' = world_of (set_periodic_residue (PyBool true) constructed_world)) as ->
    by (by rewrite Hrun).
  split; [vm_compute; reflexivity|]. split; vm_compute; reflexivity.
Defined.

(** A system with 34 forces: the call raises at the force group 32, with
    the first 32 forces done and the last two as they were. *)
Example set_periodic_residue_34_forces :
  exists w',
    set_periodic_residue (PyBool true) crowded_world = Raise OpenMMException w' /\
    map forceGroup (forces (system w')) = seq 0 32 ++ [0; 0]%nat /\
    map usePeriodic (forces (system w')) = repeat true 32 ++ [false; false].
Proof. eexists. split; [vm_compute; reflexivity|]. split; vm_compute; reflexivity. Qed.

(* ===================================================================== *)
(** ** Further properties of the code *)
(* ===================================================================== *)

Lemma respects_weaken S S' fixed fixed' P P' {A} (m : M A) :
  respects (frame S fixed P) m ->
  (forall key, key ∈ S -> key ∈ S') ->
  (fixed' = true -> fixed = true) ->
  (forall ev, P ev = true -> P' ev = true) ->
  respects (frame S' fixed' P') m.
Proof.
  intros Hm Hsub Hfix HP w. destruct (Hm w) as (Ha & Hs & evs & Ho & Hp).
  split; [|split].
  - intros key Hk. apply Ha. intros Hin. by apply Hk, Hsub.
  - intros Hf. by apply Hs, Hfix.
  - exists evs. split; [done|]. rewrite forallb_forall in *.
    intros ev Hin. by apply HP, Hp.
Qed.

Lemma frame_silent S fixed w w' :
  frame S fixed no_event w w' -> out w' = out w.
Proof.
  intros (_ & _ & evs & Ho & Hp). destruct evs as [|ev evs]; [|discriminate].
  by rewrite Ho, app_nil_r.
Qed.

Lemma init_defaults_silent :
  respects (frame default_keys true no_event) init_defaults.
Proof. unfold init_defaults, default_keys. solve_frame. Qed.

Lemma init_kwargs_silent E kwargs :
  respects (frame ("pressure" :: default_keys) true no_event) (init_kwargs E kwargs).
Proof.
  unfold init_kwargs, kw_barostat, default_keys.
  repeat first [apply kw_override_frame; solve_elem | frame_step].
Qed.

Ltac solve_sub_init :=
  let key := fresh "key" in
  let Hin := fresh "Hin" in
  intros key Hin; unfold init_keys, default_keys, force_keys in *;
  rewrite list_elem_of_In in *; simpl in *; intuition (subst; auto 30).

Lemma init_footprint E pdb_list residue_xml_list ff_xml_list kwargs :
  respects (frame init_keys false any_event)
           (__init__ E pdb_list residue_xml_list ff_xml_list kwargs).
Proof.
  unfold __init__.
  apply respects_bind; [apply _| |intros ?].
  { eapply respects_weaken; [apply init_defaults_frame|solve_sub_init|done|done]. }
  apply respects_bind; [apply _| |intros ?].
  { eapply respects_weaken; [apply (init_kwargs_frame E)|solve_sub_init|done|done]. }
  apply respects_bind; [apply _| |intros ?].
  { eapply respects_weaken; [apply (init_load_frame E)|solve_sub_init|done|done]. }
  apply respects_bind; [apply _| |intros ?].
  { eapply respects_weaken; [apply init_forces_frame|solve_sub_init|done|done]. }
  apply respects_bind; [apply _| |intros ?].
  { eapply respects_weaken; [apply init_nonbonded_method_frame|solve_sub_init|done|done]. }
  apply respects_bind; [apply _| |intros ?].
  { eapply respects_weaken; [apply init_custom_method_frame|solve_sub_init|done|done]. }
  apply respects_bind; [apply _| |intros ?].
  { eapply respects_weaken; [apply init_barostat_frame|solve_sub_init|done|done]. }
  apply respects_bind; [apply _| |intros ?].
  { eapply respects_weaken; [apply init_integrator_frame|solve_sub_init|done|done]. }
  eapply respects_weaken; [apply (init_rigid_bodies_frame E)|solve_sub_init|done|done].
Qed.

(** The world after lines 27-59 of a run from a fresh object. *)
Lemma kwargs_read_state E kwargs w2 :
  (init_defaults;; init_kwargs E kwargs) empty_world = Ok tt w2 ->
  system w2 = mkSystem [] /\ out w2 = [] /\
  exists cutoff, self w2 !! "cutoff" = Some cutoff.
Proof.
  intros H. apply bind_Ok_inv in H as ([] & w1 & Hd & Hk).
  pose proof (respects_Ok _ _ _ _ _ init_defaults_silent Hd) as Fd.
  pose proof (respects_Ok _ _ _ _ _ (init_kwargs_silent E kwargs) Hk) as Fk.
  split; [|split].
  - destruct Fd as (_ & Hs1 & _), Fk as (_ & Hs2 & _).
    by rewrite Hs2, Hs1.
  - by rewrite (frame_silent _ _ _ _ Fk), (frame_silent _ _ _ _ Fd).
  - pose proof (init_kwargs_override E kwargs w1 w2 "cutoff" (conv_float E nanometer)
                  ltac:(unfold overrides; solve_elem) Hk) as Ho.
    destruct (kwargs !! "cutoff").
    + destruct Ho as (a & _ & Ha). eauto.
    + rewrite Ho.
      assert (w1 = world_of (init_defaults empty_world)) as -> by (by rewrite Hd).
      eexists. reflexivity.
Qed.

(** X1: with an empty [pdb_list] the constructor never returns.  Once the
    keyword values have converted (lines 27-59) it loads the bond
    definitions of every residue file and then raises [IndexError] at
    [pdb_list[0]] (line 68), before any system is created. *)
Theorem empty_pdb_list_raises E residue_xml_list ff_xml_list kwargs :
  (forall w', MM_base E [] residue_xml_list ff_xml_list kwargs <> Ok tt w') /\
  (forall w2,
      (init_defaults;; init_kwargs E kwargs) empty_world = Ok tt w2 ->
      MM_base E [] residue_xml_list ff_xml_list kwargs
      = Raise IndexError
          (mkWorld (self w2) (mkSystem [])
                   (map LoadBondDefinitions residue_xml_list))).
Proof.
  assert (forall w2,
      (init_defaults;; init_kwargs E kwargs) empty_world = Ok tt w2 ->
      MM_base E [] residue_xml_list ff_xml_list kwargs
      = Raise IndexError
          (mkWorld (self w2) (mkSystem [])
                   (map LoadBondDefinitions residue_xml_list))) as Hreach.
  { intros w2 H2.
    destruct (kwargs_read_state _ _ _ H2) as (Hs & Ho & _).
    apply bind_Ok_inv in H2 as ([] & w1 & Hd & Hk).
    unfold MM_base, __init__.
    rewrite (bind_Ok_l _ _ _ _ _ Hd), (bind_Ok_l _ _ _ _ _ Hk).
    apply bind_Raise_l. unfold init_load.
    rewrite bind_run, for_each_emit. rewrite Hs, Ho. reflexivity. }
  split; [|exact Hreach].
  intros w' H. unfold MM_base in H.
  apply init_Ok_inv in H as [w1 w2 w3 w4 w5 w6 w7 w8 H1 H2 H3 H4 H5 H6 H7 H8 H9].
  apply init_load_Ok in H3 as (pdb0 & rest & _ & Heq & _). discriminate Heq.
Qed.

Lemma init_after_load E pdb_list residue_xml_list ff_xml_list kwargs w3 :
  init_through_load E pdb_list residue_xml_list ff_xml_list kwargs empty_world
  = Ok tt w3 ->
  MM_base E pdb_list residue_xml_list ff_xml_list kwargs
  = (init_forces;; init_nonbonded_method;; init_custom_method;;
     init_barostat;; init_integrator;; init_rigid_bodies E) w3.
Proof.
  intros H3. unfold MM_base. rewrite init_split_load.
  by rewrite (bind_Ok_l _ _ _ _ _ H3).
Qed.

(** X2: when the created system has no NonbondedForce the constructor
    raises [IndexError] at line 80 (the [[0]] of an empty list), leaving the
    object as it stood after line 78. *)
Theorem nonbonded_force_required
        E pdb_list residue_xml_list ff_xml_list kwargs w3 :
  init_through_load E pdb_list residue_xml_list ff_xml_list kwargs empty_world
  = Ok tt w3 ->
  ~ has_force NonbondedForce (system w3) ->
  MM_base E pdb_list residue_xml_list ff_xml_list kwargs = Raise IndexError w3.
Proof.
  intros H3 Hno. rewrite (init_after_load _ _ _ _ _ _ H3).
  apply bind_Raise_l.
  pose proof (loaded_system _ _ _ _ _ (through_load_loaded _ _ _ _ _ _ H3)) as Hs.
  apply forces_of_type_nil in Hno.
  unfold init_forces. mrun. rewrite Hno. simpl. by destruct w3.
Qed.

(** X3: when the created system has a DrudeForce but no CustomBondForce,
    the constructor raises [IndexError] at line 91, after it has set
    [self.polarization] to [True]; system and output are as they were after
    line 78. *)
Theorem drude_requires_custom_bond
        E pdb_list residue_xml_list ff_xml_list kwargs w3 :
  init_through_load E pdb_list residue_xml_list ff_xml_list kwargs empty_world
  = Ok tt w3 ->
  has_force NonbondedForce (system w3) ->
  has_force DrudeForce (system w3) ->
  ~ has_force CustomBondForce (system w3) ->
  exists w',
    MM_base E pdb_list residue_xml_list ff_xml_list kwargs = Raise IndexError w' /\
    self w' !! "polarization" = Some (VPy (PyBool true)) /\
    system w' = system w3 /\ out w' = out w3.
Proof.
  intros H3 Hnb Hd Hcb. rewrite (init_after_load _ _ _ _ _ _ H3).
  pose proof (loaded_system _ _ _ _ _ (through_load_loaded _ _ _ _ _ _ H3)) as Hs.
  apply forces_of_type_nil in Hcb.
  destruct (forces_of_type NonbondedForce (system w3)) as [|nb nbs] eqn:Enb.
  { apply forces_of_type_nil in Enb. done. }
  destruct (forces_of_type DrudeForce (system w3)) as [|d ds] eqn:Ed.
  { apply forces_of_type_nil in Ed. done. }
  destruct (forces_of_type CustomNonbondedForce (system w3)) as [|c cs] eqn:Ec;
    (eexists; split;
     [apply bind_Raise_l; unfold init_forces; mrun; rewrite Enb; mrun;
      rewrite Ec; mrun; rewrite Ed; mrun; rewrite Hcb; mrun; reflexivity
     |msimpl; done]).
Qed.

Lemma init_forces_returns w :
  self w !! "system" = Some VSystem ->
  has_force NonbondedForce (system w) ->
  (has_force DrudeForce (system w) -> has_force CustomBondForce (system w)) ->
  exists w', init_forces w = Ok tt w'.
Proof.
  intros Hs Hnb Hcb.
  destruct (forces_of_type NonbondedForce (system w)) as [|nb nbs] eqn:Enb.
  { apply forces_of_type_nil in Enb. done. }
  destruct (forces_of_type CustomNonbondedForce (system w)) as [|c cs] eqn:Ec;
    (destruct (forces_of_type DrudeForce (system w)) as [|d ds] eqn:Ed;
     [eexists; unfold init_forces; mrun; rewrite Enb; mrun; rewrite Ec; mrun;
      rewrite Ed; mrun; reflexivity|]);
    (destruct (forces_of_type CustomBondForce (system w)) as [|b bs] eqn:Eb;
     [apply forces_of_type_nil in Eb; destruct Eb; apply Hcb;
      destruct (forces_of_type_head _ _ _ _ Ed) as (f & Hf & Ht);
      exists f; split; [by eapply list_elem_of_lookup_2|done]
     |eexists; unfold init_forces; mrun; rewrite Enb; mrun; rewrite Ec; mrun;
      rewrite Ed; mrun; rewrite Eb; mrun; reflexivity]).
Qed.

Lemma init_forces_bond w w' :
  self w !! "system" = Some VSystem ->
  init_forces w = Ok tt w' ->
  has_force DrudeForce (system w) -> has_force CustomBondForce (system w).
Proof.
  intros Hs Hrun Hd.
  destruct (forces_of_type CustomBondForce (system w)) as [|b bs] eqn:Eb.
  - exfalso. revert Hrun. unfold init_forces. mrun.
    destruct (forces_of_type NonbondedForce (system w)) as [|nb nbs];
      [discriminate|]. mrun.
    destruct (forces_of_type DrudeForce (system w)) as [|d ds] eqn:Ed.
    { apply forces_of_type_nil in Ed. done. }
    destruct (forces_of_type CustomNonbondedForce (system w)) as [|c cs];
      mrun; rewrite Ed; mrun; rewrite Eb; mrun; discriminate.
  - destruct (forces_of_type_head _ _ _ _ Eb) as (f & Hf & Ht).
    exists f. split; [by eapply list_elem_of_lookup_2|done].
Qed.

Lemma init_nonbonded_method_returns w m nb :
  self w !! "nonbonded_method" = Some (VPy m) ->
  self w !! "nbondedForce" = Some (VForce nb) ->
  (exists w', init_nonbonded_method w = Ok tt w') <->
  (m = PyStr "NoCutoff" \/ m = PyStr "PME").
Proof.
  intros Hm Hnb. split.
  - intros [w' Hrun]. revert Hrun. unfold init_nonbonded_method. mrun.
    destruct (py_eq_str m "NoCutoff") eqn:E1.
    { apply py_eq_str_true in E1. by left. }
    mrun. destruct (py_eq_str m "PME") eqn:E2.
    { apply py_eq_str_true in E2. by right. }
    mrun. discriminate.
  - intros [-> | ->]; eexists; unfold init_nonbonded_method; mrun; reflexivity.
Qed.

Lemma pyvalue_None_dec (v : pyvalue) : v = PyNone \/ v <> PyNone.
Proof. destruct v; [by left|right; discriminate..]. Qed.

Lemma init_rigid_bodies_returns E w rigid_body ff top pos :
  self w !! "rigid_body" = Some (VPy rigid_body) ->
  self w !! "forcefield" = Some (VForceField ff) ->
  self w !! "modeller" = Some (VModeller top pos) ->
  self w !! "system" = Some VSystem ->
  (exists w', init_rigid_bodies E w = Ok tt w') <->
  (rigid_body = PyNone \/ tests_evaluate ff rigid_body).
Proof.
  intros Hrb Hff Hm Hs.
  destruct (pyvalue_None_dec rigid_body) as [->|Hne].
  { split; [by left|]. intros _. exists w. by apply init_rigid_bodies_skip. }
  rewrite (init_rigid_bodies_outcome _ _ _ _ _ _ Hrb Hne Hff Hm Hs).
  pose proof (collected_outcome ff rigid_body) as Hout.
  destruct (names_in_templates (_templates ff) rigid_body
              (map fst (map_to_list (_templates ff))) []) as [e|names].
  - destruct Hout as [_ Hnot]. split; [intros [w' Hrun]; discriminate Hrun|].
    intros [?|Hev]; contradiction.
  - split; [by right|]. intros _. eauto.
Qed.

Lemma after_forces_state E pdb_list ff_xml_list kwargs w3 w4 :
  loaded E pdb_list ff_xml_list kwargs w3 ->
  init_forces w3 = Ok tt w4 ->
  loaded E pdb_list ff_xml_list kwargs w4 /\ forced (system w3) w4 /\
  system w4 = system w3 /\ out w4 = out w3.
Proof.
  intros Hld H4.
  destruct (init_forces_Ok _ _ (loaded_system _ _ _ _ _ Hld) H4)
    as (Hs & Ho & Hnb & Hc & Hp).
  split; [|split; [by split|done]].
  eapply (loaded_respects _ _ _ _ _ _ _ _ _ _ _ init_forces_frame); [|done..].
  solve_sub.
Qed.

Lemma nil_sub_later : forall key : string, key ∈ @nil string -> key ∈ later_keys.
Proof. intros ? Hin. by apply elem_of_nil in Hin. Qed.

Lemma nil_sub_integrator :
  forall key : string, key ∈ @nil string -> key = "integrator".
Proof. intros ? Hin. by apply elem_of_nil in Hin. Qed.

Lemma integrator_sub_later :
  forall key : string, key ∈ ["integrator"] -> key ∈ later_keys.
Proof. intros ? Hin. apply list_elem_of_singleton in Hin as ->. left. Qed.

Lemma integrator_sub_integrator :
  forall key : string, key ∈ ["integrator"] -> key = "integrator".
Proof. intros ? Hin. by apply list_elem_of_singleton in Hin. Qed.

Lemma loaded_barostat_attr E pdb_list ff_xml_list kwargs w :
  loaded E pdb_list ff_xml_list kwargs w ->
  barostat_off kwargs ->
  self w !! "npt_barostat" = Some (VPy (PyBool false)).
Proof.
  intros Hld Hoff. pose proof (loaded_barostat _ _ _ _ _ Hld) as Hb.
  destruct (kwargs !! "npt_barostat") as [v|] eqn:Hv; [|done].
  destruct Hb as [-> _]. by rewrite (Hoff v Hv).
Qed.

Lemma init_barostat_Ok_off E pdb_list ff_xml_list kwargs w w' :
  loaded E pdb_list ff_xml_list kwargs w ->
  init_barostat w = Ok tt w' ->
  barostat_off kwargs.
Proof.
  intros Hld Hrun v Hv. destruct (py_truthy v) eqn:Htrue; [|done]. exfalso.
  pose proof (loaded_barostat _ _ _ _ _ Hld) as Hb. rewrite Hv, Htrue in Hb.
  destruct Hb as (Hnpt & p0 & a & _ & Hconv & Hpa).
  destruct (conv_float_quantity _ _ _ _ Hconv) as [p ->].
  destruct (loaded_quantity _ _ _ _ _ "temperature" Hld) as [t Ht];
    [unfold quantity_keys; solve_elem|].
  rewrite (init_barostat_on w _ p t Hnpt eq_refl Hpa Ht
             (loaded_system _ _ _ _ _ Hld) (loaded_no_NPT _ _ _ _ _ Hld)) in Hrun.
  discriminate Hrun.
Qed.

Lemma loaded_integrator_returns E pdb_list ff_xml_list kwargs sys w :
  loaded E pdb_list ff_xml_list kwargs w -> forced sys w ->
  exists it,
    init_integrator w
    = Ok tt (mkWorld (<["integrator" := VIntegrator it]> (self w))
                     (system w) (out w)).
Proof.
  intros Hld Hfd.
  destruct (loaded_quantity _ _ _ _ _ "temperature" Hld) as [t Ht];
    [unfold quantity_keys; solve_elem|].
  destruct (loaded_quantity _ _ _ _ _ "friction" Hld) as [f Hf];
    [unfold quantity_keys; solve_elem|].
  destruct (loaded_quantity _ _ _ _ _ "temperature_drude" Hld) as [td Htd];
    [unfold quantity_keys; solve_elem|].
  destruct (loaded_quantity _ _ _ _ _ "friction_drude" Hld) as [fd Hfd'];
    [unfold quantity_keys; solve_elem|].
  destruct (loaded_quantity _ _ _ _ _ "timestep" Hld) as [dt Hdt];
    [unfold quantity_keys; solve_elem|].
  eexists.
  exact (init_integrator_run _ _ _ _ _ _ _ (forced_polarization _ _ Hfd)
           Ht Hf Htd Hfd' Hdt).
Qed.

Lemma rigid_body_usable_cases ff kwargs :
  rigid_body_usable ff kwargs <->
  (default PyNone (kwargs !! "rigid_body") = PyNone \/
   tests_evaluate ff (default PyNone (kwargs !! "rigid_body"))).
Proof.
  unfold rigid_body_usable.
  destruct (kwargs !! "rigid_body") as [v|]; simpl; [|split; [by left|done]].
  destruct v; simpl; split; try done; try (by left); try (by right);
    intros [H|H]; done.
Qed.

(** X4: once the system is created (lines 27-78 have returned), and with
    the engine's own calls returning, the constructor returns exactly when
    the system has a NonbondedForce, has no CustomNonbondedForce, has a
    CustomBondForce if it has a DrudeForce, the nonbonded method is
    'NoCutoff' or 'PME', the barostat switch is absent or falsy, and
    [rigid_body] is absent or [None] or every test [atom.type in rigid_body]
    that line 132 makes on the template atoms evaluates. *)
Theorem constructor_returns_iff
        E pdb_list residue_xml_list ff_xml_list kwargs w3 :
  init_through_load E pdb_list residue_xml_list ff_xml_list kwargs empty_world
  = Ok tt w3 ->
  (exists w', MM_base E pdb_list residue_xml_list ff_xml_list kwargs = Ok tt w') <->
  (has_force NonbondedForce (system w3) /\
   ~ has_force CustomNonbondedForce (system w3) /\
   (has_force DrudeForce (system w3) -> has_force CustomBondForce (system w3)) /\
   method_known kwargs /\
   barostat_off kwargs /\
   rigid_body_usable (load_ForceField E ff_xml_list) kwargs).
Proof.
  intros H3. rewrite (init_after_load _ _ _ _ _ _ H3).
  pose proof (through_load_loaded _ _ _ _ _ _ H3) as Hld3.
  split.
  - intros [w' H].
    apply bind_Ok_inv in H as ([] & w4 & H4 & H).
    apply bind_Ok_inv in H as ([] & w5 & H5 & H).
    apply bind_Ok_inv in H as ([] & w6 & H6 & H).
    apply bind_Ok_inv in H as ([] & w7 & H7 & H).
    apply bind_Ok_inv in H as ([] & w8 & H8 & H9).
    destruct (after_forces_state _ _ _ _ _ _ Hld3 H4) as (Hld4 & Hfd4 & _).
    pose proof (loaded_respects _ _ _ _ _ _ _ _ _ _ _ init_nonbonded_method_frame
                  nil_sub_later H5 Hld4) as Hld5.
    pose proof (forced_respects _ _ _ _ _ _ _ _ init_nonbonded_method_frame
                  nil_sub_integrator H5 Hfd4) as Hfd5.
    pose proof (loaded_respects _ _ _ _ _ _ _ _ _ _ _ init_custom_method_frame
                  nil_sub_later H6 Hld5) as Hld6.
    pose proof (loaded_respects _ _ _ _ _ _ _ _ _ _ _ init_barostat_frame
                  nil_sub_later H7 Hld6) as Hld7.
    pose proof (loaded_respects _ _ _ _ _ _ _ _ _ _ _ init_integrator_frame
                  integrator_sub_later H8 Hld7) as Hld8.
    destruct (forced_nb _ _ Hfd4) as (nb & rest & Enb & Hnb).
    split; [|split; [|split; [|split; [|split]]]].
    + destruct (forces_of_type_head _ _ _ _ Enb) as (f & Hf & Ht).
      exists f. split; [by eapply list_elem_of_lookup_2|done].
    + pose proof (forced_custom _ _ Hfd5) as Hc.
      destruct (forces_of_type CustomNonbondedForce (system w3)) as [|c cs] eqn:Ec.
      * by apply forces_of_type_nil.
      * rewrite (init_custom_method_object _ _ Hc) in H6. discriminate H6.
    + exact (init_forces_bond _ _ (loaded_system _ _ _ _ _ Hld3) H4).
    + apply (init_nonbonded_method_returns w4 _ nb
               (loaded_method _ _ _ _ _ Hld4) Hnb). eauto.
    + exact (init_barostat_Ok_off _ _ _ _ _ _ Hld6 H7).
    + apply rigid_body_usable_cases.
      destruct (loaded_objects _ _ _ _ _ Hld8) as (pdb0 & rest' & _ & Hff & Hm).
      apply (init_rigid_bodies_returns E w8 _ _ _ _
               (loaded_rigid_body _ _ _ _ _ Hld8) Hff Hm
               (loaded_system _ _ _ _ _ Hld8)). eauto.
  - intros (Hnb & Hnc & Hbond & Hmeth & Hoff & Hrb).
    destruct (init_forces_returns w3 (loaded_system _ _ _ _ _ Hld3) Hnb Hbond)
      as [w4 H4].
    destruct (after_forces_state _ _ _ _ _ _ Hld3 H4) as (Hld4 & Hfd4 & _).
    destruct (forced_nb _ _ Hfd4) as (nb & rest & Enb & Hattr).
    destruct (proj2 (init_nonbonded_method_returns w4 _ nb
                       (loaded_method _ _ _ _ _ Hld4) Hattr) Hmeth) as [w5 H5].
    pose proof (loaded_respects _ _ _ _ _ _ _ _ _ _ _ init_nonbonded_method_frame
                  nil_sub_later H5 Hld4) as Hld5.
    pose proof (forced_respects _ _ _ _ _ _ _ _ init_nonbonded_method_frame
                  nil_sub_integrator H5 Hfd4) as Hfd5.
    assert (init_custom_method w5 = Ok tt w5) as H6.
    { apply init_custom_method_none. rewrite (forced_custom _ _ Hfd5).
      apply forces_of_type_nil in Hnc. by rewrite Hnc. }
    assert (init_barostat w5 = Ok tt w5) as H7.
    { apply init_barostat_off. by eapply loaded_barostat_attr. }
    destruct (loaded_integrator_returns _ _ _ _ _ _ Hld5 Hfd5) as [it H8].
    pose proof (loaded_respects _ _ _ _ _ _ _ _ _ _ _ init_integrator_frame
                  integrator_sub_later H8 Hld5) as Hld8.
    destruct (loaded_objects _ _ _ _ _ Hld8) as (pdb0 & rest' & _ & Hff & Hm).
    destruct (proj2 (init_rigid_bodies_returns E _ _ _ _ _
                       (loaded_rigid_body _ _ _ _ _ Hld8) Hff Hm
                       (loaded_system _ _ _ _ _ Hld8))
                    (proj1 (rigid_body_usable_cases _ _) Hrb)) as [w' H9].
    exists w'.
    rewrite (bind_Ok_l _ _ _ _ _ H4), (bind_Ok_l _ _ _ _ _ H5),
      (bind_Ok_l _ _ _ _ _ H6), (bind_Ok_l _ _ _ _ _ H7), (bind_Ok_l _ _ _ _ _ H8).
    exact H9.
Qed.

Lemma kw_barostat_succeeds E kwargs w :
  (forall v, kwargs !! "npt_barostat" = Some v ->
             exists p a, kwargs !! "pressure" = Some p /\
                         conv_float E atmosphere p = inr a) ->
  exists w', kw_barostat E kwargs w = Ok tt w'.
Proof.
  intros Hp. unfold kw_barostat.
  destruct (kwargs !! "npt_barostat") as [v|]; [|eauto].
  destruct (Hp v eq_refl) as (p & a & -> & Ha).
  rewrite bind_run. simpl. rewrite bind_run, Ha. simpl. eauto.
Qed.

Lemma init_kwargs_returns E kwargs w :
  keywords_convert E kwargs -> exists w', init_kwargs E kwargs w = Ok tt w'.
Proof.
  intros [Hconv Hbaro]. unfold init_kwargs.
  assert (forall key conv, (key, conv) ∈ overrides E ->
            forall x, kwargs !! key = Some x -> exists a, conv x = inr a) as Hc.
  { intros key conv Hin x Hx. unfold overrides in Hin.
    rewrite !elem_of_cons, elem_of_nil in Hin.
    destruct Hin as [Heq|[Heq|[Heq|[Heq|[Heq|[Heq|[Heq|[Heq|[Heq|[]]]]]]]]]];
      injection Heq as -> ->;
      try (by eexists);
      (eapply Hconv; [|exact Hx]; unfold run_parameters; solve_elem). }
  destruct (kw_override_succeeds kwargs "temperature" (conv_int E kelvin) w)
    as (u1 & H1 & _); [apply Hc; unfold overrides; solve_elem|].
  destruct (kw_override_succeeds kwargs "temperature_drude" (conv_int E kelvin) u1)
    as (u2 & H2 & _); [apply Hc; unfold overrides; solve_elem|].
  destruct (kw_override_succeeds kwargs "friction" (conv_int E per_picosecond) u2)
    as (u3 & H3 & _); [apply Hc; unfold overrides; solve_elem|].
  destruct (kw_override_succeeds kwargs "friction_drude" (conv_int E per_picosecond) u3)
    as (u4 & H4 & _); [apply Hc; unfold overrides; solve_elem|].
  destruct (kw_override_succeeds kwargs "timestep" (conv_float E picoseconds) u4)
    as (u5 & H5 & _); [apply Hc; unfold overrides; solve_elem|].
  destruct (kw_override_succeeds kwargs "small_threshold" (conv_plain_float E) u5)
    as (u6 & H6 & _); [apply Hc; unfold overrides; solve_elem|].
  destruct (kw_override_succeeds kwargs "cutoff" (conv_float E nanometer) u6)
    as (u7 & H7 & _); [apply Hc; unfold overrides; solve_elem|].
  destruct (kw_override_succeeds kwargs "nonbonded_method" conv_copy u7)
    as (u8 & H8 & _); [apply Hc; unfold overrides; solve_elem|].
  destruct (kw_barostat_succeeds E kwargs u8 Hbaro) as (u9 & H9).
  destruct (kw_override_succeeds kwargs "rigid_body" conv_copy u9)
    as (w' & H10 & _); [apply Hc; unfold overrides; solve_elem|].
  exists w'.
  rewrite (bind_Ok_l _ _ _ _ _ H1), (bind_Ok_l _ _ _ _ _ H2),
    (bind_Ok_l _ _ _ _ _ H3), (bind_Ok_l _ _ _ _ _ H4), (bind_Ok_l _ _ _ _ _ H5),
    (bind_Ok_l _ _ _ _ _ H6), (bind_Ok_l _ _ _ _ _ H7), (bind_Ok_l _ _ _ _ _ H8),
    (bind_Ok_l _ _ _ _ _ H9).
  exact H10.
Qed.

Lemma init_kwargs_Ok_convert E kwargs w w' :
  init_kwargs E kwargs w = Ok tt w' -> keywords_convert E kwargs.
Proof.
  intros H. split.
  - intros key conv x Hin Hx.
    pose proof (init_kwargs_override _ _ _ _ _ _
                  (run_parameters_overrides _ _ _ Hin) H) as Ho.
    rewrite Hx in Ho. destruct Ho as (a & Ha & _). eauto.
  - intros v Hv. pose proof (init_kwargs_barostat _ _ _ _ H) as Hb.
    rewrite Hv in Hb. destruct Hb as (_ & p & a & Hp & Ha & _). eauto.
Qed.

Lemma init_load_returns E pdb0 rest residue_xml_list ff_xml_list w cutoff :
  self w !! "cutoff" = Some cutoff ->
  exists w', init_load E (pdb0 :: rest) residue_xml_list ff_xml_list w = Ok tt w'.
Proof.
  intros Hcut. unfold init_load. rewrite bind_run, for_each_emit.
  munfold. simpl.
  destruct (PDBFile E pdb0) as [top pos]. msimpl.
  destruct (addExtraParticles E (load_ForceField E ff_xml_list) (top, pos))
    as [top' pos']. msimpl. rewrite Hcut. msimpl. eauto.
Qed.

(** X5: lines 27-78 return, with the system created, exactly when
    [pdb_list] is not empty and the keyword values convert: every run
    parameter given is accepted by its [int] or [float], and [npt_barostat],
    when given at all, comes with a [pressure] that [float] accepts. *)
Theorem system_built_iff E pdb_list residue_xml_list ff_xml_list kwargs :
  (exists w3,
      init_through_load E pdb_list residue_xml_list ff_xml_list kwargs empty_world
      = Ok tt w3) <->
  (keywords_convert E kwargs /\ pdb_list <> []).
Proof.
  split.
  - intros [w3 H3]. apply through_load_inv in H3 as (w1 & w2 & Hd & Hk & Hl).
    split; [by eapply init_kwargs_Ok_convert|].
    apply init_load_Ok in Hl as (pdb0 & rest & _ & -> & _). discriminate.
  - intros [Hconv Hne]. destruct pdb_list as [|pdb0 rest]; [done|].
    destruct (init_kwargs_returns E kwargs (world_of (init_defaults empty_world)) Hconv)
      as [w2 Hk].
    assert ((init_defaults;; init_kwargs E kwargs) empty_world = Ok tt w2) as H2.
    { rewrite (bind_Ok_l _ _ empty_world tt (world_of (init_defaults empty_world)))
        by reflexivity. exact Hk. }
    destruct (kwargs_read_state _ _ _ H2) as (_ & _ & cutoff & Hcut).
    destruct (init_load_returns E pdb0 rest residue_xml_list ff_xml_list w2 cutoff Hcut)
      as [w3 Hl].
    exists w3. unfold init_through_load.
    rewrite (bind_Ok_l _ _ empty_world tt (world_of (init_defaults empty_world)))
      by reflexivity.
    by rewrite (bind_Ok_l _ _ _ _ _ Hk).
Qed.

(** In a constructor run that returns, lines 106-114 change nothing: the
    run is lines 27-104, then the integrator, then the rigid bodies. *)
Lemma constructed_phases E pdb_list residue_xml_list ff_xml_list kwargs w' :
  MM_base E pdb_list residue_xml_list ff_xml_list kwargs = Ok tt w' ->
  exists w3 w4 w5 it,
    init_through_load E pdb_list residue_xml_list ff_xml_list kwargs empty_world
    = Ok tt w3 /\
    init_forces w3 = Ok tt w4 /\
    init_nonbonded_method w4 = Ok tt w5 /\
    loaded E pdb_list ff_xml_list kwargs w5 /\ forced (system w3) w5 /\
    system w4 = system w3 /\ out w4 = out w3 /\
    forces_of_type CustomNonbondedForce (system w3) = [] /\
    barostat_off kwargs /\
    let w8 := mkWorld (<["integrator" := VIntegrator it]> (self w5))
                      (system w5) (out w5) in
    loaded E pdb_list ff_xml_list kwargs w8 /\
    init_rigid_bodies E w8 = Ok tt w'.
Proof.
  intros H. unfold MM_base in H.
  apply init_Ok_inv in H as [w1 w2 w3 w4 w5 w6 w7 w8 H1 H2 H3 H4 H5 H6 H7 H8 H9].
  pose proof (through_load_intro _ _ _ _ _ _ _ _ _ H1 H2 H3) as Hl.
  pose proof (through_load_loaded _ _ _ _ _ _ Hl) as Hld3.
  destruct (after_forces_state _ _ _ _ _ _ Hld3 H4) as (Hld4 & Hfd4 & Hs4 & Ho4).
  pose proof (loaded_respects _ _ _ _ _ _ _ _ _ _ _ init_nonbonded_method_frame
                nil_sub_later H5 Hld4) as Hld5.
  pose proof (forced_respects _ _ _ _ _ _ _ _ init_nonbonded_method_frame
                nil_sub_integrator H5 Hfd4) as Hfd5.
  assert (forces_of_type CustomNonbondedForce (system w3) = []) as Hnc.
  { pose proof (forced_custom _ _ Hfd5) as Hc.
    destruct (forces_of_type CustomNonbondedForce (system w3)) as [|c cs]; [done|].
    rewrite (init_custom_method_object _ _ Hc) in H6. discriminate H6. }
  assert (w6 = w5) as ->.
  { rewrite init_custom_method_none in H6; [by injection H6|].
    by rewrite (forced_custom _ _ Hfd5), Hnc. }
  pose proof (init_barostat_Ok_off _ _ _ _ _ _ Hld5 H7) as Hoff.
  assert (w7 = w5) as ->.
  { rewrite init_barostat_off in H7; [by injection H7|].
    by eapply loaded_barostat_attr. }
  destruct (loaded_integrator_returns _ _ _ _ _ _ Hld5 Hfd5) as [it Hit].
  rewrite Hit in H8. injection H8 as <-.
  exists w3, w4, w5, it. repeat (split; [assumption|]).
  split; [|exact H9].
  eapply (loaded_respects _ _ _ _ _ _ _ _ _ _ _ init_integrator_frame
            integrator_sub_later Hit Hld5).
Qed.

(** X6: a constructed object holds the default of lines 27-36 for every
    run parameter that was not given by keyword. *)
Theorem defaults_kept E pdb_list residue_xml_list ff_xml_list kwargs w' :
  MM_base E pdb_list residue_xml_list ff_xml_list kwargs = Ok tt w' ->
  forall key a,
    (key, a) ∈ default_table -> kwargs !! key = None ->
    self w' !! key = Some a.
Proof.
  intros H key a Hin Hnone.
  destruct (constructed_state _ _ _ _ _ _ H)
    as (w3 & w7 & w8 & _ & _ & _ & _ & _ & _ & _ & Hld & _ & _).
  assert (forall conv, (key, conv) ∈ overrides E ->
                       self w' !! key = default_attrs !! key) as Hov.
  { intros conv Hc. pose proof (loaded_override _ _ _ _ _ Hld key conv Hc) as Ho.
    by rewrite Hnone in Ho. }
  unfold default_table in Hin. rewrite !elem_of_cons, elem_of_nil in Hin.
  destruct Hin as [Heq|[Heq|[Heq|[Heq|[Heq|[Heq|[Heq|[Heq|[Heq|[Heq|[]]]]]]]]]]];
    injection Heq as -> ->.
  - rewrite (Hov (conv_int E kelvin)) by (unfold overrides; solve_elem). reflexivity.
  - rewrite (Hov (conv_int E kelvin)) by (unfold overrides; solve_elem). reflexivity.
  - rewrite (Hov (conv_int E per_picosecond)) by (unfold overrides; solve_elem).
    reflexivity.
  - rewrite (Hov (conv_int E per_picosecond)) by (unfold overrides; solve_elem).
    reflexivity.
  - rewrite (Hov (conv_float E picoseconds)) by (unfold overrides; solve_elem).
    reflexivity.
  - rewrite (Hov (conv_plain_float E)) by (unfold overrides; solve_elem). reflexivity.
  - rewrite (Hov (conv_float E nanometer)) by (unfold overrides; solve_elem).
    reflexivity.
  - rewrite (Hov conv_copy) by (unfold overrides; solve_elem). reflexivity.
  - pose proof (loaded_barostat _ _ _ _ _ Hld) as Hb. by rewrite Hnone in Hb.
  - rewrite (Hov conv_copy) by (unfold overrides; solve_elem). reflexivity.
Qed.








Lemma periodic_step_twice flag1 flag2 i f :
  periodic_step flag2 i (periodic_step flag1 i f)
  = periodic_step (PyBool (py_truthy flag1 || py_truthy flag2)) i f.
Proof.
  unfold periodic_step. simpl.
  destruct (usePeriodic f), (py_truthy flag1), (py_truthy flag2),
    (is_bonded_type (ftype f)); reflexivity.
Qed.

Lemma periodic_forces_twice flag1 flag2 fs :
  periodic_forces flag2 (periodic_forces flag1 fs)
  = periodic_forces (PyBool (py_truthy flag1 || py_truthy flag2)) fs.
Proof.
  apply list_eq. intros i. rewrite !lookup_periodic_forces.
  destruct (fs !! i) as [f|]; [|done]. simpl.
  case_bool_decide; [|done]. by rewrite periodic_step_twice.
Qed.

(** X9: [set_periodic_residue], whether it returns or raises, leaves the
    type, the nonbonded method and the barostat arguments of every force
    alone and never turns the periodic setting off: a force has it set
    afterwards exactly when it had before, or the flag is truthy, the force
    is of one of the four bonded types and the loop got to it (its index is
    at most 31). *)
Theorem set_periodic_residue_keeps flag w :
  self w !! "system" = Some VSystem ->
  let w' := world_of (set_periodic_residue flag w) in
  length (forces (system w')) = length (forces (system w)) /\
  forall i f',
    forces (system w') !! i = Some f' ->
    exists f,
      forces (system w) !! i = Some f /\
      ftype f' = ftype f /\
      nonbondedMethod f' = nonbondedMethod f /\
      barostat_args f' = barostat_args f /\
      usePeriodic f'
      = usePeriodic f
        || (py_truthy flag && is_bonded_type (ftype f) && bool_decide (i <= 31)%nat).
Proof.
  intros Hs w'. subst w'. rewrite (set_periodic_residue_run flag w Hs). simpl.
  assert (forall o : outcome unit,
             o = Ok tt (mkWorld (self w)
                          (mkSystem (periodic_forces flag (forces (system w)))) (out w))
             \/ o = Raise OpenMMException
                      (mkWorld (self w)
                         (mkSystem (periodic_forces flag (forces (system w)))) (out w)) ->
             forces (system (world_of o))
             = periodic_forces flag (forces (system w))) as Hw
    by (intros o [-> | ->]; reflexivity).
  rewrite Hw by (case_bool_decide; [by left|by right]).
  split; [apply length_periodic_forces|].
  intros i f'. rewrite lookup_periodic_forces.
  destruct (forces (system w) !! i) as [f|]; [|discriminate].
  simpl. intros [= <-]. exists f. split; [done|].
  unfold max_force_group. case_bool_decide; simpl.
  - by rewrite andb_true_r.
  - by rewrite andb_false_r, orb_false_r.
Qed.

(** X10: on a system of at most 32 forces, two calls of
    [set_periodic_residue] in a row act as one call whose flag is the
    disjunction of the two flags: the call is idempotent, and a later falsy
    flag does not undo an earlier truthy one.  With more forces the first
    call raises and the second is never made. *)
Theorem set_periodic_residue_twice flag1 flag2 w :
  self w !! "system" = Some VSystem ->
  ((length (forces (system w)) <= 32)%nat ->
   (set_periodic_residue flag1;; set_periodic_residue flag2) w
   = set_periodic_residue (PyBool (py_truthy flag1 || py_truthy flag2)) w) /\
  ((32 < length (forces (system w)))%nat ->
   (set_periodic_residue flag1;; set_periodic_residue flag2) w
   = set_periodic_residue flag1 w /\
   exists w', set_periodic_residue flag1 w = Raise OpenMMException w').
Proof.
  intros Hs. split.
  - intros Hle.
    pose proof (set_periodic_residue_run flag1 w Hs) as H1. simpl in H1.
    rewrite bool_decide_true in H1 by (unfold max_force_group; lia).
    rewrite (bind_Ok_l _ _ _ _ _ H1).
    rewrite !set_periodic_residue_run by done. simpl.
    rewrite length_periodic_forces, periodic_forces_twice. done.
  - intros Hgt.
    pose proof (set_periodic_residue_run flag1 w Hs) as H1. simpl in H1.
    rewrite bool_decide_false in H1 by (unfold max_force_group; lia).
    split; [|eauto]. rewrite H1. by apply bind_Raise_l.
Qed.

Lemma constructed_no_simmd E pdb_list residue_xml_list ff_xml_list kwargs w' :
  MM_base E pdb_list residue_xml_list ff_xml_list kwargs = Ok tt w' ->
  self w' !! "simmd" = None.
Proof.
  intros H.
  destruct (respects_Ok _ _ _ _ _ (init_footprint E _ _ _ _) H) as (Hs & _).
  rewrite Hs; [done|]. unfold init_keys, default_keys, force_keys. solve_elem.
Qed.

(** X11: the constructor creates no simulation.  On a freshly constructed
    object [set_trajectory_output] raises [AttributeError] for [simmd] and
    changes nothing, and so does [generate_exclusions] when
    [flag_SAPT_FF_exclusions] is falsy: [set_platform] has to come first. *)
Theorem methods_need_platform
        E pdb_list residue_xml_list ff_xml_list kwargs w'
        filename write_frequency append_trajectory checkpointfile
        write_checkpoint_frequency water_name hybrid sapt :
  MM_base E pdb_list residue_xml_list ff_xml_list kwargs = Ok tt w' ->
  set_trajectory_output filename write_frequency append_trajectory
                        checkpointfile write_checkpoint_frequency w'
  = Raise (AttributeError "simmd") w' /\
  (py_truthy sapt = false ->
   generate_exclusions E water_name hybrid sapt w'
   = Raise (AttributeError "simmd") w').
Proof.
  intros H. pose proof (constructed_no_simmd _ _ _ _ _ _ H) as Hno.
  split.
  - unfold set_trajectory_output. mrun. reflexivity.
  - intros Hs. unfold generate_exclusions. rewrite Hs. mrun.
    destruct (py_truthy hybrid); mrun; reflexivity.
Qed.

Lemma set_platform_named w top pos it name :
  self w !! "modeller" = Some (VModeller top pos) ->
  self w !! "system" = Some VSystem ->
  self w !! "integrator" = Some (VIntegrator it) ->
  name ∈ platform_names ->
  set_platform (PyStr name) w
  = Ok tt (mkWorld
             (with_platform name
                (mkSimulation top it name (platform_properties name) []
                              (mkContext pos 0))
                (self w))
             (system w) (out w)).
Proof.
  intros Hm Hs Hi Hin. unfold platform_names in Hin.
  repeat (apply elem_of_cons in Hin as [->|Hin]); [| | | |by apply elem_of_nil in Hin];
    unfold set_platform, with_platform; mrun; rewrite ?insert_insert_eq; reflexivity.
Qed.

(** X12: on a constructed object [set_platform] with one of the four known
    names returns.  The simulation is built from the modeller topology (after
    the extra particles), the integrator the constructor made and the named
    platform, its context holds the modeller positions, and nothing changes
    besides [platform], [properties] (CUDA only) and [simmd]. *)
Theorem constructed_then_set_platform
        E pdb0 rest residue_xml_list ff_xml_list kwargs w' name :
  MM_base E (pdb0 :: rest) residue_xml_list ff_xml_list kwargs = Ok tt w' ->
  name ∈ platform_names ->
  let m := addExtraParticles E (load_ForceField E ff_xml_list) (PDBFile E pdb0) in
  exists it,
    self w' !! "integrator" = Some (VIntegrator it) /\
    set_platform (PyStr name) w'
    = Ok tt (mkWorld
               (with_platform name
                  (mkSimulation m.1 it name (platform_properties name) []
                                (mkContext m.2 0))
                  (self w'))
               (system w') (out w')).
Proof.
  intros H Hin m.
  destruct (constructed_phases _ _ _ _ _ _ H)
    as (w3 & w4 & w5 & it & _ & _ & _ & _ & _ & _ & _ & _ & _ & Hld8 & H9).
  destruct (respects_Ok _ _ _ _ _ (init_rigid_bodies_frame E) H9) as (Hs & _).
  pose proof (loaded_respects _ _ _ _ _ _ _ _ _ _ _ (init_rigid_bodies_frame E)
                nil_sub_later H9 Hld8) as Hld.
  assert (self w' !! "integrator" = Some (VIntegrator it)) as Hit.
  { rewrite Hs by apply not_elem_of_nil. simpl. by rewrite lookup_insert_eq. }
  exists it. split; [exact Hit|].
  destruct (loaded_objects _ _ _ _ _ Hld) as (pdb0' & rest' & [= <- <-] & _ & Hm).
  apply set_platform_named; [exact Hm|by eapply loaded_system|exact Hit|exact Hin].
Qed.

(** X13: the bodies of lines 136-143.  No body is empty, there are at most
    as many bodies as residues, and concatenated they are what the inner loop
    gives when run over all atoms of the topology at once: every atom with a
    collected name is in exactly one body, in topology order. *)
Theorem rigid_bodies_partition names ress :
  let bodies := bodies_of names ress [] in
  ([] ∉ bodies) /\
  concat bodies = body_of names (concat (map _atoms ress)) [] /\
  (length bodies <= length ress)%nat.
Proof.
  simpl. rewrite bodies_of_filter, body_of_filter. simpl.
  induction ress as [|res rest (IH1 & IH2 & IH3)]; simpl.
  - split; [apply not_elem_of_nil|]. split; [done|lia].
  - rewrite List.filter_app, map_app. fold (residue_body names res).
    destruct (residue_body names res) as [|i body] eqn:Hb; simpl.
    + split; [done|]. split; [done|lia].
    + split; [|split; [by rewrite IH2|lia]].
      rewrite not_elem_of_cons. split; [done|exact IH1].
Qed.

Lemma bind_ext {A B} (m m' : M A) (k k' : A -> M B) w :
  m w = m' w -> (forall a w1, k a w1 = k' a w1) ->
  (m ≫= k) w = (m' ≫= k') w.
Proof.
  intros Hm Hk. rewrite !bind_run, Hm. destruct (m' w); [apply Hk|done].
Qed.

Lemma kw_override_agree kwargs kwargs' key conv :
  kwargs !! key = kwargs' !! key ->
  kw_override kwargs key conv = kw_override kwargs' key conv.
Proof. intros H. unfold kw_override. by rewrite H. Qed.

Lemma kw_barostat_agree E kwargs kwargs' :
  kwargs !! "npt_barostat" = kwargs' !! "npt_barostat" ->
  kwargs !! "pressure" = kwargs' !! "pressure" ->
  kw_barostat E kwargs = kw_barostat E kwargs'.
Proof. intros H1 H2. unfold kw_barostat. by rewrite H1, H2. Qed.

Lemma init_kwargs_agree E kwargs kwargs' :
  (forall key, key ∈ known_keywords -> kwargs !! key = kwargs' !! key) ->
  forall w, init_kwargs E kwargs w = init_kwargs E kwargs' w.
Proof.
  intros Hk. unfold init_kwargs.
  assert (forall key conv, key ∈ known_keywords ->
            kw_override kwargs key conv = kw_override kwargs' key conv) as Ho.
  { intros key conv Hin. apply kw_override_agree, Hk, Hin. }
  rewrite !Ho by (unfold known_keywords, default_keys; solve_elem).
  rewrite (kw_barostat_agree E kwargs kwargs')
    by (apply Hk; unfold known_keywords, default_keys; solve_elem).
  done.
Qed.

(** X14: keywords other than the eleven that lines 39-59 read are ignored:
    two keyword dictionaries that agree on these give the same run. *)
Theorem unknown_keywords_ignored
        E pdb_list residue_xml_list ff_xml_list kwargs kwargs' :
  (forall key, key ∈ known_keywords -> kwargs !! key = kwargs' !! key) ->
  MM_base E pdb_list residue_xml_list ff_xml_list kwargs
  = MM_base E pdb_list residue_xml_list ff_xml_list kwargs'.
Proof.
  intros Hk. unfold MM_base, __init__.
  apply bind_ext; [done|]. intros [] w1.
  apply bind_ext; [by apply init_kwargs_agree|]. done.
Qed.

Lemma bind_Raise_inv {A B} (m : M A) (k : A -> M B) w e w' :
  (m ≫= k) w = Raise e w' ->
  m w = Raise e w' \/ exists a w1, m w = Ok a w1 /\ k a w1 = Raise e w'.
Proof.
  rewrite bind_run. destruct (m w) as [a w1|e1 w1]; [eauto|].
  intros [= -> ->]. by left.
Qed.

Lemma kw_override_Raise kwargs key conv w e w' :
  kw_override kwargs key conv w = Raise e w' ->
  exists v, kwargs !! key = Some v /\ conv v = inl e.
Proof.
  unfold kw_override. destruct (kwargs !! key) as [v|]; [|discriminate].
  rewrite bind_run. destruct (conv v) as [e1|a] eqn:Hc; simpl; [|discriminate].
  intros [= -> _]. eauto.
Qed.

Lemma kw_barostat_Raise E kwargs w e w' :
  kw_barostat E kwargs w = Raise e w' ->
  (e = KeyError "pressure" /\ kwargs !! "pressure" = None /\
   kwargs !! "npt_barostat" <> None) \/
  exists p, kwargs !! "pressure" = Some p /\ conv_float E atmosphere p = inl e.
Proof.
  unfold kw_barostat. destruct (kwargs !! "npt_barostat") as [v|]; [|discriminate].
  rewrite bind_run. simpl. destruct (kwargs !! "pressure") as [p|].
  - rewrite bind_run.
    destruct (conv_float E atmosphere p) as [e1|a] eqn:Hc; simpl; [|discriminate].
    intros [= -> _]. right. eauto.
  - simpl. intros [= <- _]. left. done.
Qed.

Lemma init_kwargs_Raise E kwargs w e w' :
  init_kwargs E kwargs w = Raise e w' ->
  (e = KeyError "pressure" /\ kwargs !! "pressure" = None /\
   kwargs !! "npt_barostat" <> None) \/
  exists key conv v,
    (key, conv) ∈ keyword_conversions E /\ kwargs !! key = Some v /\
    conv v = inl e.
Proof.
  unfold init_kwargs. intros H.
  assert (forall key conv u u',
            (key, conv) ∈ keyword_conversions E ->
            kw_override kwargs key conv u = Raise e u' ->
            exists key conv v,
              (key, conv) ∈ keyword_conversions E /\ kwargs !! key = Some v /\
              conv v = inl e) as Hov.
  { intros key conv u u' Hin Hr.
    apply kw_override_Raise in Hr as (v & Hv & Hc). eauto 10. }
  do 7 (apply bind_Raise_inv in H as [H|([] & ? & _ & H)];
        [right; eapply Hov; [|exact H];
         unfold keyword_conversions, run_parameters; solve_elem|]).
  apply bind_Raise_inv in H as [H|([] & ? & _ & H)].
  { apply kw_override_Raise in H as (v & _ & Hc). discriminate Hc. }
  apply bind_Raise_inv in H as [H|([] & ? & _ & H)].
  { apply kw_barostat_Raise in H as [H|(p & Hp & Hc)]; [by left|].
    right. exists "pressure", (conv_float E atmosphere), p.
    split; [|done]. unfold keyword_conversions, run_parameters. solve_elem. }
  apply kw_override_Raise in H as (v & _ & Hc). discriminate Hc.
Qed.

Lemma init_defaults_returns w : exists w1, init_defaults w = Ok tt w1.
Proof. unfold init_defaults. munfold. simpl. eexists. reflexivity. Qed.

(** X15: when the keyword values do not convert, the constructor raises
    before anything is loaded (no output, no system): either [KeyError] for
    'pressure', when [npt_barostat] is given without it, or the exception
    that [int] or [float] raised on the value of a run parameter or of the
    pressure. *)
Theorem invalid_keyword_rejected_early
        E pdb_list residue_xml_list ff_xml_list kwargs :
  ~ keywords_convert E kwargs ->
  exists e w,
    MM_base E pdb_list residue_xml_list ff_xml_list kwargs = Raise e w /\
    system w = mkSystem [] /\ out w = [] /\
    ((e = KeyError "pressure" /\ kwargs !! "pressure" = None /\
      kwargs !! "npt_barostat" <> None) \/
     exists key conv v,
       (key, conv) ∈ keyword_conversions E /\ kwargs !! key = Some v /\
       conv v = inl e).
Proof.
  intros Hnot. destruct (init_defaults_returns empty_world) as [w1 Hd].
  pose proof (respects_Ok _ _ _ _ _ init_defaults_silent Hd) as Fd.
  pose proof (init_kwargs_silent E kwargs w1) as Fk.
  destruct (init_kwargs E kwargs w1) as [[] w2|e w2] eqn:Hk.
  { exfalso. apply Hnot. by eapply init_kwargs_Ok_convert. }
  simpl in Fk. exists e, w2. split; [|split; [|split]].
  - unfold MM_base, __init__. rewrite (bind_Ok_l _ _ _ _ _ Hd).
    by apply bind_Raise_l.
  - destruct Fd as (_ & Hs1 & _), Fk as (_ & Hs2 & _). by rewrite Hs2, Hs1.
  - by rewrite (frame_silent _ _ _ _ Fk), (frame_silent _ _ _ _ Fd).
  - by eapply init_kwargs_Raise.
Qed.

Lemma init_load_pdb E pdb_list residue_xml_list ff_xml_list w w' :
  init_load E pdb_list residue_xml_list ff_xml_list w = Ok tt w' ->
  is_Some (self w' !! "pdb").
Proof.
  unfold init_load. rewrite bind_run, for_each_emit.
  destruct pdb_list as [|pdb0 rest]; [munfold; simpl; discriminate|].
  munfold. simpl.
  destruct (PDBFile E pdb0) as [top pos] eqn:Hpdb.
  msimpl.
  destruct (addExtraParticles E (load_ForceField E ff_xml_list) (top, pos))
    as [top' pos'] eqn:Hadd.
  msimpl.
  destruct (self w !! "cutoff") as [cutoff|] eqn:Hcut; [|discriminate].
  intros [= <-]. msimpl. eauto.
Qed.

Lemma later_footprint E :
  respects (frame later_keys false any_event)
           (init_forces;; init_nonbonded_method;; init_custom_method;;
            init_barostat;; init_integrator;; init_rigid_bodies E).
Proof.
  assert (forall key : string, key ∈ force_keys -> key ∈ later_keys) as Hf
    by (intros key Hin; by right).
  apply respects_bind; [apply _| |intros ?].
  { eapply respects_weaken; [apply init_forces_frame|exact Hf|done|done]. }
  apply respects_bind; [apply _| |intros ?].
  { eapply respects_weaken;
      [apply init_nonbonded_method_frame|exact nil_sub_later|done|done]. }
  apply respects_bind; [apply _| |intros ?].
  { eapply respects_weaken;
      [apply init_custom_method_frame|exact nil_sub_later|done|done]. }
  apply respects_bind; [apply _| |intros ?].
  { eapply respects_weaken; [apply init_barostat_frame|exact nil_sub_later|done|done]. }
  apply respects_bind; [apply _| |intros ?].
  { eapply respects_weaken;
      [apply init_integrator_frame|exact integrator_sub_later|done|done]. }
  eapply respects_weaken;
    [apply (init_rigid_bodies_frame E)|exact nil_sub_later|done|done].
Qed.

(** X16: the attributes of a constructed object.  The ten run parameters,
    [pdb], [modeller], [forcefield], [system], [nbondedForce],
    [customNonbondedForce], [polarization] and [integrator] are always set,
    and no attribute is set besides these, [pressure], [drudeForce] and
    [custombond]. *)
Theorem constructed_attributes
        E pdb_list residue_xml_list ff_xml_list kwargs w' :
  MM_base E pdb_list residue_xml_list ff_xml_list kwargs = Ok tt w' ->
  (forall key, key ∈ required_keys -> is_Some (self w' !! key)) /\
  (forall key, is_Some (self w' !! key) -> key ∈ init_keys).
Proof.
  intros H. split.
  - destruct (constructed_state _ _ _ _ _ _ H)
      as (w3 & w7 & w8 & H3 & H8 & H9 & Hld7 & _ & _ & _ & Hld & Hfd & _).
    assert (is_Some (self w' !! "pdb")) as Hpdb.
    { pose proof H as H'. rewrite (init_after_load _ _ _ _ _ _ H3) in H'.
      destruct (respects_Ok _ _ _ _ _ (later_footprint E) H') as (Hs & _).
      rewrite Hs by (unfold later_keys, force_keys; solve_elem).
      apply through_load_inv in H3 as (w1 & w2 & _ & _ & Hl).
      by eapply init_load_pdb. }
    assert (is_Some (self w' !! "integrator")) as Hint.
    { destruct (constructed_phases _ _ _ _ _ _ H)
        as (? & ? & w5 & it & _ & _ & _ & _ & _ & _ & _ & _ & _ & _ & Hr).
      destruct (respects_Ok _ _ _ _ _ (init_rigid_bodies_frame E) Hr) as (Hs & _).
      rewrite Hs by apply not_elem_of_nil. simpl. rewrite lookup_insert_eq. eauto. }
    assert (forall key conv, (key, conv) ∈ overrides E -> is_Some (self w' !! key))
      as Hov.
    { intros key conv Hin.
      pose proof (loaded_override _ _ _ _ _ Hld key conv Hin) as Ho.
      destruct (kwargs !! key).
      - destruct Ho as (a & _ & ->). eauto.
      - rewrite Ho. unfold overrides in Hin.
        rewrite !elem_of_cons, elem_of_nil in Hin.
        destruct Hin as [Heq|[Heq|[Heq|[Heq|[Heq|[Heq|[Heq|[Heq|[Heq|[]]]]]]]]]];
          injection Heq as -> _; eexists; reflexivity. }
    intros key Hin. unfold required_keys, default_keys in Hin. simpl in Hin.
    rewrite !elem_of_cons, elem_of_nil in Hin.
    destruct Hin as [->|[->|[->|[->|[->|[->|[->|[->|[->|[->|[->|[->|[->|[->|
                    [->|[->|[->|[->|[]]]]]]]]]]]]]]]]]]].
    + apply (Hov _ (conv_int E kelvin)). unfold overrides. solve_elem.
    + apply (Hov _ (conv_int E kelvin)). unfold overrides. solve_elem.
    + apply (Hov _ (conv_int E per_picosecond)). unfold overrides. solve_elem.
    + apply (Hov _ (conv_int E per_picosecond)). unfold overrides. solve_elem.
    + apply (Hov _ (conv_float E picoseconds)). unfold overrides. solve_elem.
    + apply (Hov _ (conv_plain_float E)). unfold overrides. solve_elem.
    + apply (Hov _ (conv_float E nanometer)). unfold overrides. solve_elem.
    + apply (Hov _ conv_copy). unfold overrides. solve_elem.
    + pose proof (loaded_barostat _ _ _ _ _ Hld) as Hb.
      destruct (kwargs !! "npt_barostat"); [destruct Hb as [-> _]|rewrite Hb]; eauto.
    + apply (Hov _ conv_copy). unfold overrides. solve_elem.
    + exact Hpdb.
    + destruct (loaded_objects _ _ _ _ _ Hld) as (? & ? & _ & _ & ->). eauto.
    + destruct (loaded_objects _ _ _ _ _ Hld) as (? & ? & _ & -> & _). eauto.
    + rewrite (loaded_system _ _ _ _ _ Hld). eauto.
    + destruct (forced_nb _ _ Hfd) as (? & ? & _ & ->). eauto.
    + rewrite (forced_custom _ _ Hfd). eauto.
    + rewrite (forced_polarization _ _ Hfd). eauto.
    + exact Hint.
  - intros key [a Ha].
    destruct (decide (key ∈ init_keys)) as [Hin|Hnot]; [exact Hin|].
    destruct (respects_Ok _ _ _ _ _ (init_footprint E _ _ _ _) H) as (Hs & _).
    rewrite (Hs key Hnot) in Ha. discriminate Ha.
Qed.

(* ===================================================================== *)
(** ** The further properties at concrete inputs *)
(* ===================================================================== *)

Lemma empty_pdb_list_raises_witness :
  exists w2,
    (init_defaults;; init_kwargs E_plain ∅) empty_world = Ok tt w2 /\
    MM_base E_plain [] demo_residues demo_ff ∅
    = Raise IndexError
        (mkWorld (self w2) (mkSystem []) [LoadBondDefinitions "residues.xml"]).
Proof.
  exists (world_of ((init_defaults;; init_kwargs E_plain ∅) empty_world)).
  split; [vm_compute; reflexivity|].
  apply (proj2 (empty_pdb_list_raises E_plain demo_residues demo_ff ∅)).
  vm_compute. reflexivity.
Defined.

Lemma nonbonded_force_required_witness :
  exists w3,
    init_through_load E_bonded demo_pdb demo_residues demo_ff ∅ empty_world
    = Ok tt w3 /\
    ~ has_force NonbondedForce (system w3) /\
    MM_base E_bonded demo_pdb demo_residues demo_ff ∅ = Raise IndexError w3.
Proof.
  exists (world_of (init_through_load E_bonded demo_pdb demo_residues demo_ff ∅
                      empty_world)).
  assert (~ has_force NonbondedForce
            (system (world_of (init_through_load E_bonded demo_pdb demo_residues
                                 demo_ff ∅ empty_world)))) as Hno.
  { apply forces_of_type_nil. vm_compute. reflexivity. }
  split; [vm_compute; reflexivity|]. split; [exact Hno|].
  apply (nonbonded_force_required E_bonded demo_pdb demo_residues demo_ff ∅);
    [vm_compute; reflexivity | exact Hno].
Defined.

Lemma drude_requires_custom_bond_witness :
  exists w3,
    init_through_load E_drude_bare demo_pdb demo_residues demo_ff ∅ empty_world
    = Ok tt w3 /\
    has_force DrudeForce (system w3) /\
    ~ has_force CustomBondForce (system w3) /\
    exists w',
      MM_base E_drude_bare demo_pdb demo_residues demo_ff ∅ = Raise IndexError w' /\
      self w' !! "polarization" = Some (VPy (PyBool true)) /\
      system w' = system w3 /\ out w' = out w3.
Proof.
  exists (world_of (init_through_load E_drude_bare demo_pdb demo_residues demo_ff ∅
                      empty_world)).
  assert (has_force NonbondedForce
            (system (world_of (init_through_load E_drude_bare demo_pdb demo_residues
                                 demo_ff ∅ empty_world)))) as Hnb.
  { exists (plain_force NonbondedForce). split; [|reflexivity].
    apply list_elem_of_In. vm_compute. tauto. }
  assert (has_force DrudeForce
            (system (world_of (init_through_load E_drude_bare demo_pdb demo_residues
                                 demo_ff ∅ empty_world)))) as Hd.
  { exists (plain_force DrudeForce). split; [|reflexivity].
    apply list_elem_of_In. vm_compute. tauto. }
  assert (~ has_force CustomBondForce
            (system (world_of (init_through_load E_drude_bare demo_pdb demo_residues
                                 demo_ff ∅ empty_world)))) as Hno.
  { apply forces_of_type_nil. vm_compute. reflexivity. }
  split; [vm_compute; reflexivity|]. split; [exact Hd|]. split; [exact Hno|].
  apply (drude_requires_custom_bond E_drude_bare demo_pdb demo_residues demo_ff ∅);
    [vm_compute; reflexivity | exact Hnb | exact Hd | exact Hno].
Defined.

Lemma constructor_returns_iff_witness :
  exists w3,
    init_through_load E_plain demo_pdb demo_residues demo_ff kw_rigid empty_world
    = Ok tt w3 /\
    ((exists w', MM_base E_plain demo_pdb demo_residues demo_ff kw_rigid = Ok tt w')
     <->
     (has_force NonbondedForce (system w3) /\
      ~ has_force CustomNonbondedForce (system w3) /\
      (has_force DrudeForce (system w3) -> has_force CustomBondForce (system w3)) /\
      method_known kw_rigid /\ barostat_off kw_rigid /\
      rigid_body_usable (load_ForceField E_plain demo_ff) kw_rigid)).
Proof.
  exists (world_of (init_through_load E_plain demo_pdb demo_residues demo_ff kw_rigid
                      empty_world)).
  split; [vm_compute; reflexivity|].
  apply (constructor_returns_iff E_plain demo_pdb demo_residues demo_ff kw_rigid).
  vm_compute. reflexivity.
Defined.

Lemma system_built_iff_witness :
  keywords_convert E_plain kw_temperature /\ demo_pdb <> [].
Proof.
  apply (system_built_iff E_plain demo_pdb demo_residues demo_ff kw_temperature).
  exists (world_of (init_through_load E_plain demo_pdb demo_residues demo_ff
                      kw_temperature empty_world)).
  vm_compute. reflexivity.
Defined.

Lemma defaults_kept_witness :
  exists w',
    MM_base E_plain demo_pdb demo_residues demo_ff kw_temperature = Ok tt w' /\
    self w' !! "cutoff"
    = Some (VQuantity (mkQuantity (NFloat (float_lit 14 10)) nanometer)).
Proof.
  exists (world_of (MM_base E_plain demo_pdb demo_residues demo_ff kw_temperature)).
  split; [vm_compute; reflexivity|].
  apply (defaults_kept E_plain demo_pdb demo_residues demo_ff kw_temperature).
  - vm_compute. reflexivity.
  - unfold default_table. solve_elem.
  - vm_compute. reflexivity.
Defined.



Lemma set_periodic_residue_keeps_witness :
  self constructed_world !! "system" = Some VSystem /\
  length (forces (system (world_of (set_periodic_residue (PyBool true)
                                                         constructed_world))))
  = length (forces (system constructed_world)) /\
  forall i f',
    forces (system (world_of (set_periodic_residue (PyBool true) constructed_world)))
    !! i = Some f' ->
    exists f,
      forces (system constructed_world) !! i = Some f /\
      ftype f' = ftype f /\
      nonbondedMethod f' = nonbondedMethod f /\
      barostat_args f' = barostat_args f /\
      usePeriodic f'
      = usePeriodic f
        || (py_truthy (PyBool true) && is_bonded_type (ftype f)
            && bool_decide (i <= 31)%nat).
Proof.
  split; [vm_compute; reflexivity|].
  apply (set_periodic_residue_keeps (PyBool true) constructed_world).
  vm_compute. reflexivity.
Defined.

Lemma set_periodic_residue_twice_witness :
  self constructed_world !! "system" = Some VSystem /\
  (length (forces (system constructed_world)) <= 32)%nat /\
  (set_periodic_residue (PyBool true);; set_periodic_residue (PyBool false))
    constructed_world
  = set_periodic_residue (PyBool (py_truthy (PyBool true) || py_truthy (PyBool false)))
                         constructed_world.
Proof.
  split; [vm_compute; reflexivity|]. split; [vm_compute; lia|].
  apply (proj1 (set_periodic_residue_twice (PyBool true) (PyBool false)
                  constructed_world ltac:(vm_compute; reflexivity))).
  vm_compute. lia.
Defined.

Lemma methods_need_platform_witness :
  exists w',
    MM_base E_plain demo_pdb demo_residues demo_ff ∅ = Ok tt w' /\
    set_trajectory_output (PyStr "md.dcd") (PyInt 1000) (PyBool false) PyNone
                          (PyInt 10000) w'
    = Raise (AttributeError "simmd") w' /\
    (py_truthy (PyBool false) = false ->
     generate_exclusions E_plain (PyStr "HOH") (PyBool true) (PyBool false) w'
     = Raise (AttributeError "simmd") w').
Proof.
  exists (world_of (MM_base E_plain demo_pdb demo_residues demo_ff ∅)).
  split; [vm_compute; reflexivity|].
  apply (methods_need_platform E_plain demo_pdb demo_residues demo_ff ∅).
  vm_compute. reflexivity.
Defined.

Lemma constructed_then_set_platform_witness :
  exists w',
    MM_base E_plain ("box.pdb" :: []) demo_residues demo_ff ∅ = Ok tt w' /\
    "CUDA" ∈ platform_names /\
    exists it,
      self w' !! "integrator" = Some (VIntegrator it) /\
      set_platform (PyStr "CUDA") w'
      = Ok tt (mkWorld
                 (with_platform "CUDA"
                    (mkSimulation water_topology it "CUDA"
                                  (Some [("Precision", "mixed")]) []
                                  (mkContext water_positions 0))
                    (self w'))
                 (system w') (out w')).
Proof.
  exists (world_of (MM_base E_plain ("box.pdb" :: []) demo_residues demo_ff ∅)).
  assert ("CUDA" ∈ platform_names) as Hin by (unfold platform_names; solve_elem).
  split; [vm_compute; reflexivity|]. split; [exact Hin|].
  apply (constructed_then_set_platform E_plain "box.pdb" [] demo_residues demo_ff ∅
           _ "CUDA"); [vm_compute; reflexivity | exact Hin].
Defined.

Lemma unknown_keywords_ignored_witness :
  kw_verbose !! "verbose" = Some (PyBool true) /\
  kw_temperature !! "verbose" = None /\
  MM_base E_plain demo_pdb demo_residues demo_ff kw_verbose
  = MM_base E_plain demo_pdb demo_residues demo_ff kw_temperature.
Proof.
  split; [vm_compute; reflexivity|]. split; [vm_compute; reflexivity|].
  apply (unknown_keywords_ignored E_plain demo_pdb demo_residues demo_ff
           kw_verbose kw_temperature).
  intros key Hin. unfold known_keywords, default_keys in Hin.
  repeat (apply elem_of_cons in Hin as [->|Hin]; [vm_compute; reflexivity|]).
  by apply elem_of_nil in Hin.
Defined.

Lemma invalid_keyword_rejected_early_witness :
  ~ keywords_convert E_plain kw_temperature_None /\
  exists e w,
    MM_base E_plain demo_pdb demo_residues demo_ff kw_temperature_None = Raise e w /\
    system w = mkSystem [] /\ out w = [] /\
    ((e = KeyError "pressure" /\ kw_temperature_None !! "pressure" = None /\
      kw_temperature_None !! "npt_barostat" <> None) \/
     exists key conv v,
       (key, conv) ∈ keyword_conversions E_plain /\
       kw_temperature_None !! key = Some v /\ conv v = inl e).
Proof.
  assert (~ keywords_convert E_plain kw_temperature_None) as Hnot.
  { intros [Hconv _].
    destruct (Hconv "temperature" (conv_int E_plain kelvin) PyNone) as [a Ha];
      [unfold run_parameters; solve_elem | vm_compute; reflexivity | discriminate Ha]. }
  split; [exact Hnot|].
  apply (invalid_keyword_rejected_early E_plain demo_pdb demo_residues demo_ff
           kw_temperature_None Hnot).
Defined.

Lemma constructed_attributes_witness :
  exists w',
    MM_base E_drude demo_pdb demo_residues demo_ff ∅ = Ok tt w' /\
    (forall key, key ∈ required_keys -> is_Some (self w' !! key)) /\
    (forall key, is_Some (self w' !! key) -> key ∈ init_keys).
Proof.
  exists (world_of (MM_base E_drude demo_pdb demo_residues demo_ff ∅)).
  split; [vm_compute; reflexivity|].
  apply (constructed_attributes E_drude demo_pdb demo_residues demo_ff ∅).
  vm_compute. reflexivity.
Defined.

(** The run of the example for X15, evaluated: [int(None)] raises
    [TypeError], and nothing was loaded. *)
Example temperature_None_rejected :
  MM_base E_plain demo_pdb demo_residues demo_ff kw_temperature_None
  = Raise TypeError (world_of (init_defaults empty_world)).
Proof. vm_compute. reflexivity. Qed.
